(** * The M&A daily report pipeline of [bg_report_html_pdf.py]

    A shallow embedding of the data-transformation core of the script
    ([DataProcessor.process], [DataProcessor.analyze],
    [ReportGenerator.generate*] and [main]) together with the Python
    built-ins the code relies on, followed by the properties that the
    natural-language specification states about them.

    Conventions.
    - A Python [str] is a list of Unicode code points ([pystr]); string
      literals of the script are written as UTF-8 Rocq strings and decoded
      by [lit].
    - A Python [float] is a sign, a mantissa and a binary exponent
      ([FFin neg m e] is [(-1)^neg * m * 2^e]) or one of the special values;
      parsing, conversion from [int], [repr] and the [,.2f] format are
      computed exactly over [Z].
    - [dict] objects built by the script live in a heap and are referred to
      by address, so that aliasing and [copy] are visible.
    - Python exceptions are the [Raise] results of an error-and-state monad. *)

From Stdlib Require Import ZArith List String Ascii Lia Bool.
From stdpp Require Import base option list gmap.
Import ListNotations.

Local Open Scope Z_scope.

(* ===================================================================== *)
(** ** Python strings                                                     *)
(* ===================================================================== *)

Module PyStr.

(** A string is the sequence of its code points. *)
Definition pystr := list Z.

(** Decoding of the UTF-8 bytes of a source literal. *)
Fixpoint utf8_decode (bs : list Z) : pystr :=
  match bs with
  | [] => []
  | b :: r =>
      if b <? 128 then b :: utf8_decode r
      else if b <? 224 then
        match r with
        | b1 :: r' => ((b - 192) * 64 + (b1 - 128)) :: utf8_decode r'
        | _ => []
        end
      else if b <? 240 then
        match r with
        | b1 :: b2 :: r' =>
            ((b - 224) * 4096 + (b1 - 128) * 64 + (b2 - 128)) :: utf8_decode r'
        | _ => []
        end
      else
        match r with
        | b1 :: b2 :: b3 :: r' =>
            ((b - 240) * 262144 + (b1 - 128) * 4096 + (b2 - 128) * 64 + (b3 - 128))
              :: utf8_decode r'
        | _ => []
        end
  end.

Definition bytes_of (s : string) : list Z :=
  map (fun a => Z.of_N (N_of_ascii a)) (list_ascii_of_string s).

(** [lit "..."] is the Python string written "..." in the script. *)
Definition lit (s : string) : pystr := utf8_decode (bytes_of s).

Definition str_eqb (a b : pystr) : bool := bool_decide (a = b).

Definition in_range (lo hi c : Z) : bool := (lo <=? c) && (c <=? hi).

(** [str.isspace] on one code point (Unicode 14 as shipped with CPython 3.11). *)
Definition py_isspace (c : Z) : bool :=
  in_range 9 13 c || in_range 28 32 c || (c =? 133) || (c =? 160)
  || (c =? 5760) || in_range 8192 8202 c || (c =? 8232) || (c =? 8233)
  || (c =? 8239) || (c =? 8287) || (c =? 12288).

Fixpoint lstrip (s : pystr) : pystr :=
  match s with
  | c :: r => if py_isspace c then lstrip r else s
  | [] => []
  end.

Definition rstrip (s : pystr) : pystr := rev (lstrip (rev s)).

(** [s.strip()] *)
Definition strip (s : pystr) : pystr := rstrip (lstrip s).

(** [str.lower] on one code point.  ASCII capitals are shifted; of all other
    code points only U+212A (KELVIN SIGN) and U+0130 (capital dotted I)
    lower to something containing an ASCII letter.  The remaining case
    mappings send non-ASCII letters to non-ASCII letters and are left as the
    identity here. *)
Definition lower_cp (c : Z) : pystr :=
  if in_range 65 90 c then [c + 32]
  else if c =? 8490 then [107]
  else if c =? 304 then [105; 775]
  else [c].

(** [s.lower()] *)
Definition lower (s : pystr) : pystr := flat_map lower_cp s.

(** [s[:n]] *)
Definition slice_to (n : nat) (s : pystr) : pystr := firstn n s.

Fixpoint is_prefix (p s : pystr) : bool :=
  match p, s with
  | [], _ => true
  | _ :: _, [] => false
  | a :: p', b :: s' => (a =? b) && is_prefix p' s'
  end.

(** [kw in s] for strings: substring search. *)
Fixpoint contains (kw s : pystr) : bool :=
  is_prefix kw s
  || match s with
     | [] => false
     | _ :: r => contains kw r
     end.

(** Decimal digits of a non-negative integer, most significant first. *)
Fixpoint digits_aux (fuel : nat) (n : Z) (acc : pystr) : pystr :=
  match fuel with
  | O => acc
  | S f =>
      let acc' := (48 + n mod 10) :: acc in
      if n <? 10 then acc' else digits_aux f (n / 10) acc'
  end.

Definition digits_of (n : Z) : pystr :=
  digits_aux (S (Z.to_nat (Z.log2 n))) n [].

(** [str(n)] for an [int]. *)
Definition str_of_int (n : Z) : pystr :=
  if n <? 0 then 45 :: digits_of (- n) else digits_of n.

(** Digits separated by commas in groups of three, as done by the [,]
    format option; the argument of [group_rev] is least significant first. *)
Fixpoint group_rev (l : pystr) : pystr :=
  match l with
  | a :: b :: c :: ((_ :: _) as r) => a :: b :: c :: 44 :: group_rev r
  | _ => l
  end.

Definition group3 (ds : pystr) : pystr := rev (group_rev (rev ds)).

End PyStr.
Export PyStr.

(* ===================================================================== *)
(** ** Python floats                                                      *)
(* ===================================================================== *)

Module PyFloat.

(** [FFin neg m e] denotes [(-1)^neg * m * 2^e]. *)
Inductive pyfloat : Type :=
  | FNan
  | FInf (neg : bool)
  | FFin (neg : bool) (m : N) (e : Z).

(** [a / b] rounded to the nearest integer, ties to even ([0 <= a], [0 < b]). *)
Definition div_half_even (a b : Z) : Z :=
  let q := a / b in
  let r := a mod b in
  if (b <? 2 * r) || ((2 * r =? b) && Z.odd q) then q + 1 else q.

(** [floor (log2 (n / d))] for positive [n] and [d]. *)
Definition ilog2 (n d : Z) : Z :=
  let l := Z.log2 n - Z.log2 d in
  if 0 <=? l
  then (if d * 2 ^ l <=? n then l else l - 1)
  else (if d <=? n * 2 ^ (- l) then l else l - 1).

(** The binary64 number nearest to [n / d] (ties to even), as mantissa and
    exponent; [None] when the rounded value does not fit (overflow). *)
Definition round_to_double (n d : Z) : option (Z * Z) :=
  if n =? 0 then Some (0, 0)
  else
    let e := Z.max (ilog2 n d - 52) (-1074) in
    let m := if 0 <=? e then div_half_even n (d * 2 ^ e)
             else div_half_even (n * 2 ^ (- e)) d in
    if (0 <=? e) && (2 ^ 1024 <=? m * 2 ^ e) then None else Some (m, e).

(** [float(n)] for an [int]: [None] stands for [OverflowError]. *)
Definition float_of_int (n : Z) : option pyfloat :=
  match round_to_double (Z.abs n) 1 with
  | Some (m, e) => Some (FFin (n <? 0) (Z.to_N m) e)
  | None => None
  end.

(** *** [float(s)] for a string *)

(** First code point of each block of ten decimal digits (category Nd). *)
Definition nd_zeros : list Z :=
  [48; 1632; 1776; 1984; 2406; 2534; 2662; 2790; 2918; 3046; 3174; 3302;
   3430; 3558; 3664; 3792; 3872; 4160; 4240; 6112; 6160; 6470; 6608; 6784;
   6800; 6992; 7088; 7232; 7248; 42528; 43216; 43264; 43472; 43504; 43600;
   44016; 65296; 66720; 68912; 69734; 69872; 69942; 70096; 70384; 70736;
   70864; 71248; 71360; 71472; 71904; 72016; 72784; 73040; 73120; 92768;
   92864; 93008; 120782; 120792; 120802; 120812; 120822; 123200; 123632;
   125264; 130032].

Definition decimal_value (c : Z) : option Z :=
  match find (fun z => in_range z (z + 9) c) nd_zeros with
  | Some z => Some (c - z)
  | None => None
  end.

(** Non-ASCII spaces become a blank, non-ASCII decimal digits their ASCII
    digit, any other non-ASCII code point a question mark. *)
Definition to_ascii (c : Z) : Z :=
  if c <? 127 then c
  else if py_isspace c then 32
  else match decimal_value c with
       | Some d => 48 + d
       | None => 63
       end.

(** The C locale [isspace] used to trim the transformed text. *)
Definition c_isspace (c : Z) : bool := in_range 9 13 c || (c =? 32).

Fixpoint c_lstrip (s : pystr) : pystr :=
  match s with
  | c :: r => if c_isspace c then c_lstrip r else s
  | [] => []
  end.

Definition c_strip (s : pystr) : pystr := rev (c_lstrip (rev (c_lstrip s))).

Definition is_digit (c : Z) : bool := in_range 48 57 c.

Definition ascii_lower (c : Z) : Z := if in_range 65 90 c then c + 32 else c.

(** Rest of a [digitpart]: digits, each optionally preceded by one
    underscore.  [acc] is the value read so far, [cnt] the number of digits. *)
Fixpoint digitpart_tail (s : pystr) (acc cnt : Z) : Z * Z * pystr :=
  match s with
  | c :: r =>
      if is_digit c then digitpart_tail r (acc * 10 + (c - 48)) (cnt + 1)
      else if c =? 95 then
        match r with
        | c2 :: r2 =>
            if is_digit c2
            then digitpart_tail r2 (acc * 10 + (c2 - 48)) (cnt + 1)
            else (acc, cnt, s)
        | [] => (acc, cnt, s)
        end
      else (acc, cnt, s)
  | [] => (acc, cnt, [])
  end.

Definition digitpart (s : pystr) (acc cnt : Z) : option (Z * Z * pystr) :=
  match s with
  | c :: r =>
      if is_digit c then Some (digitpart_tail r (acc * 10 + (c - 48)) (cnt + 1))
      else None
  | [] => None
  end.

(** [number ::= [digitpart] "." digitpart | digitpart ["."]]; the result is
    the integer spelled by all the digits, the number of digits after the
    point and the unread text. *)
Definition number (s : pystr) : option (Z * Z * pystr) :=
  match s with
  | 46 :: r => digitpart r 0 0
  | _ =>
      match digitpart s 0 0 with
      | Some (i, _, 46 :: r) =>
          match digitpart r i 0 with
          | Some res => Some res
          | None => Some (i, 0, r)
          end
      | Some (i, _, rest) => Some (i, 0, rest)
      | None => None
      end
  end.

(** [exponent ::= ("e" | "E") ["+" | "-"] digitpart], up to the end. *)
Definition exponent (s : pystr) : option Z :=
  match s with
  | [] => Some 0
  | c :: r =>
      if (c =? 101) || (c =? 69) then
        let '(neg, r') :=
          match r with
          | 43 :: r' => (false, r')
          | 45 :: r' => (true, r')
          | _ => (false, r)
          end in
        match digitpart r' 0 0 with
        | Some (v, _, []) => Some (if neg then - v else v)
        | _ => None
        end
      else None
  end.

(** The float with sign [neg] nearest to [n * 10^p]; overflow gives an
    infinity. *)
Definition float_of_decimal (neg : bool) (n p : Z) : pyfloat :=
  match (if 0 <=? p then round_to_double (n * 10 ^ p) 1
         else round_to_double n (10 ^ (- p))) with
  | Some (m, e) => FFin neg (Z.to_N m) e
  | None => FInf neg
  end.

(** [float(s)]: [None] stands for [ValueError]. *)
Definition float_of_str (s : pystr) : option pyfloat :=
  let t := c_strip (map to_ascii s) in
  let '(neg, body) :=
    match t with
    | 43 :: r => (false, r)
    | 45 :: r => (true, r)
    | _ => (false, t)
    end in
  let low := map ascii_lower body in
  if str_eqb low (lit "inf") || str_eqb low (lit "infinity") then Some (FInf neg)
  else if str_eqb low (lit "nan") then Some FNan
  else
    match number body with
    | Some (n, k, rest) =>
        match exponent rest with
        | Some x => Some (float_of_decimal neg n (x - k))
        | None => None
        end
    | None => None
    end.

(** *** Formatting *)

Definition two_digits (n : Z) : pystr := [48 + n / 10; 48 + n mod 10].

(** [round(|x| * 100)] with ties to even, for finite [x]. *)
Definition hundredths (m e : Z) : Z :=
  if 0 <=? e then m * 2 ^ e * 100 else div_half_even (m * 100) (2 ^ (- e)).

(** [f"{x:,.2f}"] *)
Definition format_2f (x : pyfloat) : pystr :=
  match x with
  | FNan => lit "nan"
  | FInf neg => (if neg then [45] else []) ++ lit "inf"
  | FFin neg m e =>
      let q := hundredths (Z.of_N m) e in
      (if neg then [45] else [])
        ++ group3 (digits_of (q / 100)) ++ [46] ++ two_digits (q mod 100)
  end.

(** Number of decimal digits of a positive integer. *)
Definition numdigits (n : Z) : Z := Z.of_nat (length (digits_of n)).

(** [floor (log10 (n / d))] for positive [n] and [d]. *)
Definition ilog10 (n d : Z) : Z :=
  if d <=? n then numdigits (n / d) - 1
  else - numdigits (- ((- d) / n) - 1).

(** [c * 10^k] read back as a binary64 number. *)
Definition reads_as (c k m e : Z) : bool :=
  match (if 0 <=? k then round_to_double (c * 10 ^ k) 1
         else round_to_double c (10 ^ (- k))) with
  | Some (m', e') =>
      (* m' * 2^e' = m * 2^e *)
      let lo := Z.min e e' in
      m' * 2 ^ (e' - lo) =? m * 2 ^ (e - lo)
  | None => false
  end.

(** Shortest decimal [c * 10^k] that reads back as [m * 2^e], the closest
    one to it among those of that length; [p] counts the digits tried. *)
Fixpoint shortest (fuel : nat) (p : Z) (m e : Z) : Z * Z :=
  let n := if 0 <=? e then m * 2 ^ e else m in
  let d := if 0 <=? e then 1 else 2 ^ (- e) in
  let k := ilog10 n d - p + 1 in
  let num := if 0 <=? k then n else n * 10 ^ (- k) in
  let den := if 0 <=? k then d * 10 ^ k else d in
  match fuel with
  | O => (div_half_even num den, k)
  | S f =>
      let lo := num / den in
      let ok_lo := (0 <? lo) && reads_as lo k m e in
      let ok_hi := reads_as (lo + 1) k m e in
      if ok_lo && ok_hi then
        (* both fit: the nearer one, the even one on a tie *)
        let r2 := 2 * (num mod den) in
        if r2 <? den then (lo, k)
        else if den <? r2 then (lo + 1, k)
        else if Z.even lo then (lo, k) else (lo + 1, k)
      else if ok_lo then (lo, k)
      else if ok_hi then (lo + 1, k)
      else shortest f (p + 1) m e
  end.

Fixpoint rstrip_zeros_rev (l : pystr) : pystr :=
  match l with
  | 48 :: r => rstrip_zeros_rev r
  | _ => l
  end.

Definition zeros (n : Z) : pystr := repeat 48 (Z.to_nat n).

(** [repr(x)], which is also [str(x)] and what an f-string inserts. *)
Definition float_repr (x : pyfloat) : pystr :=
  match x with
  | FNan => lit "nan"
  | FInf neg => (if neg then [45] else []) ++ lit "inf"
  | FFin neg m e =>
      (if neg then [45] else []) ++
      if (m =? 0)%N then lit "0.0"
      else
        let '(c, k) := shortest 16 1 (Z.of_N m) e in
        let all := digits_of c in
        let decpt := Z.of_nat (length all) + k in
        let ds := rev (rstrip_zeros_rev (rev all)) in
        let len := Z.of_nat (length ds) in
        if (-4 <? decpt) && (decpt <=? 16) then
          if decpt <=? 0 then lit "0." ++ zeros (- decpt) ++ ds
          else if len <=? decpt then ds ++ zeros (decpt - len) ++ lit ".0"
          else firstn (Z.to_nat decpt) ds ++ [46] ++ skipn (Z.to_nat decpt) ds
        else
          let ex := decpt - 1 in
          firstn 1 ds
            ++ (if 1 <? len then 46 :: skipn 1 ds else [])
            ++ [101; if ex <? 0 then 45 else 43]
            ++ (if Z.abs ex <? 10 then 48 :: digits_of (Z.abs ex)
                else digits_of (Z.abs ex))
  end.

End PyFloat.
Export PyFloat.

(* ===================================================================== *)
(** ** Python values, exceptions and dictionaries                         *)
(* ===================================================================== *)

Module PyVal.

(** The scalars a decoded JSON record can hold, which are also the values
    stored in the rows built from it. *)
Inductive pyval : Type :=
  | PNone
  | PBool (b : bool)
  | PInt (n : Z)
  | PFloat (x : pyfloat)
  | PStr (s : pystr).

Inductive exn_kind : Type := TypeError | ValueError | OverflowError | KeyError.

(** An exception: its class and the text of [str(e)]. *)
Record exn : Type := mkExn { kind : exn_kind; message : pystr }.

Inductive result (A : Type) : Type :=
  | Ok (a : A)
  | Raise (e : exn).
Arguments Ok {A} a.
Arguments Raise {A} e.

Definition bindR {A B} (m : result A) (k : A -> result B) : result B :=
  match m with
  | Ok a => k a
  | Raise e => Raise e
  end.

(** [type(v).__name__] *)
Definition type_name (v : pyval) : pystr :=
  match v with
  | PNone => lit "NoneType"
  | PBool _ => lit "bool"
  | PInt _ => lit "int"
  | PFloat _ => lit "float"
  | PStr _ => lit "str"
  end.

(** [str(v)], also what an f-string field [{v}] inserts. *)
Definition py_str (v : pyval) : pystr :=
  match v with
  | PNone => lit "None"
  | PBool true => lit "True"
  | PBool false => lit "False"
  | PInt n => str_of_int n
  | PFloat x => float_repr x
  | PStr s => s
  end.

(** [bool(v)] *)
Definition truthy (v : pyval) : bool :=
  match v with
  | PNone => false
  | PBool b => b
  | PInt n => negb (n =? 0)
  | PFloat (FFin _ m _) => negb (m =? 0)%N
  | PFloat _ => true
  | PStr [] => false
  | PStr (_ :: _) => true
  end.

Definition is_none (v : pyval) : bool :=
  match v with
  | PNone => true
  | _ => false
  end.

(** [v == s] for a string [s]; a value of another type is never equal. *)
Definition eq_str (v : pyval) (s : pystr) : bool :=
  match v with
  | PStr t => str_eqb t s
  | _ => false
  end.

(** [v != s] *)
Definition ne_str (v : pyval) (s : pystr) : bool := negb (eq_str v s).

(** [v[:n]]: only a string can be sliced. *)
Definition getslice (n : nat) (v : pyval) : result pyval :=
  match v with
  | PStr s => Ok (PStr (slice_to n s))
  | _ =>
      Raise (mkExn TypeError
               (lit "'" ++ type_name v ++ lit "' object is not subscriptable"))
  end.

(** [kw in v]: only a string can be searched. *)
Definition py_in (kw : pystr) (v : pyval) : result bool :=
  match v with
  | PStr s => Ok (contains kw s)
  | _ =>
      Raise (mkExn TypeError
               (lit "argument of type '" ++ type_name v ++ lit "' is not iterable"))
  end.

(** [float(v)].  The script calls it under a bare [except], so the message
    texts are never observed; that of [ValueError] is left without the
    quoted argument. *)
Definition py_float (v : pyval) : result pyfloat :=
  match v with
  | PNone =>
      Raise (mkExn TypeError
               (lit "float() argument must be a string or a real number, not 'NoneType'"))
  | PBool b => Ok (FFin false (if b then 1%N else 0%N) 0)
  | PInt n =>
      match float_of_int n with
      | Some x => Ok x
      | None => Raise (mkExn OverflowError (lit "int too large to convert to float"))
      end
  | PFloat x => Ok x
  | PStr s =>
      match float_of_str s with
      | Some x => Ok x
      | None =>
          Raise (mkExn ValueError (lit "could not convert string to float"))
      end
  end.

(** Numeric value of a number as a signed mantissa and a binary exponent. *)
Definition numeric (v : pyval) : option (Z * Z) :=
  match v with
  | PBool b => Some (if b then 1 else 0, 0)
  | PInt n => Some (n, 0)
  | PFloat (FFin neg m e) => Some (if neg then - Z.of_N m else Z.of_N m, e)
  | _ => None
  end.

(** [a == b] *)
Definition py_eq (a b : pyval) : bool :=
  match a, b with
  | PNone, PNone => true
  | PStr s, PStr t => str_eqb s t
  | PFloat (FInf s), PFloat (FInf t) => Bool.eqb s t
  | _, _ =>
      match numeric a, numeric b with
      | Some (m1, e1), Some (m2, e2) =>
          let lo := Z.min e1 e2 in
          m1 * 2 ^ (e1 - lo) =? m2 * 2 ^ (e2 - lo)
      | _, _ => false
      end
  end.

(** *** Dictionaries: insertion-ordered, one entry per key *)

Definition dict := list (pystr * pyval).

(** [d.get(k)] *)
Fixpoint dict_get (d : dict) (k : pystr) : option pyval :=
  match d with
  | [] => None
  | (k', v) :: r => if str_eqb k' k then Some v else dict_get r k
  end.

(** [d[k] = v]: an existing key keeps its place, a new one goes last. *)
Fixpoint dict_set (k : pystr) (v : pyval) (d : dict) : dict :=
  match d with
  | [] => [(k, v)]
  | (k', v') :: r =>
      if str_eqb k' k then (k', v) :: r else (k', v') :: dict_set k v r
  end.

(** [d[k]] *)
Definition dict_getitem (d : dict) (k : pystr) : result pyval :=
  match dict_get d k with
  | Some v => Ok v
  | None => Raise (mkExn KeyError (lit "'" ++ k ++ lit "'"))
  end.

(** A decoded JSON object of the feed; [item.get(k, dflt)] is
    [default dflt (item !! k)]. *)
Abbreviation item := (gmap pystr pyval).

End PyVal.
Export PyVal.

(* ===================================================================== *)
(** ** The object store and the monad of the script                       *)
(* ===================================================================== *)

Module Store.

(** Address of a [dict] object. *)
Definition loc := nat.

(** The state a [DataProcessor] method runs in: the [dict] objects
    allocated so far and the two attributes of [self] that the methods read
    or update ([self.guangdong_cases] is a list of references).  An address
    outside the heap cannot arise (addresses come from [alloc]); [deref]
    reads it as an empty dictionary. *)
Record state : Type := mkState {
  heap : list dict;
  today : pystr;
  guangdong_cases : list loc
}.

Definition deref (h : list dict) (l : loc) : dict := default [] (h !! l).

(** Computations that read and update the state and may raise; the state
    reached when an exception is raised is kept. *)
Definition M (A : Type) : Type := state -> result A * state.

Definition ret {A} (a : A) : M A := fun st => (Ok a, st).

Definition bind {A B} (m : M A) (k : A -> M B) : M B :=
  fun st =>
    match m st with
    | (Ok a, st') => k a st'
    | (Raise e, st') => (Raise e, st')
    end.

Definition lift {A} (r : result A) : M A := fun st => (r, st).

(** A new [dict] object with contents [d]. *)
Definition alloc (d : dict) : M loc :=
  fun st =>
    (Ok (length (heap st)),
     mkState (heap st ++ [d]) (today st) (guangdong_cases st)).

(** [row[k] = v] on the object at [l]. *)
Definition set_item (l : loc) (k : pystr) (v : pyval) : M unit :=
  fun st =>
    (Ok tt,
     mkState (alter (dict_set k v) l (heap st)) (today st) (guangdong_cases st)).

(** [row[k]] *)
Definition get_item (l : loc) (k : pystr) : M pyval :=
  fun st => (dict_getitem (deref (heap st) l) k, st).

(** [row.get(k, dflt)] *)
Definition get_default (l : loc) (k : pystr) (dflt : pyval) : M pyval :=
  fun st => (Ok (default dflt (dict_get (deref (heap st) l) k)), st).

(** [row.copy()]: a new object with the same entries. *)
Definition copy (l : loc) : M loc :=
  fun st => alloc (deref (heap st) l) st.

(** [self.today] *)
Definition get_today : M pystr := fun st => (Ok (today st), st).

(** [self.guangdong_cases.append(l)] *)
Definition append_case (l : loc) : M unit :=
  fun st => (Ok tt, mkState (heap st) (today st) (guangdong_cases st ++ [l])).

End Store.
Export Store.

Notation "x <- m ;; k" := (bind m (fun x => k))
  (at level 100, m at next level, right associativity).
Notation "m ;; k" := (bind m (fun _ => k))
  (at level 100, right associativity).
Notation "x <-? m ;; k" := (bindR m (fun x => k))
  (at level 100, m at next level, right associativity).

(* ===================================================================== *)
(** ** [class DataProcessor]                                              *)
(* ===================================================================== *)

Module DataProcessor.

(** The missing sentinel. *)
Definition dash : pystr := lit "-".

(** [self.field_mapping], in insertion order. *)
Definition field_mapping : list (pystr * pystr) :=
  [ (lit "SCODE", lit "股票代码");
    (lit "SNAME", lit "股票简称");
    (lit "OBJTYPE", lit "相关");
    (lit "H_COMNAME", lit "交易标的");
    (lit "G_GOMNAME", lit "卖方");
    (lit "S_COMNAME", lit "买方");
    (lit "JYJE", lit "交易金额 (万)");
    (lit "BZNAME", lit "币种");
    (lit "ZRFS", lit "并购方式");
    (lit "ANNOUNDATE", lit "最新公告日") ].

(** [self.gd_keywords] *)
Definition gd_keywords : list pystr :=
  map lit
    [ "广东"; "粤"; "广州"; "深圳"; "珠海"; "佛山"; "东莞"; "中山"; "惠州";
      "江门"; "肇庆"; "汕头"; "潮州"; "揭阳"; "汕尾"; "韶关"; "清远";
      "梅州"; "河源"; "阳江"; "茂名"; "湛江"; "岭南" ]%string.

Definition k_serial : pystr := lit "序号".
Definition k_amount : pystr := lit "交易金额 (万)".
Definition k_related : pystr := lit "相关".
Definition k_related_sep : pystr := lit "相关_带分隔符".
Definition k_related_br : pystr := lit "相关_换行".
Definition k_seller : pystr := lit "卖方".
Definition k_buyer : pystr := lit "买方".
Definition k_method : pystr := lit "并购方式".

(** The [for kw in self.gd_keywords] loop of [is_guangdong_company]. *)
Fixpoint any_keyword (kws : list pystr) (company_name : pyval) : result bool :=
  match kws with
  | [] => Ok false
  | kw :: rest =>
      found <-? py_in kw company_name ;;
      if found then Ok true else any_keyword rest company_name
  end.

Definition is_guangdong_company (company_name : pyval) : result bool :=
  if eq_str company_name dash then Ok false
  else any_keyword gd_keywords company_name.

(** Line 92: the test that turns a value into the missing sentinel. *)
Definition coerce (value : pyval) : pyval :=
  if is_none value
     || str_eqb (strip (py_str value)) []
     || str_eqb (lower (py_str value)) (lit "none")
  then PStr dash
  else value.

Definition notice_url (stock_code : pyval) : pystr :=
  lit "https://data.eastmoney.com/notices/stock/" ++ py_str stock_code ++ lit ".html".

Definition detail_url (stock_code : pyval) : pystr :=
  lit "https://data.eastmoney.com/bgcz/detail/" ++ py_str stock_code ++ lit ".html".

(** [<a href="url" target="_blank">text</a>]; 34 is the double quote. *)
Definition anchor (url text : pystr) : pystr :=
  lit "<a href=" ++ [34] ++ url ++ [34] ++ lit " target=" ++ [34]
    ++ lit "_blank" ++ [34] ++ lit ">" ++ text ++ lit "</a>".

Definition links_sep (stock_code : pyval) : pystr :=
  anchor (notice_url stock_code) (lit "公告") ++ lit " | "
    ++ anchor (detail_url stock_code) (lit "详细").

Definition links_br (stock_code : pyval) : pystr :=
  anchor (notice_url stock_code) (lit "公告") ++ lit "<br>"
    ++ anchor (detail_url stock_code) (lit "详细").

(** Body of the loop over [self.field_mapping.items()] (lines 90-117) for
    the row at address [row]. *)
Definition set_field (it : item) (stock_code : pyval) (row : loc)
    (f : pystr * pystr) : M unit :=
  let '(api_field, report_field) := f in
  let value := coerce (default (PStr dash) (it !! api_field)) in
  if str_eqb api_field (lit "JYJE") then
    if ne_str value dash then
      match py_float value with
      | Ok original_amount =>
          set_item row report_field (PStr (format_2f original_amount))
      | Raise _ => set_item row report_field (PStr dash)
      end
    else ret tt
  else if str_eqb api_field (lit "OBJTYPE") then
    if truthy stock_code && ne_str value dash then
      set_item row k_related_sep (PStr (links_sep stock_code)) ;;
      set_item row k_related_br (PStr (links_br stock_code))
    else
      set_item row k_related_sep (PStr dash) ;;
      set_item row k_related_br (PStr dash)
  else if str_eqb api_field (lit "ANNOUNDATE") then
    if ne_str value dash then
      v <- lift (getslice 10 value) ;;
      set_item row report_field v
    else set_item row report_field (PStr dash)
  else set_item row report_field value.

Fixpoint set_fields (it : item) (stock_code : pyval) (row : loc)
    (fields : list (pystr * pystr)) : M unit :=
  match fields with
  | [] => ret tt
  | f :: rest =>
      set_field it stock_code row f ;;
      set_fields it stock_code row rest
  end.

(** Lines 121-128: the region check on the row just appended. *)
Definition classify (row : loc) : M unit :=
  seller <- get_default row k_seller (PStr []) ;;
  buyer <- get_default row k_buyer (PStr []) ;;
  s <- lift (is_guangdong_company seller) ;;
  hit <- (if s then ret true else lift (is_guangdong_company buyer)) ;;
  if hit : bool then
    case_data <- copy row ;;
    v <- get_item case_data k_related_sep ;;
    set_item case_data k_related v ;;
    append_case case_data
  else ret tt.

(** The [for item in raw_data] loop; [serial_number] and [processed_data]
    are the local variables of [process]. *)
Fixpoint process_loop (raw_data : list item) (serial_number : Z)
    (processed_data : list loc) : M (list loc) :=
  match raw_data with
  | [] => ret processed_data
  | it :: rest =>
      item_date <- lift (getslice 10 (default (PStr []) (it !! lit "SCGGRQ"))) ;;
      t <- get_today ;;
      if ne_str item_date t then process_loop rest serial_number processed_data
      else
        row <- alloc [(k_serial, PInt serial_number)] ;;
        let stock_code := default (PStr []) (it !! lit "SCODE") in
        set_item row k_amount (PStr dash) ;;
        set_fields it stock_code row field_mapping ;;
        classify row ;;
        process_loop rest (serial_number + 1) (processed_data ++ [row])
  end.

Definition process (raw_data : list item) : M (list loc) :=
  match raw_data with
  | [] => ret []
  | _ => process_loop raw_data 1 []
  end.

End DataProcessor.
Export DataProcessor.

(* ===================================================================== *)
(** ** [DataProcessor.analyze]                                            *)
(* ===================================================================== *)

Module Analysis.

(** The dictionary returned by [analyze]; [guangdong_cases] and [cases] are
    lists of references to rows. *)
Record analysis : Type := mkAnalysis {
  overview : pystr;
  basic_overview : pystr;
  cases : list loc;
  guangdong_cases : list loc;
  guangdong_count : Z;
  total_count : Z;
  method_distribution : list (pyval * Z)
}.

(** The value returned for an empty input (lines 134-142). *)
Definition no_data : analysis :=
  mkAnalysis (lit "今日无并购重组数据公告") (lit "今日无并购重组数据公告")
    [] [] 0 0 [].

(** Missing values of pandas: [None] and NaN. *)
Definition is_na (v : pyval) : bool :=
  match v with
  | PNone | PFloat FNan => true
  | _ => false
  end.

(** [df[k]] for the frame built from the rows: the cells of column [k],
    [None] where a row has no such key; [KeyError] when no row has it. *)
Definition column (rows : list dict) (k : pystr) : result (list (option pyval)) :=
  if existsb (fun d => bool_decide (is_Some (dict_get d k))) rows
  then Ok (map (fun d => dict_get d k) rows)
  else Raise (mkExn KeyError (lit "'" ++ k ++ lit "'")).

Fixpoint count_add (v : pyval) (acc : list (pyval * Z)) : list (pyval * Z) :=
  match acc with
  | [] => [(v, 1)]
  | (w, c) :: r =>
      if py_eq w v then (w, c + 1) :: r else (w, c) :: count_add v r
  end.

(** [series.value_counts().to_dict()]: occurrences of each value, missing
    cells dropped.  The entries are listed by first occurrence; the order
    pandas gives them (by decreasing count) is not modelled, nor is the
    conversion of the keys of an all-numeric column. *)
Definition value_counts (cells : list (option pyval)) : list (pyval * Z) :=
  fold_left
    (fun acc cell =>
       match cell with
       | Some v => if is_na v then acc else count_add v acc
       | None => acc
       end)
    cells [].

(** The rows a list of references points to. *)
Definition read_rows (processed_data : list loc) : M (list dict) :=
  fun st => (Ok (map (deref (heap st)) processed_data), st).

(** [self.guangdong_cases] *)
Definition get_cases : M (list loc) :=
  fun st => (Ok (Store.guangdong_cases st), st).

Definition overview_text (total_count : Z) : pystr :=
  lit "今日共获取" ++ str_of_int total_count ++ lit "条并购重组数据".

Definition analyze (processed_data : list loc) : M analysis :=
  match processed_data with
  | [] => ret no_data
  | _ =>
      df <- read_rows processed_data ;;
      let total_count := Z.of_nat (length df) in
      col <- lift (column df k_method) ;;
      let method_distribution := value_counts col in
      gd <- get_cases ;;
      ret (mkAnalysis (overview_text total_count) (overview_text total_count)
             [] gd (Z.of_nat (length gd)) total_count method_distribution)
  end.

End Analysis.

(* ===================================================================== *)
(** ** [class ReportGenerator], [class WechatSender] and [main]           *)
(* ===================================================================== *)

Module Report.

(** What the outside world answers during one run of [main]. *)
Record env : Type := mkEnv {
  fetch : list item;              (* result of [DataFetcher.fetch] *)
  now_date : pystr;               (* [now().strftime('%Y-%m-%d')] *)
  now_compact : pystr;            (* [now().strftime('%Y%m%d')] *)
  write_html : pystr -> bool;     (* template rendered and file written *)
  path_exists : pystr -> bool;    (* [os.path.exists] *)
  os_nt : bool;                   (* [os.name == 'nt']: [os.path] is [ntpath] *)
  convert_pdf : pystr -> bool;    (* [pdfkit.from_file] succeeded *)
  deliver : pystr -> bool         (* upload and send both answered errcode 0 *)
}.

(** The effects of a run that the script carries through, in order: an
    artifact written in full (what the script logs as generated), a file
    handed to [send_file], a status notification.  A file left behind by a
    write or a conversion that fails half-way is not recorded. *)
Inductive event : Type :=
  | EvWriteHtml (path : pystr)
  | EvWritePdf (path : pystr)
  | EvSendFile (path : pystr)
  | EvStatus (status message : pystr).

Definition generate_html (w : env) (data : list loc) (date_str : pystr)
    : option pystr * list event :=
  match data with
  | [] => (None, [])
  | _ =>
      let html_filename := lit "并购重组日报_" ++ date_str ++ lit ".html" in
      if write_html w html_filename
      then (Some html_filename, [EvWriteHtml html_filename])
      else (None, [])
  end.

(** Position of the last occurrence of [c] in [s], counted from 1; 0 when
    there is none ([s.rfind(c) + 1]). *)
Fixpoint rfind1 (c : Z) (s : pystr) (pos best : nat) : nat :=
  match s with
  | [] => best
  | x :: r => rfind1 c r (S pos) (if x =? c then S pos else best)
  end.

(** Position after the last directory separator of [p], 0 when there is
    none: [posixpath] knows the slash alone ([sep]), [ntpath] takes the later
    of the last backslash ([sep]) and the last slash ([altsep]). *)
Definition last_sep (nt : bool) (p : pystr) : nat :=
  if nt then Nat.max (rfind1 92 p 0 0) (rfind1 47 p 0 0) else rfind1 47 p 0 0.

(** [os.path.splitext(p)[0]]: the extension starts at the last dot, when
    that dot comes after the last separator and some character between the
    two is not a dot. *)
Definition splitext_root (nt : bool) (p : pystr) : pystr :=
  let sep := last_sep nt p in
  let dot := rfind1 46 p 0 0 in
  if (sep <? dot)%nat
     && existsb (fun x => negb (x =? 46)) (firstn (dot - 1 - sep) (skipn sep p))
  then firstn (dot - 1) p
  else p.

Definition generate_pdf (w : env) (html_path : pystr)
    : option pystr * list event :=
  match html_path with
  | [] => (None, [])
  | _ =>
      if path_exists w html_path then
        let pdf_filename := splitext_root (os_nt w) html_path ++ lit ".pdf" in
        if convert_pdf w html_path
        then (Some pdf_filename, [EvWritePdf pdf_filename])
        else (None, [])
      else (None, [])
  end.

Definition generate (w : env) (data : list loc) (date_str : pystr)
    : list pystr * list event :=
  match generate_html w data date_str with
  | (None, ev) | (Some [], ev) => ([], ev)
  | (Some html_path, ev) =>
      match generate_pdf w html_path with
      | (None, ev') | (Some [], ev') => ([html_path], ev ++ ev')
      | (Some pdf_path, ev') => ([html_path; pdf_path], ev ++ ev')
      end
  end.

(** [sender.send_file(path)] *)
Definition send_file (w : env) (path : pystr) : bool * list event :=
  (path_exists w path && deliver w path, [EvSendFile path]).

Definition ok_status : pystr := lit "成功".
Definition failed_status : pystr := lit "失败".

(** The [for path in report_paths] loop of [main]; [None] when a delivery
    failed and [main] returned from inside the loop. *)
Fixpoint send_all (w : env) (paths : list pystr) : option unit * list event :=
  match paths with
  | [] => (Some tt, [])
  | path :: rest =>
      let '(sent, ev) := send_file w path in
      if sent then
        let '(r, ev') := send_all w rest in (r, ev ++ ev')
      else
        (None, ev ++ [EvStatus failed_status (lit "文件发送失败: " ++ path)])
  end.

(** The handler of [except Exception as e] in [main]. *)
Definition on_exception (e : exn) : option (list pystr) * list event :=
  (Some [], [EvStatus failed_status (lit "任务执行出错: " ++ message e)]).

(** [main()]: the returned value ([None] for a bare [return]) and the
    effects, given the answers of the outside world. *)
Definition main (w : env) : option (list pystr) * list event :=
  match fetch w with
  | [] => (None, [EvStatus ok_status (lit "未获取到原始数据，任务正常结束")])
  | raw_data =>
      match process raw_data (mkState [] (now_date w) []) with
      | (Raise e, _) => on_exception e
      | (Ok [], _) =>
          (None, [EvStatus ok_status (lit "今日无相关数据，任务正常结束")])
      | (Ok processed_data, st) =>
          match Analysis.analyze processed_data st with
          | (Raise e, _) => on_exception e
          | (Ok analysis, _) =>
              match generate w processed_data (now_compact w) with
              | ([], ev) =>
                  (None, ev ++ [EvStatus failed_status (lit "报告生成失败")])
              | (report_paths, ev) =>
                  match send_all w report_paths with
                  | (None, ev') => (None, ev ++ ev')
                  | (Some _, ev') =>
                      (Some report_paths,
                       ev ++ ev'
                         ++ [EvStatus ok_status
                               (lit "报告生成并发送成功，共发送"
                                  ++ str_of_int (Z.of_nat (length report_paths))
                                  ++ lit "个文件")])
                  end
              end
          end
      end
  end.

End Report.

(* ===================================================================== *)
(** ** Vocabulary of the specification                                    *)
(* ===================================================================== *)

Module Spec.

(** The date filter: the disclosure date [SCGGRQ] is a string whose first
    ten characters are the target date. *)
Definition retained (target : pystr) (it : item) : bool :=
  match it !! lit "SCGGRQ" with
  | Some (PStr s) => str_eqb (slice_to 10 s) target
  | _ => false
  end.

(** The token "none" in any letter case. *)
Definition none_token (s : pystr) : bool :=
  match s with
  | [a; b; c; d] =>
      ((a =? 110) || (a =? 78)) && ((b =? 111) || (b =? 79))
      && ((c =? 110) || (c =? 78)) && ((d =? 101) || (d =? 69))
  | _ => false
  end.

(** A source value that counts as missing: absent, null, an empty or
    whitespace-only string, or the token "none". *)
Definition missing (o : option pyval) : bool :=
  match o with
  | None | Some PNone => true
  | Some (PStr s) => forallb py_isspace s || none_token s
  | Some _ => false
  end.

(** The coerced value of a source field. *)
Definition field_of (it : item) (api_field : pystr) : pyval :=
  coerce (default (PStr dash) (it !! api_field)).

Definition amount_cell (value : pyval) : pyval :=
  if ne_str value dash then
    match py_float value with
    | Ok x => PStr (format_2f x)
    | Raise _ => PStr dash
    end
  else PStr dash.

Definition date_cell (value : pyval) : result pyval :=
  if ne_str value dash then getslice 10 value else Ok (PStr dash).

Definition related_cell (render : pyval -> pystr) (stock_code value : pyval)
    : pyval :=
  if truthy stock_code && ne_str value dash then PStr (render stock_code)
  else PStr dash.

(** One pass of the loop over the field mapping, read as a function on the
    contents of the row under construction. *)
Definition put_field (it : item) (stock_code : pyval) (f : pystr * pystr)
    (d : dict) : result dict :=
  let '(api_field, report_field) := f in
  let value := field_of it api_field in
  if str_eqb api_field (lit "JYJE") then
    Ok (if ne_str value dash then dict_set report_field (amount_cell value) d
        else d)
  else if str_eqb api_field (lit "OBJTYPE") then
    Ok (dict_set k_related_br (related_cell links_br stock_code value)
          (dict_set k_related_sep (related_cell links_sep stock_code value) d))
  else if str_eqb api_field (lit "ANNOUNDATE") then
    v <-? date_cell value ;;
    Ok (dict_set report_field v d)
  else Ok (dict_set report_field value d).

(** The whole loop: its outcome and the contents reached. *)
Fixpoint put_fields (it : item) (stock_code : pyval)
    (fields : list (pystr * pystr)) (d : dict) : result unit * dict :=
  match fields with
  | [] => (Ok tt, d)
  | f :: rest =>
      match put_field it stock_code f d with
      | Ok d' => put_fields it stock_code rest d'
      | Raise e => (Raise e, d)
      end
  end.

(** The row that [process] builds for a retained record, entry by entry. *)
Definition row_of (serial : Z) (it : item) : result dict :=
  let stock_code := default (PStr []) (it !! lit "SCODE") in
  date <-? date_cell (field_of it (lit "ANNOUNDATE")) ;;
  Ok [ (k_serial, PInt serial);
       (k_amount, amount_cell (field_of it (lit "JYJE")));
       (lit "股票代码", field_of it (lit "SCODE"));
       (lit "股票简称", field_of it (lit "SNAME"));
       (k_related_sep,
        related_cell links_sep stock_code (field_of it (lit "OBJTYPE")));
       (k_related_br,
        related_cell links_br stock_code (field_of it (lit "OBJTYPE")));
       (lit "交易标的", field_of it (lit "H_COMNAME"));
       (k_seller, field_of it (lit "G_GOMNAME"));
       (k_buyer, field_of it (lit "S_COMNAME"));
       (lit "币种", field_of it (lit "BZNAME"));
       (k_method, field_of it (lit "ZRFS"));
       (lit "最新公告日", date) ].

(** The keys of a row, in insertion order. *)
Definition row_keys : list pystr :=
  [ k_serial; k_amount; lit "股票代码"; lit "股票简称"; k_related_sep;
    k_related_br; lit "交易标的"; k_seller; k_buyer; lit "币种"; k_method;
    lit "最新公告日" ].

(** The rows of the retained records, numbered from [serial]. *)
Fixpoint rows_of (serial : Z) (kept : list item) : result (list dict) :=
  match kept with
  | [] => Ok []
  | it :: rest =>
      d <-? row_of serial it ;;
      ds <-? rows_of (serial + 1) rest ;;
      Ok (d :: ds)
  end.

(** A counterparty name that is not the sentinel and contains a keyword. *)
Definition gd_name (v : option pyval) : bool :=
  match v with
  | Some (PStr s) =>
      negb (str_eqb s dash) && existsb (fun kw => contains kw s) gd_keywords
  | _ => false
  end.

(** The region classifier on the contents of a row. *)
Definition region_tagged (d : dict) : bool :=
  gd_name (dict_get d k_seller) || gd_name (dict_get d k_buyer).

(** The test of line 124 on the contents of a row; [or] evaluates the buyer
    only when the seller does not match. *)
Definition region_check (d : dict) : result bool :=
  s <-? is_guangdong_company (default (PStr []) (dict_get d k_seller)) ;;
  if s : bool then Ok true
  else is_guangdong_company (default (PStr []) (dict_get d k_buyer)).

(** The tagged entry made from a row: the same entries, with the reference
    field set to the pipe-separated rendering. *)
Definition tag_of (d : dict) : dict :=
  match dict_get d k_related_sep with
  | Some v => dict_set k_related v d
  | None => d
  end.

(** Objects allocated for the rows [ds] from address [n] on: the new part of
    the heap, the addresses of the rows and those of the tagged entries. *)
Fixpoint layout (n : nat) (ds : list dict) : list dict * list loc * list loc :=
  match ds with
  | [] => ([], [], [])
  | d :: rest =>
      if region_tagged d then
        let '(ext, rows, tagged) := layout (S (S n)) rest in
        (d :: tag_of d :: ext, n :: rows, S n :: tagged)
      else
        let '(ext, rows, tagged) := layout (S n) rest in
        (d :: ext, n :: rows, tagged)
  end.

(** A record whose fields, where the script slices or searches them, hold
    strings (or are missing). *)
Definition text_or_missing (o : option pyval) : bool :=
  match o with
  | None | Some PNone | Some (PStr _) => true
  | Some _ => false
  end.

Definition plain (it : item) : bool :=
  match it !! lit "SCGGRQ" with
  | None | Some (PStr _) => true
  | Some _ => false
  end
  && text_or_missing (it !! lit "ANNOUNDATE")
  && text_or_missing (it !! lit "G_GOMNAME")
  && text_or_missing (it !! lit "S_COMNAME").

(** A thousands-grouped amount with exactly two decimals:
    an optional sign, one to three digits of which the first is not a
    redundant zero, groups of a comma and three digits, a point and two
    digits. *)
Fixpoint groups_frac (s : pystr) : bool :=
  match s with
  | 44 :: a :: b :: c :: r =>
      is_digit a && is_digit b && is_digit c && groups_frac r
  | [46; a; b] => is_digit a && is_digit b
  | _ => false
  end.

Definition first_group (body : pystr) : bool :=
  match body with
  | a :: b :: c :: r =>
      is_digit a
      && (groups_frac (b :: c :: r)
          || (is_digit b
              && (groups_frac (c :: r) || (is_digit c && groups_frac r))))
  | _ => false
  end.

(** No redundant zero in front: a leading zero is the whole integer part. *)
Definition no_leading_zero (body : pystr) : bool :=
  match body with
  | a :: c :: _ => negb (a =? 48) || (c =? 46)
  | _ => true
  end.

Definition grouped_2dp (s : pystr) : bool :=
  match s with
  | c :: r =>
      let body := if c =? 45 then r else s in
      first_group body && no_leading_zero body
  | [] => false
  end.

(** The integer spelled by the digits of a text, separators skipped: for a
    grouped amount, its number of hundredths. *)
Definition read_digits (s : pystr) : Z :=
  fold_left (fun acc c => acc * 10 + (c - 48)) (List.filter is_digit s) 0.

(** The text starts with a minus sign. *)
Definition is_negative (s : pystr) : bool :=
  match s with
  | c :: _ => c =? 45
  | [] => false
  end.

(** [q] is an integer nearest to [100 * m * 2^e], the even one when two
    are equally near. *)
Definition nearest_hundredths (m e q : Z) : Prop :=
  (0 <= e -> q = 100 * m * 2 ^ e)
  /\ (e < 0 ->
      Z.abs (2 * (q * 2 ^ (- e) - 100 * m)) <= 2 ^ (- e)
      /\ (Z.abs (2 * (q * 2 ^ (- e) - 100 * m)) = 2 ^ (- e) -> Z.even q = true)).

End Spec.
Export Spec.

(* ===================================================================== *)
(** ** Sample feeds                                                       *)
(* ===================================================================== *)

Module Examples.

Definition record (l : list (string * pyval)) : item :=
  list_to_map (map (fun p => (lit (fst p), snd p)) l).

Definition text (s : string) : pyval := PStr (lit s).

Definition target : pystr := lit "2024-01-02".

(** A fresh [DataProcessor] on the target date, nothing allocated yet. *)
Definition st0 : state := mkState [] target [].

(** Disclosed on the target date, seller in Guangdong. *)
Definition r_gd : item :=
  record [ ("SCGGRQ", text "2024-01-02 00:00:00"); ("SCODE", text "600000");
           ("SNAME", text "浦发银行"); ("OBJTYPE", text "1");
           ("G_GOMNAME", text "广东XX有限公司"); ("S_COMNAME", text "None");
           ("JYJE", text "1234567.5"); ("ZRFS", text "协议转让");
           ("ANNOUNDATE", text "2024-01-02 00:00:00") ]%string.

(** Disclosed the day before. *)
Definition r_old : item :=
  record [ ("SCGGRQ", text "2024-01-01 00:00:00"); ("SCODE", text "600001");
           ("G_GOMNAME", text "深圳某公司"); ("JYJE", PInt 5) ]%string.

(** Disclosed on the target date, amount not a number, no reference. *)
Definition r_bad_amount : item :=
  record [ ("SCGGRQ", text "2024-01-02"); ("SCODE", PInt 7);
           ("G_GOMNAME", text "  "); ("S_COMNAME", text "上海某公司");
           ("JYJE", text "abc"); ("OBJTYPE", PNone);
           ("ZRFS", text "协议转让") ]%string.

(** Disclosed on the target date, amount spelled "nan". *)
Definition r_nan : item :=
  record [ ("SCGGRQ", text "2024-01-02"); ("JYJE", text "nan") ]%string.

(** Disclosed on the target date, amount spelled "inf". *)
Definition r_inf : item :=
  record [ ("SCGGRQ", text "2024-01-02"); ("JYJE", text "inf") ]%string.

(** Disclosed on the target date, amount a decimal literal beyond the range
    of a float. *)
Definition r_overflow : item :=
  record [ ("SCGGRQ", text "2024-01-02"); ("JYJE", text "1e999") ]%string.

(** Disclosed on the target date, amount an integer beyond the range of a
    float. *)
Definition r_huge_int : item :=
  record [ ("SCGGRQ", text "2024-01-02"); ("JYJE", PInt (10 ^ 400)) ]%string.

(** Disclosed on the target date, nothing else known. *)
Definition r_bare : item := record [ ("SCGGRQ", text "2024-01-02") ]%string.

(** The disclosure date is null. *)
Definition r_null_date : item := record [ ("SCGGRQ", PNone) ]%string.

(** The announcement date is a number. *)
Definition r_numeric_date : item :=
  record [ ("SCGGRQ", text "2024-01-02"); ("ANNOUNDATE", PInt 20240102) ]%string.

Definition feed : list item := [r_gd; r_old; r_bad_amount].

(** An outside world in which every collaborator succeeds. *)
Definition world (raw : list item) : Report.env :=
  Report.mkEnv raw target (lit "20240102")
    (fun _ => true) (fun _ => true) false (fun _ => true) (fun _ => true).

End Examples.

(* ===================================================================== *)
(** ** Vocabulary for the behaviour of the remaining code                 *)
(* ===================================================================== *)

Module Behaviour.

Definition is_text (v : pyval) : bool :=
  match v with
  | PStr _ => true
  | _ => false
  end.

(** A record that [process] gets past: its disclosure date is absent or a
    string, and, when that date is the target date, the coerced announcement
    date and seller are strings and so is the coerced buyer unless the
    seller already matches a keyword. *)
Definition item_ok (target : pystr) (it : item) : bool :=
  match default (PStr []) (it !! lit "SCGGRQ") with
  | PStr s =>
      if str_eqb (slice_to 10 s) target then
        is_text (field_of it (lit "ANNOUNDATE"))
        && is_text (field_of it (lit "G_GOMNAME"))
        && (gd_name (Some (field_of it (lit "G_GOMNAME")))
            || is_text (field_of it (lit "S_COMNAME")))
      else true
  | _ => false
  end.

(** The count recorded for the value [v] in a distribution. *)
Fixpoint dist_get (dist : list (pyval * Z)) (v : pyval) : option Z :=
  match dist with
  | [] => None
  | (w, c) :: r => if py_eq w v then Some c else dist_get r v
  end.

(** Number of cells holding the string [s]. *)
Definition count_label (s : pystr) (cells : list (option pyval)) : Z :=
  Z.of_nat
    (length
       (List.filter
          (fun cell =>
             match cell with
             | Some (PStr t) => str_eqb t s
             | _ => false
             end)
          cells)).

(** The events that write the artifacts [paths]: the first is the HTML
    file, the second the PDF file. *)
Definition writes_of (paths : list pystr) : list Report.event :=
  match paths with
  | [] => []
  | html :: rest => Report.EvWriteHtml html :: map Report.EvWritePdf rest
  end.

Definition is_status (e : Report.event) : bool :=
  match e with
  | Report.EvStatus _ _ => true
  | _ => false
  end.

Definition is_send (e : Report.event) : bool :=
  match e with
  | Report.EvSendFile _ => true
  | _ => false
  end.

(** A directory separator of the platform's [os.path]. *)
Definition is_sep (nt : bool) (c : Z) : bool := (c =? 47) || (nt && (c =? 92)).

(** The name [generate_html] gives the HTML artifact. *)
Definition html_name (date_str : pystr) : pystr :=
  lit "并购重组日报_" ++ date_str ++ lit ".html".

End Behaviour.
Export Behaviour.

(* ===================================================================== *)
(** ** Basic facts                                                        *)
(* ===================================================================== *)

Lemma str_eqb_eq (a b : pystr) : str_eqb a b = true <-> a = b.
Proof. unfold str_eqb. apply bool_decide_eq_true. Qed.

Lemma str_eqb_neq (a b : pystr) : str_eqb a b = false <-> a <> b.
Proof. unfold str_eqb. apply bool_decide_eq_false. Qed.

Lemma str_eqb_refl (a : pystr) : str_eqb a a = true.
Proof. now apply str_eqb_eq. Qed.

Lemma dict_get_set_eq (d : dict) k v : dict_get (dict_set k v d) k = Some v.
Proof.
  induction d as [|[k' v'] r IH]; simpl.
  - now rewrite str_eqb_refl.
  - destruct (str_eqb k' k) eqn:E; simpl; rewrite E; auto.
Qed.

Lemma dict_get_set_ne (d : dict) k k' v :
  k <> k' -> dict_get (dict_set k v d) k' = dict_get d k'.
Proof.
  intros Hne. induction d as [|[k0 v0] r IH]; simpl.
  - destruct (str_eqb k k') eqn:E; [apply str_eqb_eq in E; contradiction | reflexivity].
  - destruct (str_eqb k0 k) eqn:E; simpl.
    + apply str_eqb_eq in E. subst k0.
      destruct (str_eqb k k') eqn:E'; [apply str_eqb_eq in E'; contradiction | reflexivity].
    + now rewrite IH.
Qed.

(** Evaluation of comparisons between literals. *)
Ltac eval_eqb :=
  repeat match goal with
  | |- context [str_eqb ?a ?b] =>
      let v := eval vm_compute in (str_eqb a b) in
      match v with
      | true => change (str_eqb a b) with true
      | false => change (str_eqb a b) with false
      end
  end.

Lemma alter_last (h : list dict) (d : dict) (f : dict -> dict) :
  alter f (length h) (h ++ [d]) = h ++ [f d].
Proof.
  replace (length h) with (length h + 0)%nat by lia.
  now rewrite alter_app_r.
Qed.

Lemma set_item_last h d t g k v :
  set_item (length h) k v (mkState (h ++ [d]) t g)
  = (Ok tt, mkState (h ++ [dict_set k v d]) t g).
Proof. unfold set_item; simpl. now rewrite alter_last. Qed.

Lemma set_field_last it sc h d t g f :
  set_field it sc (length h) f (mkState (h ++ [d]) t g)
  = match put_field it sc f d with
    | Ok d' => (Ok tt, mkState (h ++ [d']) t g)
    | Raise e => (Raise e, mkState (h ++ [d]) t g)
    end.
Proof.
  destruct f as [api report]. unfold set_field, put_field, field_of.
  set (value := coerce _).
  destruct (str_eqb api (lit "JYJE")).
  { unfold amount_cell. destruct (ne_str value dash); [|reflexivity].
    destruct (py_float value); apply set_item_last. }
  destruct (str_eqb api (lit "OBJTYPE")).
  { unfold related_cell, bind.
    destruct (truthy sc && ne_str value dash);
      rewrite set_item_last; apply set_item_last. }
  destruct (str_eqb api (lit "ANNOUNDATE")).
  { unfold date_cell, bind, lift.
    destruct (ne_str value dash); simpl; [|apply set_item_last].
    destruct (getslice 10 value); simpl; [apply set_item_last | reflexivity]. }
  apply set_item_last.
Qed.

Lemma set_fields_last it sc fields : forall h d t g,
  set_fields it sc (length h) fields (mkState (h ++ [d]) t g)
  = (fst (put_fields it sc fields d),
     mkState (h ++ [snd (put_fields it sc fields d)]) t g).
Proof.
  induction fields as [|f rest IH]; intros h d t g; simpl; [reflexivity|].
  unfold bind. rewrite set_field_last.
  destruct (put_field it sc f d) as [d'|e]; [apply IH | reflexivity].
Qed.

Ltac run_dict :=
  repeat (progress (cbn [dict_set dict_get bindR]; eval_eqb; cbv beta iota)).

Lemma put_fields_mapping serial it :
  put_fields it (default (PStr []) (it !! lit "SCODE")) field_mapping
    [(k_serial, PInt serial); (k_amount, PStr dash)]
  = match row_of serial it with
    | Ok d => (Ok tt, d)
    | Raise e =>
        (Raise e, snd (put_fields it (default (PStr []) (it !! lit "SCODE"))
                         field_mapping
                         [(k_serial, PInt serial); (k_amount, PStr dash)]))
    end.
Proof.
  unfold row_of, field_mapping.
  cbn [put_fields put_field].
  eval_eqb. cbv beta iota.
  assert (Hamount :
    (if ne_str (field_of it (lit "JYJE")) dash
     then amount_cell (field_of it (lit "JYJE")) else PStr dash)
    = amount_cell (field_of it (lit "JYJE"))).
  { unfold amount_cell. now destruct (ne_str _ _). }
  destruct (date_cell (field_of it (lit "ANNOUNDATE"))) as [v|e];
    cbn [bindR]; cbv beta iota.
  - rewrite <- Hamount.
    destruct (ne_str (field_of it (lit "JYJE")) dash); run_dict; reflexivity.
  - reflexivity.
Qed.

Lemma deref_last (h : list dict) d : deref (h ++ [d]) (length h) = d.
Proof. unfold deref. now rewrite list_lookup_middle. Qed.

Lemma deref_app_l (h ext : list dict) l :
  (l < length h)%nat -> deref (h ++ ext) l = deref h l.
Proof. intros H. unfold deref. now rewrite lookup_app_l. Qed.

Lemma any_keyword_str kws s :
  any_keyword kws (PStr s) = Ok (existsb (fun kw => contains kw s) kws).
Proof.
  induction kws as [|kw r IH]; simpl; [reflexivity|].
  destruct (contains kw s); simpl; [reflexivity | exact IH].
Qed.

Lemma is_guangdong_company_str s :
  is_guangdong_company (PStr s) = Ok (gd_name (Some (PStr s))).
Proof.
  unfold is_guangdong_company, gd_name, eq_str.
  destruct (str_eqb s dash); [reflexivity | now rewrite any_keyword_str].
Qed.

Lemma is_guangdong_company_ok v b :
  is_guangdong_company v = Ok b -> exists s, v = PStr s.
Proof.
  intros H. destruct v; try (eexists; reflexivity); simpl in H; discriminate.
Qed.

Lemma gd_name_default (o : option pyval) b :
  is_guangdong_company (default (PStr []) o) = Ok b -> b = gd_name o.
Proof.
  intros H. destruct o as [v|]; cbn [default from_option id] in H.
  - destruct (is_guangdong_company_ok _ _ H) as [s ->].
    rewrite is_guangdong_company_str in H. now injection H as <-.
  - vm_compute in H. now injection H as <-.
Qed.

Lemma region_check_ok d b : region_check d = Ok b -> b = region_tagged d.
Proof.
  unfold region_check, region_tagged.
  destruct (is_guangdong_company (default (PStr []) (dict_get d k_seller)))
    as [s|e] eqn:Hs; simpl; [|discriminate].
  apply gd_name_default in Hs. rewrite <- Hs.
  destruct s; simpl.
  - congruence.
  - apply gd_name_default.
Qed.

Lemma classify_run row st :
  classify row st
  = let d := deref (heap st) row in
    match region_check d with
    | Raise e => (Raise e, st)
    | Ok false => (Ok tt, st)
    | Ok true =>
        match dict_getitem d k_related_sep with
        | Ok v =>
            (Ok tt,
             mkState (heap st ++ [dict_set k_related v d]) (today st)
               (Store.guangdong_cases st ++ [length (heap st)]))
        | Raise e =>
            (Raise e, mkState (heap st ++ [d]) (today st) (Store.guangdong_cases st))
        end
    end.
Proof.
  destruct st as [h t g]. unfold classify, region_check, bind, get_default, lift.
  cbn [heap today Store.guangdong_cases].
  set (d := deref h row).
  destruct (is_guangdong_company (default (PStr []) (dict_get d k_seller)))
    as [s|e]; cbn [bindR]; [|reflexivity].
  assert (Hcopy : forall st0 : state,
    heap st0 = h -> today st0 = t -> Store.guangdong_cases st0 = g ->
    (case_data <- copy row;;
     v <- get_item case_data k_related_sep;;
     set_item case_data k_related v;; append_case case_data) st0
    = match dict_getitem d k_related_sep with
      | Ok v => (Ok tt, mkState (h ++ [dict_set k_related v d]) t (g ++ [length h]))
      | Raise e => (Raise e, mkState (h ++ [d]) t g)
      end).
  { intros [h0 t0 g0]; cbn [heap today Store.guangdong_cases]; intros -> -> ->.
    unfold bind, copy, alloc, get_item, set_item, append_case.
    cbn [heap today Store.guangdong_cases]. fold d.
    rewrite deref_last.
    destruct (dict_getitem d k_related_sep); [|reflexivity].
    cbn [heap today Store.guangdong_cases]. now rewrite alter_last. }
  destruct s.
  - unfold ret. apply Hcopy; reflexivity.
  - destruct (is_guangdong_company (default (PStr []) (dict_get d k_buyer)))
      as [[|]|e]; [apply Hcopy; reflexivity | reflexivity | reflexivity].
Qed.

Lemma build_run {A} serial it (K : loc -> M A) st :
  (row <- alloc [(k_serial, PInt serial)] ;;
   set_item row k_amount (PStr dash) ;;
   set_fields it (default (PStr []) (it !! lit "SCODE")) row field_mapping ;;
   K row) st
  = match row_of serial it with
    | Ok d =>
        K (length (heap st))
          (mkState (heap st ++ [d]) (today st) (Store.guangdong_cases st))
    | Raise e =>
        (Raise e,
         mkState
           (heap st
              ++ [snd (put_fields it (default (PStr []) (it !! lit "SCODE"))
                         field_mapping
                         [(k_serial, PInt serial); (k_amount, PStr dash)])])
           (today st) (Store.guangdong_cases st))
    end.
Proof.
  destruct st as [h t g]. unfold bind at 1. unfold alloc.
  cbn [heap today Store.guangdong_cases].
  unfold bind at 1. rewrite set_item_last.
  replace (dict_set k_amount (PStr dash) [(k_serial, PInt serial)])
    with [(k_serial, PInt serial); (k_amount, PStr dash)]
    by (run_dict; reflexivity).
  unfold bind at 1. rewrite set_fields_last, put_fields_mapping.
  destruct (row_of serial it); reflexivity.
Qed.

Lemma row_of_related_sep serial it d :
  row_of serial it = Ok d -> exists v, dict_get d k_related_sep = Some v.
Proof.
  unfold row_of. destruct (date_cell _); cbn [bindR]; [|discriminate].
  intros [= <-]. run_dict. eauto.
Qed.

Lemma layout_cons_tagged n d ds :
  region_tagged d = true ->
  layout n (d :: ds)
  = let '(ext, rows, tagged) := layout (S (S n)) ds in
    (d :: tag_of d :: ext, n :: rows, S n :: tagged).
Proof. intros H. simpl. now rewrite H. Qed.

Lemma layout_cons_plain n d ds :
  region_tagged d = false ->
  layout n (d :: ds)
  = let '(ext, rows, tagged) := layout (S n) ds in (d :: ext, n :: rows, tagged).
Proof. intros H. simpl. now rewrite H. Qed.

(** What a run of the loop that returns has done: the rows of the retained
    records, laid out in the heap after the objects already there. *)
Lemma process_loop_ok raw : forall serial acc st rows st',
  today st <> [] ->
  process_loop raw serial acc st = (Ok rows, st') ->
  exists ds ext new_rows tagged,
    rows_of serial (List.filter (retained (today st)) raw) = Ok ds
    /\ layout (length (heap st)) ds = (ext, new_rows, tagged)
    /\ rows = acc ++ new_rows
    /\ st' = mkState (heap st ++ ext) (today st)
               (Store.guangdong_cases st ++ tagged).
Proof.
  induction raw as [|it rest IH]; intros serial acc st rows st' Ht H.
  - simpl in H. injection H as <- <-.
    exists [], [], [], []. simpl. rewrite !app_nil_r. now destruct st.
  - cbn [process_loop] in H. unfold bind at 1 in H. unfold lift in H.
    assert (Hskip : retained (today st) it = false ->
                    process_loop rest serial acc st = (Ok rows, st') ->
                    exists ds ext new_rows tagged,
                      rows_of serial (List.filter (retained (today st)) (it :: rest)) = Ok ds
                      /\ layout (length (heap st)) ds = (ext, new_rows, tagged)
                      /\ rows = acc ++ new_rows
                      /\ st' = mkState (heap st ++ ext) (today st)
                                 (Store.guangdong_cases st ++ tagged)).
    { intros Hr H'. cbn [List.filter]. rewrite Hr. now apply IH. }
    assert (Hret : retained (today st) it
                   = match it !! lit "SCGGRQ" with
                     | Some (PStr s) => str_eqb (slice_to 10 s) (today st)
                     | _ => false
                     end) by reflexivity.
    destruct (it !! lit "SCGGRQ") as [[| | | |s]|] eqn:Hd;
      cbn [default from_option id getslice] in H; try discriminate.
    + unfold bind at 1 in H. unfold get_today in H.
      unfold ne_str, eq_str in H.
      destruct (str_eqb (slice_to 10 s) (today st)) eqn:E; cbn [negb] in H;
        [clear Hskip | now apply Hskip].
      rewrite build_run in H.
      destruct (row_of serial it) as [d|e] eqn:Hrow; [|discriminate].
      unfold bind at 1 in H. rewrite classify_run in H.
      cbn [heap today Store.guangdong_cases] in H.
      rewrite deref_last in H. cbv zeta in H.
      destruct (region_check d) as [b|e] eqn:Hreg; [|discriminate].
      pose proof (region_check_ok _ _ Hreg) as Hb.
      destruct (row_of_related_sep _ _ _ Hrow) as [v Hv].
      assert (Hlen1 : length (heap st ++ [d]) = S (length (heap st)))
        by (rewrite length_app; cbn [length]; lia).
      assert (Hlen2 : forall x, length ((heap st ++ [d]) ++ [x]) = S (S (length (heap st))))
        by (intros x; rewrite !length_app; cbn [length]; lia).
      destruct b.
      * unfold dict_getitem in H. rewrite Hv in H.
        apply IH in H; [|exact Ht].
        cbn [heap today Store.guangdong_cases] in H.
        destruct H as (ds & ext & new_rows & tagged & Hds & Hlay & -> & ->).
        rewrite Hlen2 in Hlay. rewrite Hlen1.
        exists (d :: ds), (d :: tag_of d :: ext),
               (length (heap st) :: new_rows),
               (S (length (heap st)) :: tagged).
        split; [|split; [|split]].
        -- cbn [List.filter]. rewrite Hret.
           cbn [rows_of]. rewrite Hrow. cbn [bindR]. now rewrite Hds.
        -- rewrite layout_cons_tagged by (symmetry; exact Hb).
           now rewrite Hlay.
        -- now rewrite <- app_assoc.
        -- unfold tag_of. rewrite Hv. rewrite <- !app_assoc. reflexivity.
      * apply IH in H; [|exact Ht].
        cbn [heap today Store.guangdong_cases] in H.
        destruct H as (ds & ext & new_rows & tagged & Hds & Hlay & -> & ->).
        rewrite Hlen1 in Hlay.
        exists (d :: ds), (d :: ext), (length (heap st) :: new_rows), tagged.
        split; [|split; [|split]].
        -- cbn [List.filter]. rewrite Hret.
           cbn [rows_of]. rewrite Hrow. cbn [bindR]. now rewrite Hds.
        -- rewrite layout_cons_plain by (symmetry; exact Hb). now rewrite Hlay.
        -- now rewrite <- app_assoc.
        -- rewrite <- !app_assoc. reflexivity.
    + unfold bind at 1 in H. unfold get_today in H.
      unfold ne_str, eq_str in H. cbn [slice_to firstn] in H.
      destruct (str_eqb [] (today st)) eqn:E.
      * apply str_eqb_eq in E. now symmetry in E.
      * cbn [negb] in H. now apply Hskip.
Qed.

Lemma layout_rows ds : forall n h ext rows tagged,
  layout n ds = (ext, rows, tagged) -> length h = n ->
  map (deref (h ++ ext)) rows = ds.
Proof.
  induction ds as [|d ds IH]; intros n h ext rows tagged H Hn.
  - simpl in H. now injection H as <- <- <-.
  - simpl in H. destruct (region_tagged d).
    + destruct (layout (S (S n)) ds) as [[ext' rows'] tagged'] eqn:E.
      injection H as <- <- <-. cbn [map]. f_equal.
      * subst n. unfold deref. now rewrite list_lookup_middle.
      * replace (h ++ d :: tag_of d :: ext') with ((h ++ [d; tag_of d]) ++ ext')
          by now rewrite <- app_assoc.
        eapply IH; [exact E|]. rewrite length_app. cbn [length]. lia.
    + destruct (layout (S n) ds) as [[ext' rows'] tagged'] eqn:E.
      injection H as <- <- <-. cbn [map]. f_equal.
      * subst n. unfold deref. now rewrite list_lookup_middle.
      * replace (h ++ d :: ext') with ((h ++ [d]) ++ ext')
          by now rewrite <- app_assoc.
        eapply IH; [exact E|]. rewrite length_app. cbn [length]. lia.
Qed.

Lemma layout_tagged ds : forall n h ext rows tagged,
  layout n ds = (ext, rows, tagged) -> length h = n ->
  map (deref (h ++ ext)) tagged = map tag_of (List.filter region_tagged ds).
Proof.
  induction ds as [|d ds IH]; intros n h ext rows tagged H Hn.
  - simpl in H. now injection H as <- <- <-.
  - simpl in H. cbn [List.filter]. destruct (region_tagged d).
    + destruct (layout (S (S n)) ds) as [[ext' rows'] tagged'] eqn:E.
      injection H as <- <- <-. cbn [map]. f_equal.
      * unfold deref.
        replace (h ++ d :: tag_of d :: ext') with ((h ++ [d]) ++ tag_of d :: ext')
          by now rewrite <- app_assoc.
        replace (S n) with (length (h ++ [d]))
          by (rewrite length_app; cbn [length]; lia).
        now rewrite list_lookup_middle.
      * replace (h ++ d :: tag_of d :: ext') with ((h ++ [d; tag_of d]) ++ ext')
          by now rewrite <- app_assoc.
        eapply IH; [exact E|]. rewrite length_app. cbn [length]. lia.
    + destruct (layout (S n) ds) as [[ext' rows'] tagged'] eqn:E.
      injection H as <- <- <-.
      replace (h ++ d :: ext') with ((h ++ [d]) ++ ext')
        by now rewrite <- app_assoc.
      eapply IH; [exact E|]. rewrite length_app. cbn [length]. lia.
Qed.

(** Every address handed out lies beyond the objects that were there. *)
Lemma layout_fresh ds : forall n ext rows tagged,
  layout n ds = (ext, rows, tagged) ->
  Forall (fun l => (n <= l < n + length ext)%nat) (rows ++ tagged).
Proof.
  induction ds as [|d ds IH]; intros n ext rows tagged H.
  - simpl in H. injection H as <- <- <-. constructor.
  - simpl in H. destruct (region_tagged d).
    + destruct (layout (S (S n)) ds) as [[ext' rows'] tagged'] eqn:E.
      injection H as <- <- <-. apply IH in E.
      rewrite Forall_app in E. destruct E as [E1 E2].
      rewrite Forall_app. cbn [length]. split.
      * constructor; [lia|]. eapply Forall_impl; [exact E1|]. cbn. intros; lia.
      * constructor; [lia|]. eapply Forall_impl; [exact E2|]. cbn. intros; lia.
    + destruct (layout (S n) ds) as [[ext' rows'] tagged'] eqn:E.
      injection H as <- <- <-. apply IH in E.
      rewrite Forall_app in E. destruct E as [E1 E2].
      rewrite Forall_app. cbn [length]. split.
      * constructor; [lia|]. eapply Forall_impl; [exact E1|]. cbn. intros; lia.
      * eapply Forall_impl; [exact E2|]. cbn. intros; lia.
Qed.

Lemma rows_of_lookup kept : forall serial ds,
  rows_of serial kept = Ok ds ->
  length ds = length kept
  /\ forall i it d, kept !! i = Some it -> ds !! i = Some d ->
       row_of (serial + Z.of_nat i) it = Ok d.
Proof.
  induction kept as [|it0 kept IH]; intros serial ds H.
  - simpl in H. injection H as <-. split; [reflexivity|]. intros i it d Hk. discriminate.
  - cbn [rows_of] in H.
    destruct (row_of serial it0) as [d0|] eqn:H0; cbn [bindR] in H; [|discriminate].
    destruct (rows_of (serial + 1) kept) as [ds0|] eqn:H1; cbn [bindR] in H; [|discriminate].
    injection H as <-. destruct (IH _ _ H1) as [Hlen Hrows].
    split; [cbn [length]; now rewrite Hlen|].
    intros [|i] it d Hk Hd; cbn in Hk, Hd.
    + injection Hk as <-. injection Hd as <-. now rewrite Z.add_0_r.
    + specialize (Hrows i it d Hk Hd).
      replace (serial + Z.of_nat (S i)) with (serial + 1 + Z.of_nat i) by lia.
      exact Hrows.
Qed.

(** [process], when it returns. *)
Lemma process_ok raw st rows st' :
  today st <> [] ->
  process raw st = (Ok rows, st') ->
  exists ds ext tagged,
    rows_of 1 (List.filter (retained (today st)) raw) = Ok ds
    /\ layout (length (heap st)) ds = (ext, rows, tagged)
    /\ st' = mkState (heap st ++ ext) (today st)
               (Store.guangdong_cases st ++ tagged).
Proof.
  intros Ht H. destruct raw as [|it rest].
  - injection H as <- <-. exists [], [], []. simpl. rewrite !app_nil_r. now destruct st.
  - unfold process in H. apply process_loop_ok in H; [|exact Ht].
    destruct H as (ds & ext & new_rows & tagged & Hds & Hlay & -> & ->).
    exists ds, ext, tagged. now rewrite app_nil_l.
Qed.

Lemma coerce_text (o : option pyval) :
  text_or_missing o = true -> exists s, coerce (default (PStr dash) o) = PStr s.
Proof.
  destruct o as [[| | | |s]|]; try discriminate; intros _;
    cbn [default from_option id]; unfold coerce.
  - cbn [is_none orb]. eauto.
  - destruct (_ || _); eauto.
  - destruct (_ || _); eauto.
Qed.

Lemma row_of_plain serial it :
  plain it = true ->
  exists d, row_of serial it = Ok d /\ exists b, region_check d = Ok b.
Proof.
  unfold plain. rewrite !andb_true_iff. intros [[[_ Hdate] Hsell] Hbuy].
  destruct (coerce_text _ Hdate) as [sd Hsd].
  destruct (coerce_text _ Hsell) as [ss Hss].
  destruct (coerce_text _ Hbuy) as [sb Hsb].
  assert (Hdc : exists v, date_cell (field_of it (lit "ANNOUNDATE")) = Ok v).
  { unfold date_cell, field_of. rewrite Hsd. destruct (ne_str _ _); cbn; eauto. }
  destruct Hdc as [v Hv].
  unfold row_of. rewrite Hv. cbn [bindR].
  eexists. split; [reflexivity|]. unfold region_check.
  run_dict. cbn [default from_option id].
  unfold field_of. rewrite Hss, Hsb. rewrite !is_guangdong_company_str.
  cbn [bindR]. destruct (gd_name (Some (PStr ss))); eauto.
Qed.

Lemma process_loop_total raw : forall serial acc st,
  forallb plain raw = true ->
  exists rows st', process_loop raw serial acc st = (Ok rows, st').
Proof.
  induction raw as [|it rest IH]; intros serial acc st Hp.
  - simpl. eauto.
  - cbn [forallb] in Hp. apply andb_true_iff in Hp. destruct Hp as [Hit Hrest].
    cbn [process_loop]. unfold bind at 1. unfold lift.
    destruct (row_of_plain serial it Hit) as (d & Hrow & b & Hreg).
    destruct (row_of_related_sep _ _ _ Hrow) as [v Hv].
    assert (Hdate : exists s, default (PStr []) (it !! lit "SCGGRQ") = PStr s).
    { unfold plain in Hit. rewrite !andb_true_iff in Hit.
      destruct Hit as [[[Hd _] _] _].
      destruct (it !! lit "SCGGRQ") as [[| | | |s]|]; try discriminate;
        cbn [default from_option id]; eauto. }
    destruct Hdate as [s ->]. cbn [getslice].
    unfold bind at 1. unfold get_today.
    destruct (ne_str (PStr (slice_to 10 s)) (today st)); [apply IH; exact Hrest|].
    rewrite build_run, Hrow. unfold bind at 1. rewrite classify_run.
    cbn [heap today Store.guangdong_cases]. rewrite deref_last. cbv zeta.
    rewrite Hreg. unfold dict_getitem. rewrite Hv.
    destruct b; apply IH; exact Hrest.
Qed.

Lemma process_total raw st :
  forallb plain raw = true -> exists rows st', process raw st = (Ok rows, st').
Proof.
  intros Hp. destruct raw as [|it rest]; [simpl; eauto|].
  unfold process. now apply process_loop_total.
Qed.

(* ===================================================================== *)
(** ** Facts about the string operations                                  *)
(* ===================================================================== *)

Lemma lstrip_blank s : forallb py_isspace s = true -> lstrip s = [].
Proof.
  induction s as [|c r IH]; simpl; [reflexivity|].
  intros H. apply andb_true_iff in H. destruct H as [-> Hr]. auto.
Qed.

Lemma strip_blank s : forallb py_isspace s = true -> strip s = [].
Proof. intros H. unfold strip, rstrip. now rewrite (lstrip_blank s H). Qed.

Lemma lower_none_token s : none_token s = true -> lower s = lit "none".
Proof.
  destruct s as [|a [|b [|c [|d [|x r]]]]]; try discriminate.
  unfold none_token. rewrite !andb_true_iff, !orb_true_iff, !Z.eqb_eq.
  intros [[[[-> | ->] [-> | ->]] [-> | ->]] [-> | ->]]; reflexivity.
Qed.

(** A missing source value is turned into the sentinel (line 92). *)
Lemma coerce_missing (o : option pyval) :
  missing o = true -> coerce (default (PStr dash) o) = PStr dash.
Proof.
  destruct o as [[| | | |s]|]; try discriminate; intros H;
    cbn [default from_option id]; unfold coerce.
  - reflexivity.
  - cbn [missing] in H. cbn [is_none py_str orb].
    apply orb_true_iff in H. destruct H as [H | H].
    + rewrite (strip_blank s H). reflexivity.
    + rewrite (lower_none_token s H). rewrite str_eqb_refl.
      now rewrite orb_true_r.
  - now destruct (_ || _).
Qed.

(** The coerced value is never null and never the empty string. *)
Lemma coerce_present (v : pyval) : coerce v <> PNone /\ coerce v <> PStr [].
Proof.
  unfold coerce. destruct v as [| | | |s]; cbn [is_none orb].
  - split; discriminate.
  - destruct (_ || _); split; discriminate.
  - destruct (_ || _); split; discriminate.
  - destruct (_ || _); split; discriminate.
  - destruct s as [|c r].
    + split; discriminate.
    + destruct (_ || _); split; discriminate.
Qed.

Lemma is_prefix_spec p : forall s,
  is_prefix p s = true <-> exists post, s = p ++ post.
Proof.
  induction p as [|a p IH]; intros s; simpl.
  - split; [eauto | reflexivity].
  - destruct s as [|b s].
    + split; [discriminate | intros [post H]; discriminate].
    + rewrite andb_true_iff, Z.eqb_eq, IH. split.
      * intros [-> [post ->]]. eauto.
      * intros [post H]. injection H as -> ->. eauto.
Qed.

(** [contains] is the substring relation. *)
Lemma contains_spec kw s :
  contains kw s = true <-> exists pre post, s = pre ++ kw ++ post.
Proof.
  induction s as [|c r IH].
  - simpl. rewrite orb_false_r, is_prefix_spec. split.
    + intros [post H]. exists [], post. exact H.
    + intros (pre & post & H). destruct pre; [eauto | discriminate].
  - cbn [contains]. rewrite orb_true_iff, is_prefix_spec, IH. split.
    + intros [[post H] | (pre & post & H)].
      * exists [], post. exact H.
      * exists (c :: pre), post. now rewrite H.
    + intros (pre & post & H). destruct pre as [|x pre].
      * left. eauto.
      * right. injection H as -> ->. eauto.
Qed.

(* ===================================================================== *)
(** ** Facts about the number format                                      *)
(* ===================================================================== *)

Lemma digit_char n : 0 <= n < 10 -> is_digit (48 + n) = true.
Proof. intros H. unfold is_digit, in_range. apply andb_true_iff. lia. Qed.

Lemma digits_aux_digits fuel : forall n acc,
  0 <= n -> forallb is_digit acc = true ->
  forallb is_digit (digits_aux fuel n acc) = true.
Proof.
  induction fuel as [|f IH]; intros n acc Hn Hacc; simpl; [exact Hacc|].
  assert (Hd : is_digit (48 + n mod 10) = true)
    by (apply digit_char, Z.mod_pos_bound; lia).
  destruct (n <? 10).
  - simpl. now rewrite Hd.
  - apply IH.
    + apply Z.div_pos; lia.
    + simpl. now rewrite Hd.
Qed.

Lemma digits_aux_nonempty fuel n acc : digits_aux (S fuel) n acc <> [].
Proof.
  revert n acc. induction fuel as [|f IH]; intros n acc.
  - simpl. destruct (n <? 10); discriminate.
  - cbn [digits_aux]. destruct (n <? 10); [discriminate|]. apply IH.
Qed.

Lemma digits_of_digits n : 0 <= n -> forallb is_digit (digits_of n) = true.
Proof. intros H. now apply digits_aux_digits. Qed.

Lemma digits_of_nonempty n : digits_of n <> [].
Proof. apply digits_aux_nonempty. Qed.

Lemma groups_frac_long t :
  groups_frac t = true -> exists a b r, t = a :: b :: r.
Proof.
  destruct t as [|a [|b r]]; [discriminate | | eauto].
  destruct a as [|p|p]; try discriminate.
  do 7 (try destruct p as [p|p|]; try discriminate).
Qed.

(** Digits grouped by three, followed by further groups and the decimals,
    are recognised; [l] is least significant first. *)
Lemma first_group_rev (n : nat) : forall l t,
  (length l <= n)%nat -> l <> [] -> forallb is_digit l = true ->
  groups_frac t = true ->
  first_group (rev (group_rev l) ++ t) = true.
Proof.
  induction n as [|n IH]; intros l t Hlen Hne Hd Ht.
  - destruct l; [contradiction | simpl in Hlen; lia].
  - destruct (groups_frac_long t Ht) as (x & y & r' & Et).
    destruct l as [|a [|b [|c [|d r]]]]; [contradiction | | | |].
    + simpl in Hd. rewrite andb_true_r in Hd.
      subst t. simpl rev. simpl app. unfold first_group.
      rewrite Hd. now rewrite Ht.
    + simpl in Hd. rewrite andb_true_r in Hd.
      apply andb_true_iff in Hd. destruct Hd as [Ha Hb].
      subst t. simpl rev. simpl app. unfold first_group.
      rewrite Hb, Ha, Ht. cbn [andb]. now rewrite orb_true_r.
    + simpl in Hd. rewrite andb_true_r in Hd.
      apply andb_true_iff in Hd. destruct Hd as [Ha Hd].
      apply andb_true_iff in Hd. destruct Hd as [Hb Hc].
      simpl rev. simpl app. unfold first_group.
      rewrite Hc, Hb, Ha, Ht. cbn [andb]. now rewrite !orb_true_r.
    + change (group_rev (a :: b :: c :: d :: r))
        with (a :: b :: c :: 44 :: group_rev (d :: r)).
      cbn [rev]. rewrite <- !app_assoc. cbn [app].
      cbn [forallb] in Hd.
      apply andb_true_iff in Hd. destruct Hd as [Ha Hd].
      apply andb_true_iff in Hd. destruct Hd as [Hb Hd].
      apply andb_true_iff in Hd. destruct Hd as [Hc Hd].
      apply (IH (d :: r)).
      * simpl in Hlen |- *. lia.
      * discriminate.
      * exact Hd.
      * cbn [groups_frac]. now rewrite Hc, Hb, Ha, Ht.
Qed.

Lemma hundredths_nonneg m e : 0 <= m -> 0 <= hundredths m e.
Proof.
  intros Hm. unfold hundredths. destruct (0 <=? e) eqn:E.
  - apply Z.leb_le in E. assert (0 < 2 ^ e) by (apply Z.pow_pos_nonneg; lia). nia.
  - unfold div_half_even.
    assert (0 < 2 ^ (- e)) by (apply Z.pow_pos_nonneg; lia).
    assert (0 <= m * 100 / 2 ^ (- e)) by (apply Z.div_pos; lia).
    destruct (_ || _); lia.
Qed.

Lemma amount_body_grouped q :
  0 <= q ->
  first_group (group3 (digits_of (q / 100)) ++ [46] ++ two_digits (q mod 100))
  = true.
Proof.
  intros Hq.
  assert (Hfrac : groups_frac ([46] ++ two_digits (q mod 100)) = true).
  { unfold two_digits. cbn [app groups_frac].
    assert (0 <= q mod 100 < 100) by (apply Z.mod_pos_bound; lia).
    rewrite !digit_char; [reflexivity | |].
    - apply Z.mod_pos_bound; lia.
    - split; [apply Z.div_pos; lia | apply Z.div_lt_upper_bound; lia]. }
  unfold group3. apply (first_group_rev (length (rev (digits_of (q / 100))))).
  - lia.
  - intros E. apply (digits_of_nonempty (q / 100)).
    apply (f_equal (@rev Z)) in E. now rewrite rev_involutive in E.
  - apply forallb_forall. intros x Hx. apply in_rev in Hx.
    assert (Hall := digits_of_digits (q / 100) ltac:(apply Z.div_pos; lia)).
    rewrite forallb_forall in Hall. now apply Hall.
  - exact Hfrac.
Qed.

Lemma first_group_head s : first_group s = true -> is_negative s = false.
Proof.
  destruct s as [|a [|b [|c r]]]; try discriminate.
  unfold first_group, is_negative. intros H.
  apply andb_true_iff in H. destruct H as [Ha _].
  unfold is_digit, in_range in Ha. apply andb_true_iff in Ha.
  apply Z.eqb_neq. lia.
Qed.

(* ===================================================================== *)
(** ** Rows of a run                                                      *)
(* ===================================================================== *)

(** The [i]-th returned row is the one built from the [i]-th retained
    record, with serial number [i + 1]. *)
Lemma process_row raw st rows st' :
  today st <> [] ->
  process raw st = (Ok rows, st') ->
  length rows = length (List.filter (retained (today st)) raw)
  /\ forall (i : nat) it l,
       List.filter (retained (today st)) raw !! i = Some it ->
       rows !! i = Some l ->
       row_of (1 + Z.of_nat i) it = Ok (deref (heap st') l).
Proof.
  intros Ht H. destruct (process_ok _ _ _ _ Ht H) as (ds & ext & tagged & Hds & Hlay & ->).
  destruct (rows_of_lookup _ _ _ Hds) as [Hlen Hrows].
  pose proof (layout_rows _ _ (heap st) _ _ _ Hlay eq_refl) as Hmap.
  split.
  - rewrite <- Hlen, <- Hmap. now rewrite length_map.
  - intros i it l Hi Hl. cbn [heap].
    apply Hrows; [exact Hi|].
    rewrite <- Hmap. rewrite list_lookup_fmap, Hl. reflexivity.
Qed.

Lemma row_of_inv serial it d :
  row_of serial it = Ok d ->
  exists date,
    date_cell (field_of it (lit "ANNOUNDATE")) = Ok date
    /\ d = [ (k_serial, PInt serial);
             (k_amount, amount_cell (field_of it (lit "JYJE")));
             (lit "股票代码", field_of it (lit "SCODE"));
             (lit "股票简称", field_of it (lit "SNAME"));
             (k_related_sep,
              related_cell links_sep (default (PStr []) (it !! lit "SCODE"))
                (field_of it (lit "OBJTYPE")));
             (k_related_br,
              related_cell links_br (default (PStr []) (it !! lit "SCODE"))
                (field_of it (lit "OBJTYPE")));
             (lit "交易标的", field_of it (lit "H_COMNAME"));
             (k_seller, field_of it (lit "G_GOMNAME"));
             (k_buyer, field_of it (lit "S_COMNAME"));
             (lit "币种", field_of it (lit "BZNAME"));
             (k_method, field_of it (lit "ZRFS"));
             (lit "最新公告日", date) ].
Proof.
  unfold row_of. destruct (date_cell _) as [date|]; cbn [bindR]; [|discriminate].
  intros [= <-]. eauto.
Qed.

Lemma field_of_missing it api :
  missing (it !! api) = true -> field_of it api = PStr dash.
Proof. apply coerce_missing. Qed.

Lemma amount_cell_dash : amount_cell (PStr dash) = PStr dash.
Proof. reflexivity. Qed.

Lemma date_cell_dash : date_cell (PStr dash) = Ok (PStr dash).
Proof. reflexivity. Qed.

Lemma related_cell_dash render sc : related_cell render sc (PStr dash) = PStr dash.
Proof. unfold related_cell. now rewrite andb_comm. Qed.

(** In a built row, a missing source value shows as the sentinel: under the
    mapped name for every field but [OBJTYPE], under the names of the two
    renderings for [OBJTYPE]. *)
Lemma row_of_missing serial it d api report :
  row_of serial it = Ok d ->
  In (api, report) field_mapping ->
  missing (it !! api) = true ->
  (api <> lit "OBJTYPE" -> dict_get d report = Some (PStr dash))
  /\ (api = lit "OBJTYPE" ->
      dict_get d k_related_sep = Some (PStr dash)
      /\ dict_get d k_related_br = Some (PStr dash)).
Proof.
  intros Hrow Hin Hmiss.
  destruct (row_of_inv _ _ _ Hrow) as (date & Hdate & ->).
  apply field_of_missing in Hmiss.
  unfold field_mapping in Hin. cbn [In] in Hin.
  repeat (destruct Hin as [Hin | Hin]; [injection Hin as <- <- | ]);
    try contradiction; (split; [intros Hne | intros Heq]);
    try (exfalso; now apply Hne); try (exfalso; vm_compute in Heq; discriminate);
    try (run_dict; rewrite ?Hmiss, ?amount_cell_dash, ?related_cell_dash; reflexivity).
  - run_dict. now rewrite !Hmiss, !related_cell_dash.
  - rewrite Hmiss, date_cell_dash in Hdate. injection Hdate as <-.
    run_dict. reflexivity.
Qed.

(* ===================================================================== *)
(** ** The value of a printed amount                                      *)
(* ===================================================================== *)

Lemma fold_digits_acc (l : pystr) : forall a,
  fold_left (fun acc c => acc * 10 + (c - 48)) l a
  = a * 10 ^ Z.of_nat (length l)
    + fold_left (fun acc c => acc * 10 + (c - 48)) l 0.
Proof.
  induction l as [|c l IH]; intros a.
  - simpl. lia.
  - cbn [fold_left length]. rewrite IH. rewrite (IH (0 * 10 + (c - 48))).
    rewrite Nat2Z.inj_succ, Z.pow_succ_r by lia. lia.
Qed.

Lemma digits_aux_value fuel : forall n acc,
  0 <= n < 10 ^ Z.of_nat fuel ->
  fold_left (fun a c => a * 10 + (c - 48)) (digits_aux fuel n acc) 0
  = n * 10 ^ Z.of_nat (length acc)
    + fold_left (fun a c => a * 10 + (c - 48)) acc 0.
Proof.
  induction fuel as [|f IH]; intros n acc Hn.
  - simpl in Hn. assert (n = 0) by lia. subst n. simpl. lia.
  - cbn [digits_aux].
    assert (Hhead : fold_left (fun a c => a * 10 + (c - 48))
                      ((48 + n mod 10) :: acc) 0
                    = n mod 10 * 10 ^ Z.of_nat (length acc)
                      + fold_left (fun a c => a * 10 + (c - 48)) acc 0).
    { cbn [fold_left]. rewrite fold_digits_acc. f_equal. f_equal. lia. }
    destruct (n <? 10) eqn:E.
    + apply Z.ltb_lt in E. rewrite Hhead. rewrite Z.mod_small by lia. reflexivity.
    + apply Z.ltb_ge in E. rewrite IH.
      * rewrite Hhead. cbn [length]. rewrite Nat2Z.inj_succ, Z.pow_succ_r by lia.
        pose proof (Z.div_mod n 10 ltac:(lia)) as Hdm.
        set (p := 10 ^ Z.of_nat (length acc)) in *. nia.
      * rewrite Nat2Z.inj_succ, Z.pow_succ_r in Hn by lia.
        split; [apply Z.div_pos; lia | apply Z.div_lt_upper_bound; lia].
Qed.

Lemma lt_pow10_log2 n : 0 <= n -> n < 10 ^ Z.of_nat (S (Z.to_nat (Z.log2 n))).
Proof.
  intros Hn. rewrite Nat2Z.inj_succ, Z2Nat.id by apply Z.log2_nonneg.
  destruct (Z.eq_dec n 0) as [->|Hz]; [reflexivity|].
  pose proof (Z.log2_spec n ltac:(lia)) as [_ Hlt].
  eapply Z.lt_le_trans; [exact Hlt|].
  apply Z.pow_le_mono_l. split; [lia|lia].
Qed.

(** The digits printed for [n] spell [n]. *)
Lemma digits_of_value n :
  0 <= n -> fold_left (fun a c => a * 10 + (c - 48)) (digits_of n) 0 = n.
Proof.
  intros Hn. unfold digits_of. rewrite digits_aux_value.
  - simpl. lia.
  - split; [exact Hn | now apply lt_pow10_log2].
Qed.

Lemma filter_digits_id l : forallb is_digit l = true -> List.filter is_digit l = l.
Proof.
  induction l as [|c l IH]; simpl; [reflexivity|].
  intros H. apply andb_true_iff in H. destruct H as [-> Hl]. now rewrite IH.
Qed.

Lemma filter_group_rev (n : nat) : forall l,
  (length l <= n)%nat -> forallb is_digit l = true ->
  List.filter is_digit (group_rev l) = l.
Proof.
  induction n as [|n IH]; intros l Hlen Hd.
  - destruct l; [reflexivity | simpl in Hlen; lia].
  - destruct l as [|a [|b [|c [|d r]]]];
      try (now apply filter_digits_id).
    change (group_rev (a :: b :: c :: d :: r))
      with (a :: b :: c :: 44 :: group_rev (d :: r)).
    cbn [forallb] in Hd.
    apply andb_true_iff in Hd. destruct Hd as [Ha Hd].
    apply andb_true_iff in Hd. destruct Hd as [Hb Hd].
    apply andb_true_iff in Hd. destruct Hd as [Hc Hd].
    cbn [List.filter]. rewrite Ha, Hb, Hc.
    change (is_digit 44) with false. cbv iota.
    rewrite (IH (d :: r)); [reflexivity | simpl in Hlen |- *; lia | exact Hd].
Qed.

Lemma filter_group3 ds :
  forallb is_digit ds = true -> List.filter is_digit (group3 ds) = ds.
Proof.
  intros Hd. unfold group3. rewrite List.filter_rev.
  rewrite (filter_group_rev (length (rev ds))).
  - apply rev_involutive.
  - lia.
  - apply forallb_forall. intros x Hx. apply in_rev in Hx.
    rewrite forallb_forall in Hd. now apply Hd.
Qed.

Lemma div_half_even_nearest a b :
  0 <= a -> 0 < b ->
  Z.abs (2 * (div_half_even a b * b - a)) <= b
  /\ (Z.abs (2 * (div_half_even a b * b - a)) = b ->
      Z.even (div_half_even a b) = true).
Proof.
  intros Ha Hb. unfold div_half_even.
  pose proof (Z.div_mod a b ltac:(lia)) as Hdm.
  pose proof (Z.mod_pos_bound a b Hb) as Hr.
  set (q := a / b) in *. set (r := a mod b) in *.
  destruct (b <? 2 * r) eqn:E1; cbn [orb].
  - apply Z.ltb_lt in E1. split; [lia|]. intros H. lia.
  - apply Z.ltb_ge in E1. destruct (2 * r =? b) eqn:E2; cbn [andb].
    + apply Z.eqb_eq in E2. destruct (Z.odd q) eqn:E3.
      * split; [lia|]. intros _. rewrite Z.add_1_r, Z.even_succ. exact E3.
      * split; [lia|]. intros _. rewrite <- Z.negb_odd, E3. reflexivity.
    + apply Z.eqb_neq in E2. split; [lia|]. intros H. lia.
Qed.

Lemma hundredths_nearest m e :
  0 <= m -> nearest_hundredths m e (hundredths m e).
Proof.
  intros Hm. unfold nearest_hundredths, hundredths. split.
  - intros He. apply Z.leb_le in He. rewrite He. lia.
  - intros He. assert (E : (0 <=? e) = false) by (apply Z.leb_gt; lia).
    rewrite E.
    assert (Hp : 0 < 2 ^ (- e)) by (apply Z.pow_pos_nonneg; lia).
    pose proof (div_half_even_nearest (m * 100) (2 ^ (- e)) ltac:(lia) Hp) as [H1 H2].
    replace (100 * m) with (m * 100) by lia. split; [exact H1 | exact H2].
Qed.

(** The text printed for a finite amount spells the amount rounded to
    hundredths, with its sign. *)
Lemma format_2f_value neg m e :
  read_digits (format_2f (FFin neg m e)) = hundredths (Z.of_N m) e
  /\ is_negative (format_2f (FFin neg m e)) = neg.
Proof.
  unfold format_2f. set (q := hundredths (Z.of_N m) e).
  assert (Hq : 0 <= q) by (apply hundredths_nonneg; lia).
  assert (Hq1 : 0 <= q / 100) by (apply Z.div_pos; lia).
  assert (Hr : 0 <= q mod 100 < 100) by (apply Z.mod_pos_bound; lia).
  assert (Hd1 : is_digit (48 + q mod 100 / 10) = true).
  { apply digit_char. split; [apply Z.div_pos; lia | apply Z.div_lt_upper_bound; lia]. }
  assert (Hd2 : is_digit (48 + (q mod 100) mod 10) = true).
  { apply digit_char. apply Z.mod_pos_bound; lia. }
  split.
  - unfold read_digits. rewrite !List.filter_app.
    rewrite filter_group3 by now apply digits_of_digits.
    assert (Hsign : List.filter is_digit (if neg then [45] else []) = [])
      by now destruct neg.
    rewrite Hsign. cbn [app]. unfold two_digits. cbn [List.filter].
    change (is_digit 46) with false. cbv iota. rewrite Hd1, Hd2.
    rewrite fold_left_app. rewrite digits_of_value by exact Hq1.
    cbn [app fold_left].
    pose proof (Z.div_mod q 100 ltac:(lia)).
    pose proof (Z.div_mod (q mod 100) 10 ltac:(lia)). lia.
  - destruct neg; [reflexivity|]. cbn [app].
    apply first_group_head. now apply amount_body_grouped.
Qed.

(** The first digit printed for a positive number is not a zero. *)
Lemma digits_aux_head fuel : forall n acc,
  0 < n < 10 ^ Z.of_nat fuel ->
  exists c r, digits_aux fuel n acc = c :: r /\ c <> 48.
Proof.
  induction fuel as [|f IH]; intros n acc Hn.
  - simpl in Hn. lia.
  - cbn [digits_aux]. destruct (n <? 10) eqn:E.
    + apply Z.ltb_lt in E. exists (48 + n mod 10), acc. split; [reflexivity|].
      rewrite Z.mod_small by lia. lia.
    + apply Z.ltb_ge in E. apply IH.
      rewrite Nat2Z.inj_succ, Z.pow_succ_r in Hn by lia.
      split; [apply Z.div_str_pos; lia | apply Z.div_lt_upper_bound; lia].
Qed.

Lemma digits_of_head n :
  0 <= n -> exists c r, digits_of n = c :: r /\ (c = 48 -> r = []).
Proof.
  intros Hn. destruct (Z.eq_dec n 0) as [->|Hz].
  - exists 48, []. split; [reflexivity | auto].
  - destruct (digits_aux_head (S (Z.to_nat (Z.log2 n))) n []) as (c & r & E & Hc).
    + split; [lia | apply lt_pow10_log2; lia].
    + exists c, r. split; [exact E | intros H; contradiction].
Qed.

(** Grouping keeps the most significant digit in front; [l ++ [x]] is
    least significant first. *)
Lemma group_rev_last (n : nat) : forall l x,
  (length l <= n)%nat ->
  exists l', group_rev (l ++ [x]) = l' ++ [x] /\ (l = [] -> l' = []).
Proof.
  induction n as [|n IH]; intros l x Hlen.
  - destruct l; [|simpl in Hlen; lia]. exists []. split; [reflexivity | auto].
  - destruct l as [|a [|b [|c [|d r]]]].
    + exists []. split; [reflexivity | auto].
    + exists [a]. split; [reflexivity | discriminate].
    + exists [a; b]. split; [reflexivity | discriminate].
    + exists [a; b; c; 44]. split; [reflexivity | discriminate].
    + destruct (IH (d :: r) x) as (l' & E & _); [simpl in Hlen |- *; lia|].
      exists (a :: b :: c :: 44 :: l'). split; [|discriminate].
      change (group_rev ((a :: b :: c :: d :: r) ++ [x]))
        with (a :: b :: c :: 44 :: group_rev ((d :: r) ++ [x])).
      rewrite E. reflexivity.
Qed.

Lemma group3_head c r :
  exists r', group3 (c :: r) = c :: r' /\ (r = [] -> r' = []).
Proof.
  unfold group3. cbn [rev].
  destruct (group_rev_last (length (rev r)) (rev r) c) as (l' & E & Hl); [lia|].
  rewrite E, rev_app_distr. exists (rev l'). split; [reflexivity|].
  intros ->. now rewrite Hl.
Qed.

Lemma amount_body_no_leading_zero q :
  0 <= q ->
  no_leading_zero (group3 (digits_of (q / 100)) ++ [46] ++ two_digits (q mod 100))
  = true.
Proof.
  intros Hq.
  destruct (digits_of_head (q / 100)) as (c & r & E & Hc);
    [apply Z.div_pos; lia|].
  rewrite E. destruct (group3_head c r) as (r' & E' & Hr). rewrite E'.
  cbn [app]. unfold no_leading_zero. destruct (c =? 48) eqn:Ec.
  - apply Z.eqb_eq in Ec. rewrite (Hr (Hc Ec)). reflexivity.
  - now destruct (r' ++ _).
Qed.

(** A finite amount is printed with thousands groups and two decimals, and
    with no zero in front of its integer part. *)
Lemma format_2f_grouped neg m e : grouped_2dp (format_2f (FFin neg m e)) = true.
Proof.
  unfold format_2f. set (q := hundredths (Z.of_N m) e).
  assert (Hq : 0 <= q) by (apply hundredths_nonneg; lia).
  pose proof (amount_body_grouped q Hq) as Hbody.
  pose proof (amount_body_no_leading_zero q Hq) as Hzero.
  set (body := group3 _ ++ [46] ++ _) in *.
  unfold grouped_2dp. destruct neg; cbn [app].
  - rewrite Z.eqb_refl. cbv zeta. now rewrite Hbody, Hzero.
  - pose proof (first_group_head _ Hbody) as Hneg.
    destruct body as [|c r]; [discriminate|].
    cbn [is_negative] in Hneg. rewrite Hneg. cbv zeta. now rewrite Hbody, Hzero.
Qed.

(** The form is exact about the integer part: a single zero or digits
    without a zero in front, in full groups of three after the first. *)
Lemma grouped_2dp_samples :
  grouped_2dp (lit "0.50") = true
  /\ grouped_2dp (lit "-1,234,567.50") = true
  /\ grouped_2dp (lit "0,012.50") = false
  /\ grouped_2dp (lit "012.50") = false
  /\ grouped_2dp (lit "1234.50") = false
  /\ grouped_2dp (lit "12.5") = false.
Proof.
  split; [vm_compute; reflexivity|].
  split; [vm_compute; reflexivity|].
  split; [vm_compute; reflexivity|].
  split; [vm_compute; reflexivity|].
  split; [vm_compute; reflexivity|].
  vm_compute; reflexivity.
Qed.

Lemma format_2f_nonempty x : format_2f x <> [].
Proof.
  destruct x as [|neg|neg m e]; cbn [format_2f].
  - discriminate.
  - destruct neg; discriminate.
  - intros H. apply (f_equal (@length Z)) in H.
    rewrite !length_app in H. cbn [length] in H. lia.
Qed.

Lemma amount_cell_present v :
  amount_cell v <> PNone /\ amount_cell v <> PStr [].
Proof.
  unfold amount_cell. destruct (ne_str v dash); [|split; discriminate].
  destruct (py_float v) as [x|]; [|split; discriminate].
  split; [discriminate|]. intros [= H]. now apply (format_2f_nonempty x).
Qed.

Lemma related_cell_present render sc v :
  (forall c, render c <> []) ->
  related_cell render sc v <> PNone /\ related_cell render sc v <> PStr [].
Proof.
  intros Hr. unfold related_cell. destruct (_ && _); [|split; discriminate].
  split; [discriminate|]. intros [= H]. now apply (Hr sc).
Qed.

Lemma links_sep_nonempty c : links_sep c <> [].
Proof. unfold links_sep, anchor. discriminate. Qed.

Lemma links_br_nonempty c : links_br c <> [].
Proof. unfold links_br, anchor. discriminate. Qed.

Lemma date_cell_present v date :
  date_cell (coerce v) = Ok date -> date <> PNone /\ date <> PStr [].
Proof.
  unfold date_cell. destruct (ne_str (coerce v) dash).
  - destruct (coerce_present v) as [_ Hne].
    destruct (coerce v) as [| | | |s]; cbn [getslice]; try discriminate.
    intros [= <-]. split; [discriminate|].
    destruct s as [|c r]; [contradiction | discriminate].
  - intros [= <-]. split; discriminate.
Qed.

(* ===================================================================== *)
(** ** The claims of the specification                                    *)
(* ===================================================================== *)

Import Examples.

(** C1, as amended.  For every record retained by the date filter and every
    pair of the field mapping whose source value is absent, null, an empty
    or whitespace-only string or the token "none" in any letter case: the
    row holds the sentinel "-" under the mapped name, except for [OBJTYPE],
    where the two renderings [相关_带分隔符] and [相关_换行] hold the
    sentinel and the mapped name [相关] is not a key of the row. *)
Theorem C1_missing_values_become_sentinel
    raw st rows st' (i : nat) it l api report :
  today st <> [] ->
  process raw st = (Ok rows, st') ->
  List.filter (retained (today st)) raw !! i = Some it ->
  rows !! i = Some l ->
  In (api, report) field_mapping ->
  missing (it !! api) = true ->
  (api <> lit "OBJTYPE" ->
   dict_get (deref (heap st') l) report = Some (PStr dash))
  /\ (api = lit "OBJTYPE" ->
      dict_get (deref (heap st') l) k_related_sep = Some (PStr dash)
      /\ dict_get (deref (heap st') l) k_related_br = Some (PStr dash)
      /\ dict_get (deref (heap st') l) report = None).
Proof.
  intros Ht Hrun Hit Hl Hin Hmiss.
  destruct (process_row _ _ _ _ Ht Hrun) as [_ Hrow].
  specialize (Hrow i it l Hit Hl).
  destruct (row_of_missing _ _ _ _ _ Hrow Hin Hmiss) as [Hgen Hobj].
  split; [exact Hgen|].
  intros Heq. destruct (Hobj Heq) as [Hsep Hbr].
  split; [exact Hsep | split; [exact Hbr|]].
  destruct (row_of_inv _ _ _ Hrow) as (date & _ & Hd). rewrite Hd.
  assert (Hrep : report = k_related).
  { subst api. unfold field_mapping in Hin. cbn [In] in Hin.
    repeat (destruct Hin as [Hin | Hin];
            [vm_compute in Hin; inversion Hin; reflexivity | ]).
    contradiction. }
  rewrite Hrep. run_dict. reflexivity.
Qed.

Lemma C1_witness :
  dict_get (deref (heap (snd (process feed st0))) 2%nat) (lit "股票简称")
  = Some (PStr dash).
Proof.
  refine (proj1 (C1_missing_values_become_sentinel feed st0 [0; 2]%nat
                   (snd (process feed st0)) 1%nat r_bad_amount 2%nat
                   (lit "SNAME") (lit "股票简称") _ _ _ _ _ _) _).
  - vm_compute. discriminate.
  - vm_compute. reflexivity.
  - vm_compute. reflexivity.
  - vm_compute. reflexivity.
  - vm_compute. right. left. reflexivity.
  - vm_compute. reflexivity.
  - vm_compute. discriminate.
Defined.

(** C1 as stated fails for [OBJTYPE]: the record [r_bare] is retained, its
    [OBJTYPE] is absent, the mapping sends [OBJTYPE] to [相关], and the row
    has no [相关] entry at all. *)
Lemma C1_counterexample :
  process [r_bare] st0 = (Ok [0%nat], snd (process [r_bare] st0))
  /\ List.filter (retained (today st0)) [r_bare] !! 0%nat = Some r_bare
  /\ In (lit "OBJTYPE", lit "相关") field_mapping
  /\ missing (r_bare !! lit "OBJTYPE") = true
  /\ dict_get (deref (heap (snd (process [r_bare] st0))) 0%nat) (lit "相关")
     <> Some (PStr dash).
Proof.
  split; [vm_compute; reflexivity|].
  split; [vm_compute; reflexivity|].
  split; [vm_compute; right; right; left; reflexivity|].
  split; [vm_compute; reflexivity|].
  vm_compute. discriminate.
Qed.

(** C2.  For every feed and every (non-empty) target date: when the records
    hold text or nothing in the fields the script slices or searches,
    [process] returns; and whenever it returns, the rows are those of the
    records whose [SCGGRQ], cut to ten characters, is the target date, in
    feed order, the [i]-th of them built from the [i]-th such record and
    numbered [i + 1]. *)
Theorem C2_date_filter_and_serial_numbers raw st :
  today st <> [] ->
  (forallb plain raw = true -> exists rows st', process raw st = (Ok rows, st'))
  /\ (forall rows st',
        process raw st = (Ok rows, st') ->
        let kept := List.filter (retained (today st)) raw in
        length rows = length kept
        /\ (forall (i : nat) it l,
              kept !! i = Some it -> rows !! i = Some l ->
              row_of (1 + Z.of_nat i) it = Ok (deref (heap st') l))
        /\ map (fun l => dict_get (deref (heap st') l) k_serial) rows
           = map (fun n => Some (PInt (Z.of_nat n))) (seq 1 (length rows))).
Proof.
  intros Ht. split; [apply process_total|].
  intros rows st' Hrun kept.
  destruct (process_row _ _ _ _ Ht Hrun) as [Hlen Hrow]. fold kept in Hlen, Hrow.
  split; [exact Hlen | split; [exact Hrow|]].
  apply list_eq. intros i. rewrite !list_lookup_fmap.
  destruct (rows !! i) as [l|] eqn:Hl.
  - assert (Hi : (i < length kept)%nat).
    { rewrite <- Hlen. apply lookup_lt_is_Some. eauto. }
    destruct (lookup_lt_is_Some_2 kept i Hi) as [it Hit].
    specialize (Hrow i it l Hit Hl).
    destruct (row_of_inv _ _ _ Hrow) as (date & _ & Hd).
    rewrite lookup_seq_lt by (rewrite Hlen; exact Hi).
    cbn [fmap option_fmap option_map]. rewrite Hd. run_dict.
    do 3 f_equal. lia.
  - apply lookup_ge_None in Hl.
    rewrite lookup_seq_ge by exact Hl. reflexivity.
Qed.

Lemma C2_witness :
  process feed st0 = (Ok [0; 2]%nat, snd (process feed st0))
  /\ List.filter (retained (today st0)) feed = [r_gd; r_bad_amount]
  /\ map (fun l => dict_get (deref (heap (snd (process feed st0))) l) k_serial)
       [0; 2]%nat
     = [Some (PInt 1); Some (PInt 2)].
Proof.
  assert (Ht : today st0 <> []) by (vm_compute; discriminate).
  assert (Hrun : process feed st0 = (Ok [0; 2]%nat, snd (process feed st0)))
    by (vm_compute; reflexivity).
  split; [exact Hrun|]. split; [vm_compute; reflexivity|].
  exact (proj2 (proj2
           (proj2 (C2_date_filter_and_serial_numbers feed st0 Ht) _ _ Hrun))).
Defined.


(** C3, a defect of the code.  The records [r_nan], [r_inf] and
    [r_overflow] are disclosed on the target date and spell their amounts
    "nan", "inf" and "1e999".  [float] accepts all three, so the fallback
    of the [try] block is never reached: [process] returns a row whose
    amount field reads "nan" or "inf", which is neither the sentinel nor a
    grouped amount with two decimals, and [main] ends the run on [r_nan] as
    a success with both artifacts delivered.  The neighbouring failures do
    reach the fallback: an integer beyond the range of a float
    ([r_huge_int]) and a text that is no number ([r_bad_amount]) give the
    sentinel. *)
Theorem C3_non_finite_amount_is_printed :
  let amount :=
    fun it => dict_get (deref (heap (snd (process [it] st0))) 0%nat) k_amount in
  fst (process [r_nan] st0) = Ok [0%nat]
  /\ py_float (field_of r_nan (lit "JYJE")) = Ok FNan
  /\ amount r_nan = Some (PStr (lit "nan"))
  /\ amount r_inf = Some (PStr (lit "inf"))
  /\ amount r_overflow = Some (PStr (lit "inf"))
  /\ grouped_2dp (lit "nan") = false
  /\ grouped_2dp (lit "inf") = false
  /\ amount r_huge_int = Some (PStr dash)
  /\ amount r_bad_amount = Some (PStr dash)
  /\ fst (Report.main (world [r_nan]))
     = Some [lit "并购重组日报_20240102.html"; lit "并购重组日报_20240102.pdf"].
Proof.
  cbv zeta.
  split; [vm_compute; reflexivity|].
  split; [vm_compute; reflexivity|].
  split; [vm_compute; reflexivity|].
  split; [vm_compute; reflexivity|].
  split; [vm_compute; reflexivity|].
  split; [vm_compute; reflexivity|].
  split; [vm_compute; reflexivity|].
  split; [vm_compute; reflexivity|].
  split; [vm_compute; reflexivity|].
  vm_compute; reflexivity.
Qed.

(** C4, as amended.  Every row that [process] returns has exactly the keys
    [row_keys]: the serial number, every mapped name except [相关], and
    the two renderings of the reference; [相关] is not a key.  No value is
    null or the empty string, and a missing source value shows as "-". *)
Theorem C4_rows_carry_every_field raw st rows st' (i : nat) it l :
  today st <> [] ->
  process raw st = (Ok rows, st') ->
  List.filter (retained (today st)) raw !! i = Some it ->
  rows !! i = Some l ->
  let d := deref (heap st') l in
  map fst d = row_keys
  /\ (forall k, In k row_keys ->
        exists v, dict_get d k = Some v /\ v <> PNone /\ v <> PStr [])
  /\ dict_get d k_related = None
  /\ (forall api report,
        In (api, report) field_mapping -> api <> lit "OBJTYPE" ->
        In report row_keys
        /\ (missing (it !! api) = true -> dict_get d report = Some (PStr dash)))
  /\ (missing (it !! lit "OBJTYPE") = true ->
      dict_get d k_related_sep = Some (PStr dash)
      /\ dict_get d k_related_br = Some (PStr dash)).
Proof.
  intros Ht Hrun Hit Hl d.
  destruct (process_row _ _ _ _ Ht Hrun) as [_ Hrow].
  specialize (Hrow i it l Hit Hl). fold d in Hrow.
  destruct (row_of_inv _ _ _ Hrow) as (date & Hdate & Hd).
  split; [now rewrite Hd|]. split; [|split; [|split]].
  - intros k Hk. rewrite Hd. unfold row_keys in Hk. cbn [In] in Hk.
    repeat (destruct Hk as [<- | Hk]); try contradiction;
      run_dict; eexists; (split; [reflexivity|]);
      try apply coerce_present; try apply amount_cell_present.
    + split; discriminate.
    + apply related_cell_present, links_sep_nonempty.
    + apply related_cell_present, links_br_nonempty.
    + exact (date_cell_present _ _ Hdate).
  - rewrite Hd. run_dict. reflexivity.
  - intros api report Hin Hne. split.
    + unfold field_mapping in Hin. cbn [In] in Hin.
      repeat (destruct Hin as [Hin | Hin]; [injection Hin as <- <- | ]);
        try contradiction; try (exfalso; now apply Hne);
        vm_compute; tauto.
    + intros Hm. now apply (row_of_missing _ _ _ _ _ Hrow Hin Hm).
  - intros Hm.
    apply (row_of_missing _ _ _ (lit "OBJTYPE") (lit "相关") Hrow);
      [vm_compute; tauto | exact Hm | reflexivity].
Qed.

Lemma C4_witness :
  map fst (deref (heap (snd (process feed st0))) 2%nat) = row_keys
  /\ dict_get (deref (heap (snd (process feed st0))) 2%nat) k_related = None.
Proof.
  assert (H := C4_rows_carry_every_field feed st0 [0; 2]%nat
                 (snd (process feed st0)) 1%nat r_bad_amount 2%nat
                 ltac:(vm_compute; discriminate) ltac:(vm_compute; reflexivity)
                 ltac:(vm_compute; reflexivity) ltac:(vm_compute; reflexivity)).
  exact (conj (proj1 H) (proj1 (proj2 (proj2 H)))).
Defined.

(** C4 as stated fails for [相关]: it is a report-facing name of the
    mapping, and the only row made from [r_bare] has no such key. *)
Lemma C4_counterexample :
  process [r_bare] st0 = (Ok [0%nat], snd (process [r_bare] st0))
  /\ In (lit "相关") (map snd field_mapping)
  /\ dict_get (deref (heap (snd (process [r_bare] st0))) 0%nat) (lit "相关")
     = None.
Proof.
  split; [vm_compute; reflexivity|].
  split; [vm_compute; tauto|].
  vm_compute. reflexivity.
Qed.

Lemma gd_name_spec (o : option pyval) :
  gd_name o = true <->
  exists s kw pre post,
    o = Some (PStr s) /\ s <> dash /\ In kw gd_keywords /\ s = pre ++ kw ++ post.
Proof.
  split.
  - destruct o as [[| | | |s]|]; try discriminate. cbn [gd_name].
    rewrite andb_true_iff, negb_true_iff, str_eqb_neq, existsb_exists.
    intros [Hne (kw & Hin & Hc)]. apply contains_spec in Hc.
    destruct Hc as (pre & post & Hs). exists s, kw, pre, post. auto.
  - intros (s & kw & pre & post & -> & Hne & Hin & Hs). cbn [gd_name].
    rewrite andb_true_iff, negb_true_iff, str_eqb_neq, existsb_exists.
    split; [exact Hne|]. exists kw. split; [exact Hin|].
    apply contains_spec. eauto.
Qed.

Lemma region_tagged_spec d :
  region_tagged d = true <->
  exists k s kw pre post,
    (k = k_seller \/ k = k_buyer)
    /\ dict_get d k = Some (PStr s) /\ s <> dash
    /\ In kw gd_keywords /\ s = pre ++ kw ++ post.
Proof.
  unfold region_tagged. rewrite orb_true_iff, !gd_name_spec. split.
  - intros [(s & kw & pre & post & H & Hr) | (s & kw & pre & post & H & Hr)].
    + exists k_seller, s, kw, pre, post. auto.
    + exists k_buyer, s, kw, pre, post. auto.
  - intros (k & s & kw & pre & post & [-> | ->] & H & Hr).
    + left. exists s, kw, pre, post. auto.
    + right. exists s, kw, pre, post. auto.
Qed.

Lemma related_keys_differ : k_related <> k_related_sep.
Proof. vm_compute. discriminate. Qed.

Lemma tag_of_lookup d v :
  dict_get d k_related_sep = Some v ->
  dict_get (tag_of d) k_related = Some v
  /\ dict_get (tag_of d) k_related_sep = Some v
  /\ forall k, k <> k_related -> dict_get (tag_of d) k = dict_get d k.
Proof.
  intros H. unfold tag_of. rewrite H. split; [apply dict_get_set_eq|]. split.
  - rewrite dict_get_set_ne by exact related_keys_differ. exact H.
  - intros k Hk. apply dict_get_set_ne. congruence.
Qed.

Lemma rows_of_related_sep kept : forall serial ds,
  rows_of serial kept = Ok ds ->
  Forall (fun d => exists v, dict_get d k_related_sep = Some v) ds.
Proof.
  induction kept as [|it kept IH]; intros serial ds H.
  - simpl in H. injection H as <-. constructor.
  - cbn [rows_of] in H.
    destruct (row_of serial it) as [d0|] eqn:H0; cbn [bindR] in H; [|discriminate].
    destruct (rows_of (serial + 1) kept) as [ds0|] eqn:H1; cbn [bindR] in H; [|discriminate].
    injection H as <-. constructor; [|eapply IH; exact H1].
    eapply row_of_related_sep; exact H0.
Qed.

(** The tagged entries added by a run of [process]. *)
Lemma process_tagged raw st rows st' :
  today st <> [] ->
  process raw st = (Ok rows, st') ->
  today st' = today st
  /\ exists tagged,
       Store.guangdong_cases st' = Store.guangdong_cases st ++ tagged
       /\ map (deref (heap st')) tagged
          = map tag_of
              (List.filter region_tagged (map (deref (heap st')) rows))
       /\ Forall (fun d => exists v, dict_get d k_related_sep = Some v)
            (map (deref (heap st')) rows).
Proof.
  intros Ht H.
  destruct (process_ok _ _ _ _ Ht H) as (ds & ext & tagged & Hds & Hlay & ->).
  split; [reflexivity|]. exists tagged. cbn [heap Store.guangdong_cases].
  rewrite (layout_rows _ _ (heap st) _ _ _ Hlay eq_refl).
  split; [reflexivity|]. split.
  - exact (layout_tagged _ _ (heap st) _ _ _ Hlay eq_refl).
  - eapply rows_of_related_sep; exact Hds.
Qed.

(** C5.  Whenever [process] returns, the entries it adds to
    [self.guangdong_cases] are, in order, the tagged copies of exactly those
    returned rows for which the seller or the buyer is a string other than
    "-" that contains one of the keywords as a substring; the reference
    field [相关] of each entry equals its [相关_带分隔符]. *)
Theorem C5_region_tagging raw st rows st' :
  today st <> [] ->
  process raw st = (Ok rows, st') ->
  (exists tagged,
     Store.guangdong_cases st' = Store.guangdong_cases st ++ tagged
     /\ map (deref (heap st')) tagged
        = map tag_of (List.filter region_tagged (map (deref (heap st')) rows))
     /\ Forall (fun c =>
                  exists v,
                    dict_get (deref (heap st') c) k_related = Some v
                    /\ dict_get (deref (heap st') c) k_related_sep = Some v)
          tagged)
  /\ (forall d,
        region_tagged d = true <->
        exists k s kw pre post,
          (k = k_seller \/ k = k_buyer)
          /\ dict_get d k = Some (PStr s) /\ s <> dash
          /\ In kw gd_keywords /\ s = pre ++ kw ++ post).
Proof.
  intros Ht H. split; [|apply region_tagged_spec].
  destruct (process_tagged _ _ _ _ Ht H) as (_ & tagged & Hcases & Hmap & Hsep).
  exists tagged. split; [exact Hcases | split; [exact Hmap|]].
  apply List.Forall_forall. intros c Hc.
  assert (Hin : In (deref (heap st') c) (map (deref (heap st')) tagged))
    by (apply in_map; exact Hc).
  rewrite Hmap in Hin. apply in_map_iff in Hin.
  destruct Hin as (d & Hd & Hdin). apply filter_In in Hdin.
  destruct Hdin as [Hdin _].
  rewrite List.Forall_forall in Hsep. destruct (Hsep d Hdin) as [v Hv].
  exists v. rewrite <- Hd.
  destruct (tag_of_lookup d v Hv) as (H1 & H2 & _). auto.
Qed.

Lemma C5_witness :
  exists tagged,
    Store.guangdong_cases (snd (process feed st0))
    = Store.guangdong_cases st0 ++ tagged
    /\ map (deref (heap (snd (process feed st0)))) tagged
       = map tag_of
           (List.filter region_tagged
              (map (deref (heap (snd (process feed st0)))) [0; 2]%nat))
    /\ Forall (fun c =>
                 exists v,
                   dict_get (deref (heap (snd (process feed st0))) c) k_related
                   = Some v
                   /\ dict_get (deref (heap (snd (process feed st0))) c)
                        k_related_sep = Some v)
         tagged.
Proof.
  exact (proj1 (C5_region_tagging feed st0 [0; 2]%nat (snd (process feed st0))
                  ltac:(vm_compute; discriminate)
                  ltac:(vm_compute; reflexivity))).
Defined.

Lemma null_date_lookup : r_null_date !! lit "SCGGRQ" = Some PNone.
Proof. vm_compute. reflexivity. Qed.

Lemma getslice_none :
  getslice 10 PNone
  = Raise (mkExn TypeError (lit "'NoneType' object is not subscriptable")).
Proof. vm_compute. reflexivity. Qed.

(** C6 fails on the code.  A record whose disclosure date is null makes
    [process] raise [TypeError] at line 79, for any processor state, and
    leaves the state as it was; [main] then reports the run as failed.  A
    numeric announcement date on a retained record does the same at
    line 115. *)
Theorem C6_null_disclosure_date_raises st :
  process [r_null_date] st
  = (Raise (mkExn TypeError (lit "'NoneType' object is not subscriptable")), st)
  /\ Report.main (world [r_null_date])
     = (Some [],
        [Report.EvStatus Report.failed_status
           (lit "任务执行出错: 'NoneType' object is not subscriptable")])
  /\ fst (process [r_numeric_date] st0)
     = Raise (mkExn TypeError (lit "'int' object is not subscriptable")).
Proof.
  split; [|split].
  - unfold process, process_loop, bind, lift. rewrite null_date_lookup.
    cbn [default from_option id]. rewrite getslice_none. reflexivity.
  - vm_compute. reflexivity.
  - vm_compute. reflexivity.
Qed.

Lemma analyze_state data st : snd (Analysis.analyze data st) = st.
Proof.
  destruct data as [|l r]; [reflexivity|].
  unfold Analysis.analyze, bind, Analysis.read_rows, lift, Analysis.get_cases, ret.
  destruct (Analysis.column _ _); reflexivity.
Qed.

(** C7.  With no row for the target date: [analyze] returns the fixed
    "no data" value whatever the processor state, without reading it;
    the generator produces no artifact and performs no effect; and [main]
    ends with one success notification, writing and delivering nothing. *)
Theorem C7_empty_input (w : Report.env) :
  (forall st, Analysis.analyze [] st = (Ok Analysis.no_data, st))
  /\ Analysis.no_data
     = Analysis.mkAnalysis (lit "今日无并购重组数据公告")
         (lit "今日无并购重组数据公告") [] [] 0 0 []
  /\ (forall date_str,
        Report.generate_html w [] date_str = (None, [])
        /\ Report.generate w [] date_str = ([], []))
  /\ (fst (process (Report.fetch w) (mkState [] (Report.now_date w) [])) = Ok [] ->
      exists msg,
        Report.main w = (None, [Report.EvStatus Report.ok_status msg])).
Proof.
  split; [reflexivity|]. split; [reflexivity|]. split; [intros; split; reflexivity|].
  intros H. unfold Report.main. destruct (Report.fetch w) as [|it rest].
  - eauto.
  - destruct (process (it :: rest) _) as [[rows|e] st']; cbn [fst] in H.
    + injection H as ->. eauto.
    + discriminate.
Qed.

Lemma C7_witness :
  exists msg,
    Report.main (world [r_old]) = (None, [Report.EvStatus Report.ok_status msg]).
Proof.
  exact (proj2 (proj2 (proj2 (C7_empty_input (world [r_old]))))
           ltac:(vm_compute; reflexivity)).
Defined.

(** C8.  Classifying an allocated row changes no object that exists: every
    address allocated before holds the same dictionary afterwards, the row
    included, whether the check matches, fails to match or raises.  When
    the row is tagged, the entry appended to [self.guangdong_cases] is a new
    object, a copy of the row in which only [相关] differs: it holds the
    row's [相关_带分隔符]. *)
Theorem C8_classification_leaves_rows_untouched row st r st' :
  (row < length (heap st))%nat ->
  classify row st = (r, st') ->
  (forall l, (l < length (heap st))%nat -> heap st' !! l = heap st !! l)
  /\ deref (heap st') row = deref (heap st) row
  /\ today st' = today st
  /\ (region_check (deref (heap st) row) = Ok true -> r = Ok tt ->
      exists c,
        c <> row
        /\ heap st !! c = None
        /\ Store.guangdong_cases st' = Store.guangdong_cases st ++ [c]
        /\ deref (heap st') c = tag_of (deref (heap st) row)
        /\ dict_get (deref (heap st') c) k_related
           = dict_get (deref (heap st) row) k_related_sep
        /\ forall k, k <> k_related ->
             dict_get (deref (heap st') c) k = dict_get (deref (heap st) row) k)
  /\ (region_check (deref (heap st) row) <> Ok true -> st' = st).
Proof.
  intros Hrow H. rewrite classify_run in H. cbv zeta in H.
  set (d := deref (heap st) row) in *.
  destruct (region_check d) as [[|]|e] eqn:Hreg.
  - unfold dict_getitem in H.
    destruct (dict_get d k_related_sep) as [v|] eqn:Hv; injection H as <- <-;
      cbn [heap today Store.guangdong_cases].
    + assert (Hframe : forall l, (l < length (heap st))%nat ->
                (heap st ++ [dict_set k_related v d]) !! l = heap st !! l)
        by (intros l Hl; now apply lookup_app_l).
      split; [exact Hframe|]. split; [now apply deref_app_l|].
      split; [reflexivity|]. split; [|intros Hc; now contradiction Hc].
      intros _ _. exists (length (heap st)).
      destruct (tag_of_lookup d v Hv) as (H1 & H2 & H3).
      assert (Htag : tag_of d = dict_set k_related v d)
        by (unfold tag_of; now rewrite Hv).
      rewrite deref_last. rewrite <- Htag.
      split; [lia|]. split; [apply lookup_ge_None; lia|].
      split; [reflexivity|]. split; [reflexivity|]. split; [now rewrite H1|].
      exact H3.
    + split; [intros l Hl; now apply lookup_app_l|].
      split; [now apply deref_app_l|]. split; [reflexivity|].
      split; [intros _ Hr; discriminate | intros Hc; now contradiction Hc].
  - injection H as <- <-.
    split; [reflexivity|]. split; [reflexivity|]. split; [reflexivity|].
    split; [discriminate | reflexivity].
  - injection H as <- <-.
    split; [reflexivity|]. split; [reflexivity|]. split; [reflexivity|].
    split; [discriminate | reflexivity].
Qed.

Lemma C8_witness :
  deref (heap (snd (classify 0%nat (snd (process [r_gd] st0))))) 0%nat
  = deref (heap (snd (process [r_gd] st0))) 0%nat.
Proof.
  exact (proj1 (proj2
           (C8_classification_leaves_rows_untouched 0%nat
              (snd (process [r_gd] st0))
              (fst (classify 0%nat (snd (process [r_gd] st0))))
              (snd (classify 0%nat (snd (process [r_gd] st0))))
              ltac:(vm_compute; lia) ltac:(vm_compute; reflexivity)))).
Defined.

(** C9.  [analyze] leaves the state it runs in unchanged, so running it
    twice in a row on the same rows gives the same outcome twice: the same
    analysis (hence the same [total_count], [guangdong_count] and
    [method_distribution]) or the same exception. *)
Theorem C9_analyze_is_repeatable data st :
  snd (Analysis.analyze data st) = st
  /\ (a1 <- Analysis.analyze data ;;
      a2 <- Analysis.analyze data ;;
      ret (a1, a2)) st
     = match fst (Analysis.analyze data st) with
       | Ok a => (Ok (a, a), st)
       | Raise e => (Raise e, st)
       end.
Proof.
  split; [apply analyze_state|].
  unfold bind at 1.
  pose proof (analyze_state data st) as Hst.
  destruct (Analysis.analyze data st) as [[a|e] st1] eqn:H1; cbn [snd fst] in *;
    subst st1; [|reflexivity].
  unfold bind. rewrite H1. reflexivity.
Qed.

Lemma analyze_cases data st a st1 :
  data <> [] ->
  Analysis.analyze data st = (Ok a, st1) ->
  Analysis.guangdong_cases a = Store.guangdong_cases st
  /\ Analysis.guangdong_count a = Z.of_nat (length (Store.guangdong_cases st))
  /\ Analysis.total_count a = Z.of_nat (length data).
Proof.
  intros Hne H. destruct data as [|l r]; [contradiction|].
  unfold Analysis.analyze, bind, Analysis.read_rows, lift, Analysis.get_cases, ret in H.
  destruct (Analysis.column _ _); [|discriminate].
  injection H as <- _. cbn. rewrite length_map. auto.
Qed.

(** C10.  On one processor, [analyze] reports the tagged entries held by the
    processor, whatever non-empty list of rows it is given: two calls in the
    same state return the same [guangdong_cases] and [guangdong_count],
    those of [self.guangdong_cases].  Each returning run of [process]
    appends its tagged entries to that list, so a second run on the same
    processor adds to the entries of the first. *)
Theorem C10_tagged_rows_belong_to_the_processor :
  (forall st data1 data2 a1 a2 st1 st2,
     data1 <> [] -> data2 <> [] ->
     Analysis.analyze data1 st = (Ok a1, st1) ->
     Analysis.analyze data2 st = (Ok a2, st2) ->
     Analysis.guangdong_cases a1 = Store.guangdong_cases st
     /\ Analysis.guangdong_cases a2 = Store.guangdong_cases st
     /\ Analysis.guangdong_count a1 = Z.of_nat (length (Store.guangdong_cases st))
     /\ Analysis.guangdong_count a2 = Analysis.guangdong_count a1)
  /\ (forall st raw1 raw2 rows1 rows2 st1 st2,
        today st <> [] ->
        process raw1 st = (Ok rows1, st1) ->
        process raw2 st1 = (Ok rows2, st2) ->
        exists tagged1 tagged2,
          Store.guangdong_cases st1 = Store.guangdong_cases st ++ tagged1
          /\ Store.guangdong_cases st2
             = Store.guangdong_cases st ++ tagged1 ++ tagged2
          /\ length tagged1
             = length (List.filter region_tagged (map (deref (heap st1)) rows1))
          /\ length tagged2
             = length (List.filter region_tagged (map (deref (heap st2)) rows2))).
Proof.
  split.
  - intros st data1 data2 a1 a2 st1 st2 Hn1 Hn2 H1 H2.
    destruct (analyze_cases _ _ _ _ Hn1 H1) as (Hc1 & Hk1 & _).
    destruct (analyze_cases _ _ _ _ Hn2 H2) as (Hc2 & Hk2 & _).
    rewrite Hk2, Hk1. auto.
  - intros st raw1 raw2 rows1 rows2 st1 st2 Ht H1 H2.
    destruct (process_tagged _ _ _ _ Ht H1) as (Ht1 & t1 & Hc1 & Hm1 & _).
    assert (Ht' : today st1 <> []) by now rewrite Ht1.
    destruct (process_tagged _ _ _ _ Ht' H2) as (_ & t2 & Hc2 & Hm2 & _).
    exists t1, t2. split; [exact Hc1|]. split.
    + rewrite Hc2, Hc1. now rewrite app_assoc.
    + split.
      * apply (f_equal (@length dict)) in Hm1. now rewrite !length_map in Hm1.
      * apply (f_equal (@length dict)) in Hm2. now rewrite !length_map in Hm2.
Qed.

Lemma C10_witness :
  Analysis.guangdong_count
    (match fst (Analysis.analyze [5%nat]
                  (snd (process feed (snd (process feed st0))))) with
     | Ok a => a
     | Raise _ => Analysis.no_data
     end)
  = 2.
Proof.
  pose proof (proj1 C10_tagged_rows_belong_to_the_processor
                (snd (process feed (snd (process feed st0))))
                [5%nat] [3%nat; 5%nat]
                (match fst (Analysis.analyze [5%nat]
                              (snd (process feed (snd (process feed st0))))) with
                 | Ok a => a
                 | Raise _ => Analysis.no_data
                 end)
                (match fst (Analysis.analyze [3%nat; 5%nat]
                              (snd (process feed (snd (process feed st0))))) with
                 | Ok a => a
                 | Raise _ => Analysis.no_data
                 end)
                (snd (process feed (snd (process feed st0))))
                (snd (process feed (snd (process feed st0))))
                ltac:(discriminate) ltac:(discriminate)
                ltac:(vm_compute; reflexivity) ltac:(vm_compute; reflexivity))
    as (_ & _ & H & _).
  rewrite H. vm_compute. reflexivity.
Defined.

(* ===================================================================== *)
(** ** Further properties of the code                                     *)
(* ===================================================================== *)

Lemma is_guangdong_company_non_text v :
  is_text v = false ->
  exists e, is_guangdong_company v = Raise e /\ kind e = TypeError.
Proof.
  destruct v; try discriminate; intros _; unfold is_guangdong_company;
    cbn [eq_str]; cbn [gd_keywords map any_keyword py_in bindR]; eauto.
Qed.

(** X1.  [is_guangdong_company] returns exactly on strings: for a string it
    answers whether the name is not "-" and contains a keyword, and "-"
    itself is never a match; for [None], a boolean or a number it raises
    [TypeError] (from [kw in company_name]). *)
Theorem X1_is_guangdong_company_outcomes (v : pyval) :
  (forall s, v = PStr s ->
     is_guangdong_company v
     = Ok (negb (str_eqb s dash) && existsb (fun kw => contains kw s) gd_keywords))
  /\ is_guangdong_company (PStr dash) = Ok false
  /\ (is_text v = false ->
      exists e, is_guangdong_company v = Raise e /\ kind e = TypeError)
  /\ ((exists b, is_guangdong_company v = Ok b) <-> is_text v = true).
Proof.
  split; [intros s ->; apply is_guangdong_company_str|].
  split; [reflexivity|].
  split; [apply is_guangdong_company_non_text|].
  split.
  - intros [b Hb]. destruct (is_guangdong_company_ok _ _ Hb) as [s ->]. reflexivity.
  - destruct v; try discriminate. intros _.
    rewrite is_guangdong_company_str. eauto.
Qed.

Lemma X1_witness :
  exists e, is_guangdong_company (PInt 7) = Raise e /\ kind e = TypeError.
Proof.
  exact (proj1 (proj2 (proj2 (X1_is_guangdong_company_outcomes (PInt 7))))
           ltac:(reflexivity)).
Defined.

Lemma date_cell_returns v :
  (exists d, date_cell v = Ok d) <-> is_text v = true.
Proof.
  unfold date_cell. split.
  - intros [d H]. unfold ne_str in H.
    destruct v; try reflexivity; cbn [eq_str negb getslice] in H; discriminate.
  - destruct v; try discriminate. intros _.
    destruct (ne_str _ _); cbn [getslice]; eauto.
Qed.

Lemma row_of_returns serial it :
  (exists d, row_of serial it = Ok d)
  <-> is_text (field_of it (lit "ANNOUNDATE")) = true.
Proof.
  rewrite <- date_cell_returns. unfold row_of. split.
  - intros [d H]. destruct (date_cell _) as [v|]; [eauto | discriminate].
  - intros [v ->]. cbn [bindR]. eauto.
Qed.

Lemma region_check_row serial it d :
  row_of serial it = Ok d ->
  region_check d
  = (s <-? is_guangdong_company (field_of it (lit "G_GOMNAME")) ;;
     if s : bool then Ok true
     else is_guangdong_company (field_of it (lit "S_COMNAME"))).
Proof.
  intros H. destruct (row_of_inv _ _ _ H) as (date & _ & ->).
  unfold region_check. run_dict. reflexivity.
Qed.

Lemma region_check_returns serial it d :
  row_of serial it = Ok d ->
  (exists b, region_check d = Ok b)
  <-> is_text (field_of it (lit "G_GOMNAME"))
      && (gd_name (Some (field_of it (lit "G_GOMNAME")))
          || is_text (field_of it (lit "S_COMNAME"))) = true.
Proof.
  intros H. rewrite (region_check_row _ _ _ H).
  destruct (is_text (field_of it (lit "G_GOMNAME"))) eqn:Es.
  - destruct (field_of it (lit "G_GOMNAME")) as [| | | |s]; try discriminate.
    rewrite is_guangdong_company_str. cbn [bindR andb].
    destruct (gd_name (Some (PStr s))); cbn [orb]; [split; eauto|].
    destruct (is_text (field_of it (lit "S_COMNAME"))) eqn:Et.
    + destruct (field_of it (lit "S_COMNAME")) as [| | | |t]; try discriminate.
      rewrite is_guangdong_company_str. split; eauto.
    + destruct (is_guangdong_company_non_text _ Et) as (e & -> & _).
      split; [intros [b Hb]; discriminate | discriminate].
  - destruct (is_guangdong_company_non_text _ Es) as (e & -> & _).
    cbn [bindR andb]. split; [intros [b Hb]; discriminate | discriminate].
Qed.

Lemma process_loop_returns raw : forall serial acc st,
  (exists rows st', process_loop raw serial acc st = (Ok rows, st'))
  <-> forallb (item_ok (today st)) raw = true.
Proof.
  induction raw as [|it rest IH]; intros serial acc st.
  - simpl. split; eauto.
  - cbn [forallb process_loop]. unfold bind at 1. unfold lift, item_ok.
    destruct (default (PStr []) (it !! lit "SCGGRQ")) as [| | | |s];
      cbn [getslice];
      try (split; [intros (rows & st' & H); discriminate | discriminate]).
    unfold bind at 1. unfold get_today. unfold ne_str, eq_str.
    destruct (str_eqb (slice_to 10 s) (today st)); cbn [negb andb];
      [|apply IH].
    rewrite build_run.
    destruct (row_of serial it) as [d|e] eqn:Hrow.
    + assert (Hdate : is_text (field_of it (lit "ANNOUNDATE")) = true)
        by (apply (row_of_returns serial); eauto).
      rewrite Hdate. cbn [andb].
      unfold bind at 1. rewrite classify_run.
      cbn [heap today Store.guangdong_cases]. rewrite deref_last. cbv zeta.
      pose proof (region_check_returns _ _ _ Hrow) as Hreg.
      destruct (row_of_related_sep _ _ _ Hrow) as [v Hv].
      unfold dict_getitem. rewrite Hv.
      destruct (region_check d) as [b|e] eqn:Hb.
      * assert (Hok : is_text (field_of it (lit "G_GOMNAME"))
                      && (gd_name (Some (field_of it (lit "G_GOMNAME")))
                          || is_text (field_of it (lit "S_COMNAME"))) = true)
          by (apply Hreg; eauto).
        rewrite Hok. cbn [andb].
        destruct b; apply IH.
      * assert (Hbad : is_text (field_of it (lit "G_GOMNAME"))
                       && (gd_name (Some (field_of it (lit "G_GOMNAME")))
                           || is_text (field_of it (lit "S_COMNAME"))) = false).
        { apply not_true_is_false. intros E.
          apply Hreg in E. destruct E as [b E]. discriminate. }
        rewrite Hbad. cbn [andb].
        split; [intros (rows & st' & H); discriminate | discriminate].
    + assert (Hdate : is_text (field_of it (lit "ANNOUNDATE")) = false).
      { apply not_true_is_false. intros E.
        apply (row_of_returns serial) in E. destruct E as [d E]. congruence. }
      rewrite Hdate. cbn [andb].
      split; [intros (rows & st' & H); discriminate | discriminate].
Qed.

(** X2.  [process] returns (rather than raising) exactly when every record
    of the feed passes [item_ok]: the disclosure date absent or a string
    and, on the retained records, a sliceable announcement date and
    searchable counterparty names. *)
Theorem X2_process_returns_iff raw st :
  (exists rows st', process raw st = (Ok rows, st'))
  <-> forallb (item_ok (today st)) raw = true.
Proof.
  destruct raw as [|it rest]; [simpl; split; eauto|].
  unfold process. apply process_loop_returns.
Qed.

Lemma py_eq_text w s : py_eq w (PStr s) = true <-> w = PStr s.
Proof.
  destruct w as [|b|n|x|t]; [| destruct b | | destruct x as [|neg|neg m e] |];
    cbn [py_eq numeric]; try (split; discriminate).
  rewrite str_eqb_eq. split; [now intros -> | now intros [= ->]].
Qed.

Lemma py_eq_from_text s v : py_eq (PStr s) v = true <-> v = PStr s.
Proof.
  destruct v as [|b|n|x|t]; [| destruct b | | destruct x as [|neg|neg m e] |];
    cbn [py_eq numeric]; try (split; discriminate).
  rewrite str_eqb_eq. split; [now intros -> | now intros [= ->]].
Qed.

Lemma dist_get_count_add_same s acc :
  dist_get (Analysis.count_add (PStr s) acc) (PStr s)
  = Some (match dist_get acc (PStr s) with Some c => c + 1 | None => 1 end).
Proof.
  induction acc as [|[w c] r IH]; cbn [Analysis.count_add dist_get].
  - assert (H : py_eq (PStr s) (PStr s) = true) by now apply py_eq_text.
    now rewrite H.
  - destruct (py_eq w (PStr s)) eqn:E; cbn [dist_get]; rewrite E; [reflexivity | exact IH].
Qed.

Lemma dist_get_count_add_other v s acc :
  v <> PStr s ->
  dist_get (Analysis.count_add v acc) (PStr s) = dist_get acc (PStr s).
Proof.
  intros Hne. induction acc as [|[w c] r IH]; cbn [Analysis.count_add dist_get].
  - destruct (py_eq v (PStr s)) eqn:E; [apply py_eq_text in E; contradiction | reflexivity].
  - destruct (py_eq w v) eqn:Ewv; cbn [dist_get].
    + destruct (py_eq w (PStr s)) eqn:E; [|reflexivity].
      apply py_eq_text in E. subst w. apply py_eq_from_text in Ewv. contradiction.
    + now rewrite IH.
Qed.

Lemma value_counts_label_acc s cells : forall acc,
  dist_get
    (fold_left
       (fun acc cell =>
          match cell with
          | Some v => if Analysis.is_na v then acc else Analysis.count_add v acc
          | None => acc
          end)
       cells acc)
    (PStr s)
  = match dist_get acc (PStr s) with
    | Some c => Some (c + count_label s cells)
    | None =>
        if count_label s cells =? 0 then None else Some (count_label s cells)
    end.
Proof.
  unfold count_label.
  induction cells as [|cell cells IH]; intros acc.
  - cbn. destruct (dist_get acc (PStr s)); [f_equal; lia | reflexivity].
  - destruct cell as [[|b|k|x|t]|]; cbn [fold_left List.filter]; rewrite IH;
      try (destruct (Analysis.is_na _);
           rewrite ?dist_get_count_add_other by discriminate; reflexivity);
      try reflexivity.
    cbn [Analysis.is_na].
    set (n := Z.of_nat (length (List.filter _ cells))).
    assert (Hn : 0 <= n) by (unfold n; lia).
    destruct (str_eqb t s) eqn:E.
    + apply str_eqb_eq in E. subst t. rewrite dist_get_count_add_same.
      cbn [length]. rewrite Nat2Z.inj_succ. fold n.
      destruct (dist_get acc (PStr s)) as [c|]; [f_equal; lia|].
      destruct (Z.succ n =? 0) eqn:E0; [apply Z.eqb_eq in E0; lia|].
      f_equal. lia.
    + apply str_eqb_neq in E.
      rewrite dist_get_count_add_other by congruence. reflexivity.
Qed.

(** X3.  In the distribution returned by [analyze], the count recorded
    for a text label is the number of rows whose [并购方式] is that label,
    and a label carried by no row has no entry. *)
Theorem X3_method_distribution_counts_labels data st a st1 (s : pystr) :
  Analysis.analyze data st = (Ok a, st1) ->
  let n := count_label s
             (map (fun l => dict_get (deref (heap st) l) k_method) data) in
  dist_get (Analysis.method_distribution a) (PStr s)
  = if n =? 0 then None else Some n.
Proof.
  intros H n. destruct data as [|l r].
  - injection H as <- _. reflexivity.
  - unfold Analysis.analyze, bind, Analysis.read_rows, lift, Analysis.get_cases, ret in H.
    unfold Analysis.column in H.
    destruct (existsb _ _); [|discriminate].
    injection H as <- _. cbn [Analysis.method_distribution].
    unfold Analysis.value_counts. rewrite value_counts_label_acc.
    cbn [dist_get]. unfold n. now rewrite map_map.
Qed.

Lemma X3_witness :
  dist_get
    (Analysis.method_distribution
       (match fst (Analysis.analyze [0; 2]%nat (snd (process feed st0))) with
        | Ok a => a
        | Raise _ => Analysis.no_data
        end))
    (PStr (lit "协议转让"))
  = Some 2.
Proof.
  set (a := match fst (Analysis.analyze [0; 2]%nat (snd (process feed st0))) with
            | Ok a => a
            | Raise _ => Analysis.no_data
            end).
  rewrite (X3_method_distribution_counts_labels [0; 2]%nat
             (snd (process feed st0)) a (snd (process feed st0))
             (lit "协议转让") ltac:(vm_compute; reflexivity)).
  vm_compute. reflexivity.
Defined.

Lemma process_rows_have_method raw st rows st' :
  today st <> [] ->
  process raw st = (Ok rows, st') ->
  Forall (fun l => exists v, dict_get (deref (heap st') l) k_method = Some v) rows.
Proof.
  intros Ht H. destruct (process_row _ _ _ _ Ht H) as [Hlen Hrow].
  apply List.Forall_forall. intros l Hl.
  apply list_elem_of_In, list_elem_of_lookup in Hl. destruct Hl as [i Hi].
  assert (Hk : (i < length (List.filter (retained (today st)) raw))%nat).
  { rewrite <- Hlen. apply lookup_lt_is_Some. eauto. }
  destruct (lookup_lt_is_Some_2 _ _ Hk) as [it Hit].
  specialize (Hrow i it l Hit Hi).
  destruct (row_of_inv _ _ _ Hrow) as (date & _ & ->).
  run_dict. eauto.
Qed.

Lemma analyze_on_processed_rows raw st rows st' :
  today st <> [] ->
  process raw st = (Ok rows, st') ->
  rows <> [] ->
  exists a,
    Analysis.analyze rows st' = (Ok a, st')
    /\ Analysis.total_count a = Z.of_nat (length rows)
    /\ Analysis.overview a
       = lit "今日共获取" ++ str_of_int (Z.of_nat (length rows))
           ++ lit "条并购重组数据"
    /\ Analysis.basic_overview a = Analysis.overview a
    /\ Analysis.cases a = []
    /\ Analysis.guangdong_cases a = Store.guangdong_cases st'
    /\ Analysis.guangdong_count a
       = Z.of_nat (length (Store.guangdong_cases st')).
Proof.
  intros Ht H Hne.
  pose proof (process_rows_have_method _ _ _ _ Ht H) as Hm.
  destruct rows as [|l r]; [contradiction|].
  apply Forall_inv in Hm. destruct Hm as [v Hv].
  unfold Analysis.analyze, bind, Analysis.read_rows, lift, Analysis.get_cases, ret.
  unfold Analysis.column. cbn [map existsb]. rewrite Hv.
  cbn [bool_decide orb]. 
  assert (Hdec : bool_decide (is_Some (Some v)) = true)
    by (apply bool_decide_eq_true; eauto).
  rewrite Hdec. cbn [orb].
  eexists. split; [reflexivity|].
  cbn [Analysis.total_count Analysis.overview Analysis.basic_overview
       Analysis.cases Analysis.guangdong_cases Analysis.guangdong_count length].
  rewrite length_map. repeat (split; [reflexivity|]). reflexivity.
Qed.

(** X4.  [analyze] never raises on the rows a run of [process] returned
    (the [并购方式] column is always there) and leaves the processor as it
    is: for a non-empty result, [total_count] is the number of rows, both
    overview texts spell it, [cases] is empty, and the tagged entries and
    their count are those held by the processor. *)
Theorem X4_analyze_after_process raw st rows st' :
  today st <> [] ->
  process raw st = (Ok rows, st') ->
  rows <> [] ->
  exists a,
    Analysis.analyze rows st' = (Ok a, st')
    /\ Analysis.total_count a = Z.of_nat (length rows)
    /\ Analysis.overview a
       = lit "今日共获取" ++ str_of_int (Z.of_nat (length rows))
           ++ lit "条并购重组数据"
    /\ Analysis.basic_overview a = Analysis.overview a
    /\ Analysis.cases a = []
    /\ Analysis.guangdong_cases a = Store.guangdong_cases st'
    /\ Analysis.guangdong_count a
       = Z.of_nat (length (Store.guangdong_cases st')).
Proof.
  intros Ht H Hne.
  pose proof (process_rows_have_method _ _ _ _ Ht H) as Hm.
  destruct rows as [|l r]; [contradiction|].
  apply Forall_inv in Hm. destruct Hm as [v Hv].
  unfold Analysis.analyze, bind, Analysis.read_rows, lift, Analysis.get_cases, ret.
  unfold Analysis.column. cbn [map existsb]. rewrite Hv.
  cbn [bool_decide orb]. 
  assert (Hdec : bool_decide (is_Some (Some v)) = true)
    by (apply bool_decide_eq_true; eauto).
  rewrite Hdec. cbn [orb].
  eexists. split; [reflexivity|].
  cbn [Analysis.total_count Analysis.overview Analysis.basic_overview
       Analysis.cases Analysis.guangdong_cases Analysis.guangdong_count length].
  rewrite length_map. repeat (split; [reflexivity|]). reflexivity.
Qed.

Lemma X4_witness :
  exists a,
    Analysis.analyze [0; 2]%nat (snd (process feed st0))
    = (Ok a, snd (process feed st0))
    /\ Analysis.total_count a = 2.
Proof.
  destruct (X4_analyze_after_process feed st0 [0; 2]%nat (snd (process feed st0))
              ltac:(vm_compute; discriminate) ltac:(vm_compute; reflexivity)
              ltac:(discriminate))
    as (a & Ha & Ht & _).
  exists a. split; [exact Ha | exact Ht].
Defined.

(** X5.  On a list of rows none of which has the [并购方式] key, [analyze]
    raises [KeyError] (the column lookup on the frame) and leaves the
    processor unchanged. *)
Theorem X5_analyze_without_method_column data st :
  data <> [] ->
  Forall (fun l => dict_get (deref (heap st) l) k_method = None) data ->
  exists e, Analysis.analyze data st = (Raise e, st) /\ kind e = KeyError.
Proof.
  intros Hne Hall. destruct data as [|l r]; [contradiction|].
  unfold Analysis.analyze, bind, Analysis.read_rows, lift.
  unfold Analysis.column.
  assert (Hex : existsb (fun d => bool_decide (is_Some (dict_get d k_method)))
                  (map (deref (heap st)) (l :: r)) = false).
  { apply not_true_is_false. intros E. apply existsb_exists in E.
    destruct E as (d & Hd & Hs). apply in_map_iff in Hd.
    destruct Hd as (l0 & <- & Hl0).
    rewrite List.Forall_forall in Hall. rewrite (Hall l0 Hl0) in Hs.
    apply bool_decide_eq_true in Hs. destruct Hs as [x Hx]. discriminate. }
  rewrite Hex. eexists. split; reflexivity.
Qed.

Lemma X5_witness :
  exists e,
    Analysis.analyze [0%nat] (mkState [[(k_serial, PInt 1)]] target [])
    = (Raise e, mkState [[(k_serial, PInt 1)]] target [])
    /\ kind e = KeyError.
Proof.
  apply X5_analyze_without_method_column; [discriminate|].
  constructor; [vm_compute; reflexivity | constructor].
Defined.

(** X6.  On a processor that has tagged nothing yet (as in [main]), after a
    run of [process] that returns rows the analysis counts exactly the
    region-tagged rows of that run, and never more than [total_count]. *)
Theorem X6_fresh_processor_counts_tagged_rows raw st rows st' :
  today st <> [] ->
  Store.guangdong_cases st = [] ->
  process raw st = (Ok rows, st') ->
  rows <> [] ->
  exists a,
    Analysis.analyze rows st' = (Ok a, st')
    /\ Analysis.guangdong_count a
       = Z.of_nat
           (length (List.filter region_tagged (map (deref (heap st')) rows)))
    /\ Analysis.guangdong_count a <= Analysis.total_count a.
Proof.
  intros Ht Hfresh H Hne.
  destruct (analyze_on_processed_rows _ _ _ _ Ht H Hne)
    as (a & Ha & Htot & _ & _ & _ & _ & Hcount).
  destruct (process_tagged _ _ _ _ Ht H) as (_ & tagged & Hc & Hm & _).
  exists a. split; [exact Ha|].
  rewrite Hcount, Hc, Hfresh, app_nil_l.
  apply (f_equal (@length dict)) in Hm. rewrite !length_map in Hm.
  rewrite Hm. split; [reflexivity|]. rewrite Htot.
  apply inj_le. etransitivity; [apply filter_length_le|]. now rewrite length_map.
Qed.

Lemma X6_witness :
  exists a,
    Analysis.analyze [0; 2]%nat (snd (process feed st0))
    = (Ok a, snd (process feed st0))
    /\ Analysis.guangdong_count a
       = Z.of_nat
           (length
              (List.filter region_tagged
                 (map (deref (heap (snd (process feed st0)))) [0; 2]%nat)))
    /\ Analysis.guangdong_count a <= Analysis.total_count a.
Proof.
  exact (X6_fresh_processor_counts_tagged_rows feed st0 [0; 2]%nat
           (snd (process feed st0))
           ltac:(vm_compute; discriminate) ltac:(reflexivity)
           ltac:(vm_compute; reflexivity) ltac:(discriminate)).
Defined.

Lemma layout_distinct ds : forall n ext rows tagged,
  layout n ds = (ext, rows, tagged) ->
  NoDup rows /\ NoDup tagged /\ (forall l, In l rows -> ~ In l tagged)
  /\ length ext = (length rows + length tagged)%nat.
Proof.
  induction ds as [|d ds IH]; intros n ext rows tagged H.
  - simpl in H. injection H as <- <- <-.
    repeat split; try constructor. intros l [].
  - simpl in H. destruct (region_tagged d).
    + destruct (layout (S (S n)) ds) as [[ext' rows'] tagged'] eqn:E.
      injection H as <- <- <-.
      pose proof (layout_fresh _ _ _ _ _ E) as Hf.
      rewrite List.Forall_forall in Hf.
      destruct (IH _ _ _ _ E) as (Hr & Ht & Hd & Hl).
      assert (Hge : forall l, In l (rows' ++ tagged') -> (S (S n) <= l)%nat)
        by (intros l Hl'; specialize (Hf l Hl'); cbn in Hf; lia).
      split; [|split; [|split]].
      * constructor; [|exact Hr].
        intros Hin. apply list_elem_of_In in Hin. specialize (Hge n (in_or_app _ _ _ (or_introl Hin))). lia.
      * constructor; [|exact Ht].
        intros Hin. apply list_elem_of_In in Hin. specialize (Hge (S n) (in_or_app _ _ _ (or_intror Hin))). lia.
      * intros l [<- | Hl'] [Heq | Hl2].
        -- lia.
        -- specialize (Hge n (in_or_app _ _ _ (or_intror Hl2))). lia.
        -- subst l. specialize (Hge (S n) (in_or_app _ _ _ (or_introl Hl'))). lia.
        -- exact (Hd l Hl' Hl2).
      * cbn [length]. lia.
    + destruct (layout (S n) ds) as [[ext' rows'] tagged'] eqn:E.
      injection H as <- <- <-.
      pose proof (layout_fresh _ _ _ _ _ E) as Hf.
      rewrite List.Forall_forall in Hf.
      destruct (IH _ _ _ _ E) as (Hr & Ht & Hd & Hl).
      assert (Hge : forall l, In l (rows' ++ tagged') -> (S n <= l)%nat)
        by (intros l Hl'; specialize (Hf l Hl'); cbn in Hf; lia).
      split; [|split; [|split]].
      * constructor; [|exact Hr].
        intros Hin. apply list_elem_of_In in Hin. specialize (Hge n (in_or_app _ _ _ (or_introl Hin))). lia.
      * exact Ht.
      * intros l [<- | Hl'] Hl2.
        -- specialize (Hge n (in_or_app _ _ _ (or_intror Hl2))). lia.
        -- exact (Hd l Hl' Hl2).
      * cbn [length]. lia.
Qed.

(** X7.  A run of [process] that returns only adds to the store: every
    dictionary that existed before is unchanged and the target date is
    kept; the returned rows and the entries appended to
    [self.guangdong_cases] are newly allocated objects, pairwise distinct,
    and no tagged entry is one of the rows; nothing else is allocated. *)
Theorem X7_process_allocates_fresh_objects raw st rows st' :
  today st <> [] ->
  process raw st = (Ok rows, st') ->
  exists tagged,
    Store.guangdong_cases st' = Store.guangdong_cases st ++ tagged
    /\ today st' = today st
    /\ (forall l, (l < length (heap st))%nat -> heap st' !! l = heap st !! l)
    /\ Forall (fun l => (length (heap st) <= l < length (heap st'))%nat)
         (rows ++ tagged)
    /\ NoDup rows /\ NoDup tagged
    /\ (forall l, In l rows -> ~ In l tagged)
    /\ length (heap st') = (length (heap st) + length rows + length tagged)%nat.
Proof.
  intros Ht H.
  destruct (process_ok _ _ _ _ Ht H) as (ds & ext & tagged & Hds & Hlay & ->).
  exists tagged. cbn [heap today Store.guangdong_cases].
  destruct (layout_distinct _ _ _ _ _ Hlay) as (Hr & Htg & Hd & Hl).
  split; [reflexivity|]. split; [reflexivity|].
  split; [intros l Hlt; now apply lookup_app_l|].
  split.
  - pose proof (layout_fresh _ _ _ _ _ Hlay) as Hf.
    eapply Forall_impl; [exact Hf|]. cbn. intros l Hb.
    rewrite length_app. lia.
  - split; [exact Hr|]. split; [exact Htg|]. split; [exact Hd|].
    rewrite length_app. lia.
Qed.

Lemma X7_witness :
  exists tagged,
    Store.guangdong_cases (snd (process feed st0))
    = Store.guangdong_cases st0 ++ tagged
    /\ NoDup ([0; 2]%nat ++ tagged).
Proof.
  destruct (X7_process_allocates_fresh_objects feed st0 [0; 2]%nat
              (snd (process feed st0))
              ltac:(vm_compute; discriminate) ltac:(vm_compute; reflexivity))
    as (tagged & Hc & _ & _ & _ & Hr & Ht & Hd & _).
  exists tagged. split; [exact Hc|].
  apply NoDup_app. split; [exact Hr|]. split; [|exact Ht].
  intros x Hx Hx'. apply list_elem_of_In in Hx, Hx'. exact (Hd x Hx Hx').
Defined.

(** X8.  In the row of a retained record the announcement date
    [最新公告日] is the first ten characters of the coerced [ANNOUNDATE]
    value, which is a string: at most ten characters, and "-" when the
    source value is missing. *)
Theorem X8_announcement_date_is_cut_to_ten raw st rows st' (i : nat) it l :
  today st <> [] ->
  process raw st = (Ok rows, st') ->
  List.filter (retained (today st)) raw !! i = Some it ->
  rows !! i = Some l ->
  exists s,
    field_of it (lit "ANNOUNDATE") = PStr s
    /\ dict_get (deref (heap st') l) (lit "最新公告日")
       = Some (PStr (firstn 10 s))
    /\ (length (firstn 10 s) <= 10)%nat
    /\ (missing (it !! lit "ANNOUNDATE") = true -> firstn 10 s = dash).
Proof.
  intros Ht Hrun Hit Hl.
  destruct (process_row _ _ _ _ Ht Hrun) as [_ Hrow].
  specialize (Hrow i it l Hit Hl).
  destruct (row_of_inv _ _ _ Hrow) as (date & Hdate & Hd).
  assert (Htext : is_text (field_of it (lit "ANNOUNDATE")) = true)
    by (apply date_cell_returns; eauto).
  destruct (field_of it (lit "ANNOUNDATE")) as [| | | |s] eqn:Ev; try discriminate.
  exists s. split; [reflexivity|].
  assert (Hcut : date = PStr (firstn 10 s)).
  { unfold date_cell, ne_str, eq_str in Hdate.
    destruct (str_eqb s dash) eqn:E; cbn [negb getslice] in Hdate;
      injection Hdate as <-; [|reflexivity].
    apply str_eqb_eq in E. now subst s. }
  split; [rewrite Hd, Hcut; run_dict; reflexivity|].
  split; [apply firstn_le_length|].
  intros Hm. apply field_of_missing in Hm. rewrite Hm in Ev.
  injection Ev as <-. reflexivity.
Qed.

Lemma X8_witness :
  exists s,
    field_of r_gd (lit "ANNOUNDATE") = PStr s
    /\ dict_get (deref (heap (snd (process feed st0))) 0%nat) (lit "最新公告日")
       = Some (PStr (firstn 10 s)).
Proof.
  destruct (X8_announcement_date_is_cut_to_ten feed st0 [0; 2]%nat
              (snd (process feed st0)) 0%nat r_gd 0%nat
              ltac:(vm_compute; discriminate) ltac:(vm_compute; reflexivity)
              ltac:(vm_compute; reflexivity) ltac:(vm_compute; reflexivity))
    as (s & H1 & H2 & _).
  exists s. split; [exact H1 | exact H2].
Defined.

Lemma links_sep_not_dash c : links_sep c <> dash.
Proof.
  intros H. apply (f_equal (hd 0)) in H. vm_compute in H. discriminate.
Qed.

Lemma links_br_not_dash c : links_br c <> dash.
Proof.
  intros H. apply (f_equal (hd 0)) in H. vm_compute in H. discriminate.
Qed.

(** X9.  The two renderings of the reference go together.  When the raw
    [SCODE] is truthy and the coerced [OBJTYPE] is not "-", both are link
    pairs built on the same two anchors (the notice and the detail page of
    that stock code), one joined by " | " and one by "<br>"; otherwise both
    are "-".  One is "-" exactly when the other is. *)
Theorem X9_reference_renderings_go_together raw st rows st' (i : nat) it l :
  today st <> [] ->
  process raw st = (Ok rows, st') ->
  List.filter (retained (today st)) raw !! i = Some it ->
  rows !! i = Some l ->
  let d := deref (heap st') l in
  let stock_code := default (PStr []) (it !! lit "SCODE") in
  let notice := anchor (notice_url stock_code) (lit "公告") in
  let detail := anchor (detail_url stock_code) (lit "详细") in
  (truthy stock_code && ne_str (field_of it (lit "OBJTYPE")) dash = true ->
   dict_get d k_related_sep = Some (PStr (notice ++ lit " | " ++ detail))
   /\ dict_get d k_related_br = Some (PStr (notice ++ lit "<br>" ++ detail)))
  /\ (truthy stock_code && ne_str (field_of it (lit "OBJTYPE")) dash = false ->
      dict_get d k_related_sep = Some (PStr dash)
      /\ dict_get d k_related_br = Some (PStr dash))
  /\ (dict_get d k_related_sep = Some (PStr dash)
      <-> dict_get d k_related_br = Some (PStr dash)).
Proof.
  intros Ht Hrun Hit Hl d stock_code notice detail.
  destruct (process_row _ _ _ _ Ht Hrun) as [_ Hrow].
  specialize (Hrow i it l Hit Hl). fold d in Hrow.
  destruct (row_of_inv _ _ _ Hrow) as (date & _ & Hd).
  assert (Hsep : dict_get d k_related_sep
                 = Some (related_cell links_sep stock_code
                           (field_of it (lit "OBJTYPE"))))
    by (rewrite Hd; run_dict; reflexivity).
  assert (Hbr : dict_get d k_related_br
                = Some (related_cell links_br stock_code
                          (field_of it (lit "OBJTYPE"))))
    by (rewrite Hd; run_dict; reflexivity).
  rewrite Hsep, Hbr. unfold related_cell.
  destruct (truthy stock_code && ne_str (field_of it (lit "OBJTYPE")) dash).
  - split; [intros _; split; reflexivity|].
    split; [discriminate|].
    split; intros [= H];
      try (exfalso;
           first [exact (links_sep_not_dash _ H) | exact (links_br_not_dash _ H)]).
  - split; [discriminate|]. split; [intros _; split; reflexivity|]. tauto.
Qed.

Lemma X9_witness :
  dict_get (deref (heap (snd (process feed st0))) 2%nat) k_related_sep
  = Some (PStr dash)
  /\ dict_get (deref (heap (snd (process feed st0))) 2%nat) k_related_br
     = Some (PStr dash).
Proof.
  exact (proj1 (proj2
           (X9_reference_renderings_go_together feed st0 [0; 2]%nat
              (snd (process feed st0)) 1%nat r_bad_amount 2%nat
              ltac:(vm_compute; discriminate) ltac:(vm_compute; reflexivity)
              ltac:(vm_compute; reflexivity) ltac:(vm_compute; reflexivity)))
           ltac:(vm_compute; reflexivity)).
Defined.

Lemma html_name_cons date_str : exists c r, html_name date_str = c :: r.
Proof.
  unfold html_name. destruct (lit "并购重组日报_") as [|c r] eqn:E.
  - vm_compute in E. discriminate.
  - cbn [app]. eauto.
Qed.

Lemma pdf_name_cons p : exists c r, p ++ lit ".pdf" = c :: r.
Proof.
  destruct (p ++ lit ".pdf") as [|c r] eqn:E; [|eauto].
  apply (f_equal (@length Z)) in E. rewrite length_app in E.
  change (length (lit ".pdf")) with 4%nat in E. cbn [length] in E. lia.
Qed.

Lemma generate_html_eq w data date_str :
  Report.generate_html w data date_str
  = match data with
    | [] => (None, [])
    | _ =>
        if Report.write_html w (html_name date_str)
        then (Some (html_name date_str), [Report.EvWriteHtml (html_name date_str)])
        else (None, [])
    end.
Proof. reflexivity. Qed.

(** What [generate] returns and does, by cases on the outside world. *)
Lemma generate_eq w data date_str :
  Report.generate w data date_str
  = let html := html_name date_str in
    let pdf := Report.splitext_root (Report.os_nt w) html ++ lit ".pdf" in
    match data with
    | [] => ([], [])
    | _ =>
        if Report.write_html w html then
          if Report.path_exists w html && Report.convert_pdf w html
          then ([html; pdf], [Report.EvWriteHtml html; Report.EvWritePdf pdf])
          else ([html], [Report.EvWriteHtml html])
        else ([], [])
    end.
Proof.
  unfold Report.generate. rewrite generate_html_eq. cbv zeta.
  destruct data as [|l r]; [reflexivity|].
  destruct (Report.write_html w (html_name date_str)); [|reflexivity].
  destruct (html_name_cons date_str) as (c & t & E). rewrite E.
  unfold Report.generate_pdf.
  destruct (Report.path_exists w (c :: t)); cbn [andb]; [|reflexivity].
  destruct (Report.convert_pdf w (c :: t)); [|reflexivity].
  destruct (pdf_name_cons (Report.splitext_root (Report.os_nt w) (c :: t)))
    as (c' & t' & E').
  rewrite E'. reflexivity.
Qed.

Lemma rfind1_absent c s : forall pos best,
  ~ In c s -> Report.rfind1 c s pos best = best.
Proof.
  induction s as [|x s IH]; intros pos best Hc; [reflexivity|].
  cbn [Report.rfind1].
  destruct (x =? c) eqn:E.
  - apply Z.eqb_eq in E. exfalso. apply Hc. now left.
  - apply IH. intros H. apply Hc. now right.
Qed.

Lemma rfind1_last c a b : forall pos best,
  ~ In c b ->
  Report.rfind1 c (a ++ c :: b) pos best = (pos + length a + 1)%nat.
Proof.
  induction a as [|x a IH]; intros pos best Hb.
  - cbn [app Report.rfind1 length]. rewrite Z.eqb_refl.
    rewrite rfind1_absent by exact Hb. lia.
  - cbn [app Report.rfind1 length]. rewrite IH by exact Hb. lia.
Qed.

(** A character that is no separator on a platform is not a slash, and on
    Windows not a backslash either. *)
Lemma no_sep_absent nt s :
  existsb (is_sep nt) s = false ->
  ~ In 47 s /\ (nt = true -> ~ In 92 s).
Proof.
  intros H. split.
  - intros Hin. apply not_true_iff_false in H. apply H.
    apply existsb_exists. exists 47. split; [exact Hin | reflexivity].
  - intros -> Hin. apply not_true_iff_false in H. apply H.
    apply existsb_exists. exists 92. split; [exact Hin | reflexivity].
Qed.

(** The root that [os.path.splitext] finds for the name of the HTML
    artifact, on either platform, when the date text holds no separator. *)
Lemma splitext_root_html nt date_str :
  existsb (is_sep nt) date_str = false ->
  Report.splitext_root nt (html_name date_str) = lit "并购重组日报_" ++ date_str.
Proof.
  intros Hsep. destruct (no_sep_absent _ _ Hsep) as [Hslash Hback].
  unfold Report.splitext_root, html_name.
  set (P := lit "并购重组日报_").
  assert (HP : P = [24182; 36141; 37325; 32452; 26085; 25253; 95])
    by (vm_compute; reflexivity).
  assert (Hhtml : lit ".html" = 46 :: [104; 116; 109; 108])
    by (vm_compute; reflexivity).
  rewrite Hhtml.
  assert (Habsent : forall c,
            c <> 46 -> ~ In c P -> ~ In c [104; 116; 109; 108] -> ~ In c date_str ->
            Report.rfind1 c (P ++ date_str ++ 46 :: [104; 116; 109; 108]) 0 0
            = 0%nat).
  { intros c Hc HcP Hce Hcd. apply rfind1_absent. rewrite !in_app_iff.
    intros [H | [H | [H | H]]]; [now apply HcP | now apply Hcd | | now apply Hce].
    now apply Hc. }
  assert (Hlast : Report.last_sep nt (P ++ date_str ++ 46 :: [104; 116; 109; 108])
                  = 0%nat).
  { unfold Report.last_sep.
    assert (H47 : Report.rfind1 47 (P ++ date_str ++ 46 :: [104; 116; 109; 108]) 0 0
                  = 0%nat).
    { apply Habsent; [lia | | | exact Hslash]; rewrite ?HP; cbn [In]; lia. }
    destruct nt; [|exact H47].
    rewrite H47, Habsent; [reflexivity | lia | | | now apply Hback];
      rewrite ?HP; cbn [In]; lia. }
  assert (Hdot : Report.rfind1 46 (P ++ date_str ++ 46 :: [104; 116; 109; 108]) 0 0
                 = (length (P ++ date_str) + 1)%nat).
  { rewrite app_assoc. rewrite rfind1_last; [lia|]. cbn [In]. lia. }
  rewrite Hlast, Hdot. cbn [skipn].
  replace (length (P ++ date_str) + 1 - 1 - 0)%nat with (length (P ++ date_str)) by lia.
  replace (length (P ++ date_str) + 1 - 1)%nat with (length (P ++ date_str)) by lia.
  rewrite app_assoc. rewrite drop_0.
  rewrite !take_app_length.
  assert (Hlt : (0 <? length (P ++ date_str) + 1)%nat = true)
    by (apply Nat.ltb_lt; lia).
  rewrite Hlt. cbn [andb].
  assert (Hex : existsb (fun x => negb (x =? 46)) (P ++ date_str) = true).
  { rewrite HP. reflexivity. }
  rewrite Hex. reflexivity.
Qed.

(** The hypothesis on the date text is needed, and it depends on the
    platform: after a date text that ends in a backslash, [ntpath] sees a
    file name made of an extension only and keeps ".html" in the name of
    the PDF artifact, where [posixpath] replaces it. *)
Lemma splitext_root_after_backslash :
  Report.splitext_root true (html_name [50; 92]) ++ lit ".pdf"
  = html_name [50; 92] ++ lit ".pdf"
  /\ Report.splitext_root false (html_name [50; 92]) ++ lit ".pdf"
     = lit "并购重组日报_" ++ [50; 92] ++ lit ".pdf".
Proof. split; vm_compute; reflexivity. Qed.

(** X11.  When the date text holds no directory separator of the platform
    (no slash, and on Windows no backslash either), the two artifacts that
    [generate] returns share their base name: the HTML artifact is the
    prefix and the date text followed by ".html", the PDF artifact the same
    followed by ".pdf". *)
Theorem X11_pdf_shares_the_base_name (w : Report.env) data date_str html pdf :
  existsb (is_sep (Report.os_nt w)) date_str = false ->
  fst (Report.generate w data date_str) = [html; pdf] ->
  html = lit "并购重组日报_" ++ date_str ++ lit ".html"
  /\ pdf = lit "并购重组日报_" ++ date_str ++ lit ".pdf".
Proof.
  intros Hsep Hgen.
  change (lit "并购重组日报_" ++ date_str ++ lit ".html") with (html_name date_str).
  rewrite app_assoc.
  rewrite generate_eq in Hgen. cbv zeta in Hgen.
  rewrite (splitext_root_html _ _ Hsep) in Hgen.
  set (h := html_name date_str) in *.
  set (b := lit "并购重组日报_" ++ date_str) in *.
  set (x := lit ".pdf") in *. clearbody h b x.
  destruct data as [|l r]; [discriminate|].
  destruct (Report.write_html w h); [|discriminate].
  destruct (_ && _); [|discriminate].
  cbn [fst] in Hgen. injection Hgen as <- <-. split; reflexivity.
Qed.

Lemma X11_witness :
  lit "并购重组日报_20240102.html" = lit "并购重组日报_" ++ lit "20240102" ++ lit ".html"
  /\ lit "并购重组日报_20240102.pdf" = lit "并购重组日报_" ++ lit "20240102" ++ lit ".pdf".
Proof.
  apply (X11_pdf_shares_the_base_name (world feed) [0%nat] (lit "20240102")).
  - vm_compute. reflexivity.
  - vm_compute. reflexivity.
Defined.

Lemma send_all_cases (w : Report.env) (paths : list pystr) :
  let ok := fun p => Report.path_exists w p && Report.deliver w p in
  (forallb ok paths = true
   /\ Report.send_all w paths = (Some tt, map Report.EvSendFile paths))
  \/ (exists pre p post,
        paths = pre ++ p :: post
        /\ forallb ok pre = true /\ ok p = false
        /\ Report.send_all w paths
           = (None,
              map Report.EvSendFile (pre ++ [p])
                ++ [Report.EvStatus Report.failed_status
                      (lit "文件发送失败: " ++ p)])).
Proof.
  intros ok. induction paths as [|p rest IH].
  - left. split; reflexivity.
  - cbn [Report.send_all Report.send_file forallb]. fold (ok p).
    destruct (ok p) eqn:Ep.
    + destruct IH as [[Hall Hs] | (pre & q & post & -> & Hpre & Hq & Hs)].
      * left. rewrite Hs. split; [now rewrite Hall | reflexivity].
      * right. exists (p :: pre), q, post. rewrite Hs.
        split; [reflexivity|]. split; [cbn [forallb]; now rewrite Ep, Hpre|].
        split; [exact Hq | reflexivity].
    + right. exists [], p, rest. split; [reflexivity|].
      split; [reflexivity|]. split; [exact Ep | reflexivity].
Qed.

(** X12.  The delivery loop of [main] sends the files in the order given
    and stops at the first file whose delivery fails (or that does not
    exist): either every file is sent and nothing else happens, or the
    files up to and including the first failing one are attempted, a
    failure notification naming that file follows, and no later file is
    attempted. *)
Theorem X12_delivery_stops_at_first_failure (w : Report.env) (paths : list pystr) :
  let ok := fun p => Report.path_exists w p && Report.deliver w p in
  (forallb ok paths = true
   /\ Report.send_all w paths = (Some tt, map Report.EvSendFile paths))
  \/ (exists pre p post,
        paths = pre ++ p :: post
        /\ forallb ok pre = true /\ ok p = false
        /\ Report.send_all w paths
           = (None,
              map Report.EvSendFile (pre ++ [p])
                ++ [Report.EvStatus Report.failed_status
                      (lit "文件发送失败: " ++ p)])).
Proof.
  intros ok. induction paths as [|p rest IH].
  - left. split; reflexivity.
  - cbn [Report.send_all Report.send_file forallb]. fold (ok p).
    destruct (ok p) eqn:Ep.
    + destruct IH as [[Hall Hs] | (pre & q & post & -> & Hpre & Hq & Hs)].
      * left. rewrite Hs. split; [now rewrite Hall | reflexivity].
      * right. exists (p :: pre), q, post. rewrite Hs.
        split; [reflexivity|]. split; [cbn [forallb]; now rewrite Ep, Hpre|].
        split; [exact Hq | reflexivity].
    + right. exists [], p, rest. split; [reflexivity|].
      split; [reflexivity|]. split; [exact Ep | reflexivity].
Qed.

Lemma sends_no_status l : existsb is_status (map Report.EvSendFile l) = false.
Proof. induction l; [reflexivity | exact IHl]. Qed.

Lemma send_all_shape w paths :
  exists ev,
    existsb is_status ev = false
    /\ ((Report.send_all w paths = (Some tt, ev)
         /\ ev = map Report.EvSendFile paths
         /\ forallb (fun p => Report.path_exists w p && Report.deliver w p) paths
            = true)
        \/ exists msg,
             Report.send_all w paths
             = (None, ev ++ [Report.EvStatus Report.failed_status msg])).
Proof.
  destruct (send_all_cases w paths)
    as [[Hall Hs] | (pre & p & post & _ & _ & _ & Hs)].
  - exists (map Report.EvSendFile paths). split; [apply sends_no_status|]. left. auto.
  - exists (map Report.EvSendFile (pre ++ [p])). split; [apply sends_no_status|].
    right. eauto.
Qed.

Lemma generate_events w data date_str :
  snd (Report.generate w data date_str)
  = writes_of (fst (Report.generate w data date_str))
  /\ existsb is_status (snd (Report.generate w data date_str)) = false
  /\ (fst (Report.generate w data date_str) <> [] ->
      exists rest, fst (Report.generate w data date_str)
                   = html_name date_str :: rest).
Proof.
  rewrite generate_eq. cbv zeta. destruct data as [|l r].
  - split; [reflexivity|]. split; [reflexivity|]. intros H. now contradiction H.
  - destruct (Report.write_html w _).
    + destruct (_ && _); cbn [fst snd writes_of map existsb is_status orb];
        (split; [reflexivity|]); (split; [reflexivity|]); eauto.
    + split; [reflexivity|]. split; [reflexivity|]. intros H. now contradiction H.
Qed.

(** X13.  Every run of [main] sends exactly one status notification, as
    its last effect, with status "成功" or "失败"; whatever was written
    or delivered comes before it. *)
Theorem X13_main_ends_with_one_status (w : Report.env) :
  exists ev status msg,
    snd (Report.main w) = ev ++ [Report.EvStatus status msg]
    /\ existsb is_status ev = false
    /\ (status = Report.ok_status \/ status = Report.failed_status).
Proof.
  unfold Report.main. destruct (Report.fetch w) as [|it rest].
  { exists [], Report.ok_status. eexists. cbn [snd app]. auto. }
  destruct (process (it :: rest) _) as [[rows|e] st1].
  2:{ exists [], Report.failed_status. eexists. cbn [Report.on_exception snd app]. auto. }
  destruct rows as [|l rows].
  { exists [], Report.ok_status. eexists. cbn [snd app]. auto. }
  destruct (Analysis.analyze (l :: rows) st1) as [[a|e] st2].
  2:{ exists [], Report.failed_status. eexists. cbn [Report.on_exception snd app]. auto. }
  pose proof (generate_events w (l :: rows) (Report.now_compact w)) as (_ & Hg & _).
  destruct (Report.generate w (l :: rows) (Report.now_compact w)) as [paths ev].
  cbn [snd] in Hg. destruct paths as [|p ps].
  { exists ev, Report.failed_status. eexists. cbn [snd]. auto. }
  destruct (send_all_shape w (p :: ps)) as (ev' & Hs & [(Hsend & _ & _) | (msg & Hsend)]);
    rewrite Hsend.
  - exists (ev ++ ev'), Report.ok_status. eexists. cbn [snd].
    split; [now rewrite app_assoc|]. split; [|auto].
    rewrite existsb_app, Hg, Hs. reflexivity.
  - exists (ev ++ ev'), Report.failed_status, msg. cbn [snd].
    split; [now rewrite app_assoc|]. split; [|auto].
    rewrite existsb_app, Hg, Hs. reflexivity.
Qed.

(** X14.  [main] returns a non-empty list of paths only after a run in
    which [process] returned rows, [generate] produced exactly those paths
    (the HTML artifact first) and every one of them was delivered; the
    effects are then the writes, the deliveries in the same order, and the
    success notification that counts the files. *)
Theorem X14_main_returns_delivered_artifacts (w : Report.env) p ps :
  fst (Report.main w) = Some (p :: ps) ->
  let paths := p :: ps in
  (exists rows st,
     process (Report.fetch w) (mkState [] (Report.now_date w) []) = (Ok rows, st)
     /\ rows <> []
     /\ fst (Report.generate w rows (Report.now_compact w)) = paths)
  /\ p = html_name (Report.now_compact w)
  /\ forallb (fun q => Report.path_exists w q && Report.deliver w q) paths = true
  /\ snd (Report.main w)
     = writes_of paths ++ map Report.EvSendFile paths
         ++ [Report.EvStatus Report.ok_status
               (lit "报告生成并发送成功，共发送"
                  ++ str_of_int (Z.of_nat (length paths)) ++ lit "个文件")].
Proof.
  unfold Report.main. destruct (Report.fetch w) as [|it rest]; [discriminate|].
  destruct (process (it :: rest) _) as [[rows|e] st1] eqn:Hp; [|discriminate].
  destruct rows as [|l rows]; [discriminate|].
  destruct (Analysis.analyze (l :: rows) st1) as [[a|e] st2]; [|discriminate].
  pose proof (generate_events w (l :: rows) (Report.now_compact w)) as (Hw & _ & Hhd).
  destruct (Report.generate w (l :: rows) (Report.now_compact w)) as [paths ev] eqn:Hgen.
  cbn [fst snd] in Hw, Hhd. destruct paths as [|q qs]; [discriminate|].
  destruct (send_all_shape w (q :: qs)) as (ev' & _ & [(Hsend & -> & Hall) | (msg & Hsend)]);
    rewrite Hsend; cbn [fst snd]; [|discriminate].
  intros [= -> ->]. cbv zeta.
  split; [exists (l :: rows), st1; split; [reflexivity|]; split;
          [discriminate | now rewrite Hgen]|].
  split; [destruct (Hhd ltac:(discriminate)) as [r [= -> _]]; reflexivity|].
  split; [exact Hall|]. rewrite Hw. reflexivity.
Qed.

Lemma X14_witness :
  snd (Report.main (world feed))
  = writes_of [html_name (lit "20240102");
               Report.splitext_root false (html_name (lit "20240102")) ++ lit ".pdf"]
      ++ map Report.EvSendFile
           [html_name (lit "20240102");
            Report.splitext_root false (html_name (lit "20240102")) ++ lit ".pdf"]
      ++ [Report.EvStatus Report.ok_status
            (lit "报告生成并发送成功，共发送" ++ str_of_int 2 ++ lit "个文件")].
Proof.
  exact (proj2 (proj2 (proj2
           (X14_main_returns_delivered_artifacts (world feed)
              (html_name (lit "20240102"))
              [Report.splitext_root false (html_name (lit "20240102")) ++ lit ".pdf"]
              ltac:(vm_compute; reflexivity))))).
Defined.

(** X15.  Given a non-empty feed and target date, [main] takes its
    exception path exactly when [process] raises: the analysis of the rows
    that [process] returned never raises.  The run then returns the empty
    list after one failure notification carrying the text of the
    exception, and writes and delivers nothing. *)
Theorem X15_main_fails_exactly_when_process_raises (w : Report.env) :
  Report.now_date w <> [] ->
  Report.fetch w <> [] ->
  (forall e st',
     process (Report.fetch w) (mkState [] (Report.now_date w) []) = (Raise e, st') ->
     Report.main w
     = (Some [],
        [Report.EvStatus Report.failed_status
           (lit "任务执行出错: " ++ message e)]))
  /\ (fst (Report.main w) = Some [] ->
      exists e st',
        process (Report.fetch w) (mkState [] (Report.now_date w) [])
        = (Raise e, st')).
Proof.
  intros Hdate Hfetch. unfold Report.main.
  destruct (Report.fetch w) as [|it rest]; [now contradiction Hfetch|].
  split.
  - intros e st' H. rewrite H. reflexivity.
  - destruct (process (it :: rest) _) as [[rows|e] st1] eqn:Hp; [|eauto].
    destruct rows as [|l rows]; [discriminate|].
    destruct (analyze_on_processed_rows (it :: rest)
                (mkState [] (Report.now_date w) []) (l :: rows) st1
                Hdate Hp ltac:(discriminate)) as (a & Ha & _).
    rewrite Ha.
    destruct (Report.generate w (l :: rows) (Report.now_compact w)) as [paths ev].
    destruct paths as [|q qs]; [discriminate|].
    destruct (Report.send_all w (q :: qs)) as [[u|] ev']; discriminate.
Qed.

Lemma X15_witness :
  Report.main (world [r_null_date])
  = (Some [],
     [Report.EvStatus Report.failed_status
        (lit "任务执行出错: "
           ++ message (mkExn TypeError (lit "'NoneType' object is not subscriptable")))]).
Proof.
  exact (proj1 (X15_main_fails_exactly_when_process_raises (world [r_null_date])
                  ltac:(vm_compute; discriminate) ltac:(discriminate))
           _ (mkState [] target []) ltac:(vm_compute; reflexivity)).
Defined.

Lemma lstrip_nil_blank s : lstrip s = [] -> forallb py_isspace s = true.
Proof.
  induction s as [|c r IH]; [reflexivity|]. cbn [lstrip forallb].
  destruct (py_isspace c); [exact IH | discriminate].
Qed.

Lemma lstrip_head s : lstrip s = [] \/ exists c r, lstrip s = c :: r /\ py_isspace c = false.
Proof.
  induction s as [|c r IH]; [now left|]. cbn [lstrip].
  destruct (py_isspace c) eqn:E; [exact IH | right; eauto].
Qed.

Lemma strip_nil_blank s : strip s = [] -> forallb py_isspace s = true.
Proof.
  unfold strip, rstrip. intros H.
  assert (H1 : lstrip (rev (lstrip s)) = []).
  { apply (f_equal (@rev Z)) in H. now rewrite rev_involutive in H. }
  apply lstrip_nil_blank in H1.
  destruct (lstrip_head s) as [E | (c & r & E & Hc)];
    [now apply lstrip_nil_blank|].
  exfalso. rewrite E in H1. rewrite forallb_forall in H1.
  assert (Hin : In c (rev (c :: r))) by (apply -> in_rev; now left).
  rewrite (H1 c Hin) in Hc. discriminate.
Qed.

Lemma lower_cp_head a c t :
  lower_cp a = c :: t -> c < 128 -> c <> 105 -> c <> 107 ->
  t = [] /\ (a = c \/ (65 <= a <= 90 /\ c = a + 32)).
Proof.
  unfold lower_cp, in_range.
  destruct ((65 <=? a) && (a <=? 90)) eqn:E1.
  - apply andb_true_iff in E1. intros [= <- <-]. intros. split; [reflexivity|].
    right. lia.
  - destruct (a =? 8490) eqn:E2; [intros [= <- <-]; lia|].
    destruct (a =? 304) eqn:E3; [intros [= <- <-]; lia|].
    intros [= <- <-]. auto.
Qed.

Lemma lower_is_none s : lower s = lit "none" -> none_token s = true.
Proof.
  change (lit "none") with [110; 111; 110; 101].
  unfold lower.
  destruct s as [|a s]; [discriminate|]. cbn [flat_map].
  destruct (lower_cp a) as [|c t] eqn:Ea; [unfold lower_cp in Ea; repeat destruct (_ : bool) in Ea; discriminate|].
  cbn [app]. intros [= -> H].
  destruct (lower_cp_head _ _ _ Ea ltac:(lia) ltac:(lia) ltac:(lia)) as [-> Ha].
  cbn [app] in H.
  destruct s as [|b s]; [discriminate|]. cbn [flat_map] in H.
  destruct (lower_cp b) as [|c t] eqn:Eb; [unfold lower_cp in Eb; repeat destruct (_ : bool) in Eb; discriminate|].
  cbn [app] in H. injection H as -> H.
  destruct (lower_cp_head _ _ _ Eb ltac:(lia) ltac:(lia) ltac:(lia)) as [-> Hb].
  cbn [app] in H.
  destruct s as [|c0 s]; [discriminate|]. cbn [flat_map] in H.
  destruct (lower_cp c0) as [|c t] eqn:Ec; [unfold lower_cp in Ec; repeat destruct (_ : bool) in Ec; discriminate|].
  cbn [app] in H. injection H as -> H.
  destruct (lower_cp_head _ _ _ Ec ltac:(lia) ltac:(lia) ltac:(lia)) as [-> Hc].
  cbn [app] in H.
  destruct s as [|d s]; [discriminate|]. cbn [flat_map] in H.
  destruct (lower_cp d) as [|c t] eqn:Ed; [unfold lower_cp in Ed; repeat destruct (_ : bool) in Ed; discriminate|].
  cbn [app] in H. injection H as -> H.
  destruct (lower_cp_head _ _ _ Ed ltac:(lia) ltac:(lia) ltac:(lia)) as [-> Hd].
  cbn [app] in H.
  destruct s as [|x s].
  - unfold none_token.
    rewrite !andb_true_iff, !orb_true_iff, !Z.eqb_eq. lia.
  - exfalso. cbn [flat_map] in H.
    destruct (lower_cp x) as [|c t] eqn:Ex; [|discriminate].
    unfold lower_cp in Ex. repeat destruct (_ : bool) in Ex; discriminate.
Qed.

Lemma digits_aux_chars fuel : forall n acc,
  forallb is_digit acc = true ->
  forallb is_digit (digits_aux fuel n acc) = true.
Proof.
  induction fuel as [|f IH]; intros n acc Hacc; simpl; [exact Hacc|].
  assert (Hd : is_digit (48 + n mod 10) = true)
    by (apply digit_char, Z.mod_pos_bound; lia).
  destruct (n <? 10).
  - simpl. now rewrite Hd.
  - apply IH. simpl. now rewrite Hd.
Qed.

(** A character that is neither a space nor a letter of "none". *)
Lemma plain_char_tests (s : pystr) c :
  In c s -> c = 43 \/ c = 45 \/ c = 46 \/ is_digit c = true ->
  str_eqb (strip s) [] = false /\ str_eqb (lower s) (lit "none") = false.
Proof.
  intros Hin Hc.
  assert (Hsp : py_isspace c = false).
  { assert (Hr : 33 <= c <= 127).
    { destruct Hc as [-> | [-> | [-> | Hd]]]; try lia.
      unfold is_digit, in_range in Hd. apply andb_true_iff in Hd. lia. }
    unfold py_isspace, in_range.
    rewrite (proj2 (Z.leb_gt c 13)), (proj2 (Z.leb_gt c 32)),
      (proj2 (Z.leb_gt 8192 c)) by lia.
    rewrite !andb_false_r. cbn [andb orb].
    repeat (rewrite (proj2 (Z.eqb_neq c _)) by lia). reflexivity. }
  split; apply not_true_is_false; intros E; apply str_eqb_eq in E.
  - apply strip_nil_blank in E. rewrite forallb_forall in E.
    rewrite (E c Hin) in Hsp. discriminate.
  - apply lower_is_none in E.
    destruct s as [|a [|b [|x [|y [|z r]]]]]; try discriminate.
    unfold none_token in E.
    rewrite !andb_true_iff, !orb_true_iff, !Z.eqb_eq in E.
    assert (Hdig : is_digit c = true -> 48 <= c <= 57).
    { unfold is_digit, in_range. rewrite andb_true_iff. lia. }
    cbn [In] in Hin.
    destruct Hc as [-> | [-> | [-> | Hd]]]; [lia | lia | lia |].
    apply Hdig in Hd. lia.
Qed.

Lemma str_of_int_char n :
  exists c, In c (str_of_int n) /\ (c = 43 \/ c = 45 \/ c = 46 \/ is_digit c = true).
Proof.
  unfold str_of_int. destruct (n <? 0).
  - exists 45. split; [now left | auto].
  - pose proof (digits_aux_chars (S (Z.to_nat (Z.log2 n))) n [] eq_refl) as Hd.
    fold (digits_of n) in Hd.
    destruct (digits_of n) as [|c r] eqn:E; [now apply digits_of_nonempty in E|].
    exists c. split; [now left|]. cbn [forallb] in Hd.
    apply andb_true_iff in Hd. tauto.
Qed.

Lemma float_repr_char neg m e :
  exists c, In c (float_repr (FFin neg m e))
            /\ (c = 43 \/ c = 45 \/ c = 46 \/ is_digit c = true).
Proof.
  cbn [float_repr].
  assert (Hbody : forall body : pystr,
            (exists c, In c body /\ (c = 43 \/ c = 45 \/ c = 46 \/ is_digit c = true)) ->
            exists c, In c ((if neg then [45] else []) ++ body)
                      /\ (c = 43 \/ c = 45 \/ c = 46 \/ is_digit c = true)).
  { intros body (c & Hin & Hc). exists c. split; [apply in_or_app; now right | exact Hc]. }
  apply Hbody.
  destruct (m =? 0)%N.
  { exists 46. split; [vm_compute; tauto | auto]. }
  destruct (shortest 16 1 (Z.of_N m) e) as [c k].
  cbv zeta.
  destruct (_ && _).
  - destruct (_ <=? 0).
    + exists 46. split; [|auto]. apply in_or_app. left. vm_compute. tauto.
    + destruct (_ <=? _).
      * exists 46. split; [|auto]. apply in_or_app. right. apply in_or_app. right.
        vm_compute. tauto.
      * exists 46. split; [|auto]. apply in_or_app. right. apply in_or_app. left.
        now left.
  - destruct (_ <? 0) eqn:Es.
    + exists 45. split; [|auto]. apply in_or_app. right. apply in_or_app. right.
      apply in_or_app. left. right. now left.
    + exists 43. split; [|auto]. apply in_or_app. right. apply in_or_app. right.
      apply in_or_app. left. right. now left.
Qed.

(** Line 92, exactly: a missing value becomes the sentinel and every other
    value is kept as it is. *)
Lemma coerce_exact v : coerce v = if missing (Some v) then PStr dash else v.
Proof.
  destruct v as [|b|n|x|s].
  - reflexivity.
  - destruct b; vm_compute; reflexivity.
  - destruct (str_of_int_char n) as (c & Hin & Hc).
    destruct (plain_char_tests _ c Hin Hc) as [H1 H2].
    unfold coerce. cbn [is_none py_str missing orb]. now rewrite H1, H2.
  - destruct x as [|neg|neg m e].
    + vm_compute. reflexivity.
    + destruct neg; vm_compute; reflexivity.
    + destruct (float_repr_char neg m e) as (c & Hin & Hc).
      destruct (plain_char_tests _ c Hin Hc) as [H1 H2].
      unfold coerce. cbn [is_none py_str missing orb]. now rewrite H1, H2.
  - unfold coerce. cbn [is_none py_str missing orb].
    assert (H1 : str_eqb (strip s) [] = forallb py_isspace s).
    { destruct (forallb py_isspace s) eqn:E.
      - rewrite (strip_blank s E). reflexivity.
      - apply not_true_is_false. intros H. apply str_eqb_eq in H.
        apply strip_nil_blank in H. congruence. }
    assert (H2 : str_eqb (lower s) (lit "none") = none_token s).
    { destruct (none_token s) eqn:E.
      - rewrite (lower_none_token s E). apply str_eqb_refl.
      - apply not_true_is_false. intros H. apply str_eqb_eq in H.
        apply lower_is_none in H. congruence. }
    now rewrite H1, H2.
Qed.

(** X16.  Coercion is exact: a source value counts as missing (absent,
    null, blank text, or "none" in any letter case) exactly when it is
    replaced by "-"; every other value, a number or boolean included, is
    kept unchanged.  So in the row of a retained record each pass-through
    field holds "-" for a missing source value and the source value itself
    otherwise. *)
Theorem X16_pass_through_fields_are_exact raw st rows st' (i : nat) it l api report :
  today st <> [] ->
  process raw st = (Ok rows, st') ->
  List.filter (retained (today st)) raw !! i = Some it ->
  rows !! i = Some l ->
  In (api, report) field_mapping ->
  api <> lit "JYJE" -> api <> lit "OBJTYPE" -> api <> lit "ANNOUNDATE" ->
  dict_get (deref (heap st') l) report
  = Some (match it !! api with
          | Some v => if missing (Some v) then PStr dash else v
          | None => PStr dash
          end).
Proof.
  intros Ht Hrun Hit Hl Hin H1 H2 H3.
  destruct (process_row _ _ _ _ Ht Hrun) as [_ Hrow].
  specialize (Hrow i it l Hit Hl).
  destruct (row_of_inv _ _ _ Hrow) as (date & _ & ->).
  assert (Hf : field_of it api
               = match it !! api with
                 | Some v => if missing (Some v) then PStr dash else v
                 | None => PStr dash
                 end).
  { unfold field_of. destruct (it !! api) as [v|]; cbn [default from_option id].
    - apply coerce_exact.
    - reflexivity. }
  rewrite <- Hf. clear Hf.
  unfold field_mapping in Hin. cbn [In] in Hin.
  repeat (destruct Hin as [Hin | Hin]; [injection Hin as <- <- | ]);
    try contradiction;
    try (exfalso; now apply H1); try (exfalso; now apply H2);
    try (exfalso; now apply H3);
    run_dict; reflexivity.
Qed.

Lemma X16_witness :
  dict_get (deref (heap (snd (process feed st0))) 2%nat) (lit "股票代码")
  = Some (PInt 7).
Proof.
  exact (X16_pass_through_fields_are_exact feed st0 [0; 2]%nat
           (snd (process feed st0)) 1%nat r_bad_amount 2%nat
           (lit "SCODE") (lit "股票代码")
           ltac:(vm_compute; discriminate) ltac:(vm_compute; reflexivity)
           ltac:(vm_compute; reflexivity) ltac:(vm_compute; reflexivity)
           ltac:(vm_compute; left; reflexivity)
           ltac:(vm_compute; discriminate) ltac:(vm_compute; discriminate)
           ltac:(vm_compute; discriminate)).
Defined.

Lemma process_loop_no_match raw : forall serial acc st,
  Forall (fun it => exists s,
            default (PStr []) (it !! lit "SCGGRQ") = PStr s
            /\ slice_to 10 s <> today st) raw ->
  process_loop raw serial acc st = (Ok acc, st).
Proof.
  induction raw as [|it rest IH]; intros serial acc st Hall; [reflexivity|].
  apply Forall_cons in Hall. destruct Hall as [(s & Hs & Hne) Hrest].
  cbn [process_loop]. unfold bind at 1. unfold lift. rewrite Hs. cbn [getslice].
  unfold bind at 1. unfold get_today, ne_str, eq_str.
  apply str_eqb_neq in Hne. rewrite Hne. cbn [negb]. now apply IH.
Qed.

(** X17.  When no record of the feed is disclosed on the target date (each
    disclosure date being absent or a string with other first ten
    characters), [process] returns the empty list and leaves the processor
    and the store exactly as they were: nothing is allocated, nothing is
    tagged. *)
Theorem X17_no_record_on_the_target_date raw st :
  Forall (fun it => exists s,
            default (PStr []) (it !! lit "SCGGRQ") = PStr s
            /\ slice_to 10 s <> today st) raw ->
  process raw st = (Ok [], st).
Proof.
  intros Hall. destruct raw as [|it rest]; [reflexivity|].
  unfold process. now apply process_loop_no_match.
Qed.

Lemma X17_witness : process [r_old] st0 = (Ok [], st0).
Proof.
  apply X17_no_record_on_the_target_date.
  constructor; [|constructor].
  exists (lit "2024-01-01 00:00:00"). split; [vm_compute; reflexivity|].
  vm_compute. discriminate.
Defined.

(** X18.  The amount field of the row of a retained record is read off the
    coerced [JYJE] value.  It is the sentinel when the source value is
    missing or is the sentinel, and when [float] raises.  When [float]
    yields a finite number, it is that number rounded to the nearest
    hundredth (ties to even), printed with its sign, thousands separators,
    exactly two decimals and no zero in front of the integer part; so
    "1234567.5" gives "1,234,567.50". *)
Theorem X18_finite_amount_is_rounded_and_grouped raw st rows st' (i : nat) it l :
  today st <> [] ->
  process raw st = (Ok rows, st') ->
  List.filter (retained (today st)) raw !! i = Some it ->
  rows !! i = Some l ->
  let value := field_of it (lit "JYJE") in
  let cell := dict_get (deref (heap st') l) k_amount in
  (missing (it !! lit "JYJE") = true \/ value = PStr dash ->
   cell = Some (PStr dash))
  /\ (forall e, py_float value = Raise e -> cell = Some (PStr dash))
  /\ (forall neg m e,
        py_float value = Ok (FFin neg m e) ->
        exists s,
          cell = Some (PStr s)
          /\ grouped_2dp s = true
          /\ is_negative s = neg
          /\ nearest_hundredths (Z.of_N m) e (read_digits s))
  /\ (it !! lit "JYJE" = Some (PStr (lit "1234567.5")) ->
      cell = Some (PStr (lit "1,234,567.50"))).
Proof.
  intros Ht Hrun Hit Hl value cell.
  destruct (process_row _ _ _ _ Ht Hrun) as [_ Hrow].
  specialize (Hrow i it l Hit Hl).
  destruct (row_of_inv _ _ _ Hrow) as (date & _ & Hd).
  assert (Hcell : cell = Some (amount_cell value)).
  { unfold cell. rewrite Hd. run_dict. reflexivity. }
  rewrite Hcell. split; [|split; [|split]].
  - intros [Hm | Hv].
    + unfold value. now rewrite (field_of_missing _ _ Hm).
    + now rewrite Hv.
  - intros e He. unfold amount_cell. rewrite He. now destruct (ne_str _ _).
  - intros neg m e Hf.
    assert (Hne : ne_str value dash = true).
    { destruct value as [| | | |s]; try reflexivity.
      unfold ne_str, eq_str. destruct (str_eqb s dash) eqn:E; [|reflexivity].
      apply str_eqb_eq in E. subst s. vm_compute in Hf. discriminate. }
    unfold amount_cell. rewrite Hne, Hf.
    exists (format_2f (FFin neg m e)).
    destruct (format_2f_value neg m e) as [Hval Hsign].
    split; [reflexivity | split; [apply format_2f_grouped | split; [exact Hsign|]]].
    rewrite Hval. apply hundredths_nearest. lia.
  - intros Hraw. unfold value, field_of. rewrite Hraw. vm_compute. reflexivity.
Qed.

Lemma X18_witness :
  dict_get (deref (heap (snd (process feed st0))) 0%nat) k_amount
  = Some (PStr (lit "1,234,567.50")).
Proof.
  refine (proj2 (proj2 (proj2
            (X18_finite_amount_is_rounded_and_grouped feed st0 [0; 2]%nat (snd (process feed st0))
               0%nat r_gd 0%nat _ _ _ _))) _).
  - vm_compute. discriminate.
  - vm_compute. reflexivity.
  - vm_compute. reflexivity.
  - vm_compute. reflexivity.
  - vm_compute. reflexivity.
Defined.
